(** * Single-file components for vanilla JS: the Vite plugin

    A shallow embedding of the two plugin variants of the repository,
    [src/vite-plugin-sfc.js] (scripts appended as they are) and
    [src/unnamed/part_001] (scripts wrapped per matched element), with
    the properties of their extraction, aggregation and output steps.

    JavaScript strings are sequences of UTF-16 code units ([list N]);
    the file system is a finite map from paths to nodes; the hooks of
    the plugin are computations in a state-and-exception monad over the
    plugin's closure variables and the file system.  The HTML parser,
    the two minifiers and the working directory belong to the host and
    are taken as parameters ([Host]). *)

From Stdlib Require Import NArith Ascii String.
From stdpp Require Import gmap list.

(** ** JavaScript strings *)

Module JS.

Abbreviation jsstring := (list N).

(** A string literal of the source, as code units. *)
Definition lit (s : string) : jsstring :=
  List.map N_of_ascii (list_ascii_of_string s).
Arguments lit s%_string.

Definition dquote : N := 34.
Definition backtick : N := 96.
Definition newline : N := 10.
Definition space : N := 32.

(** The class [\s] of regular expressions, which is also what
    [String.prototype.trim] strips: WhiteSpace and LineTerminator. *)
Definition isWhiteSpace (c : N) : bool :=
  ((9 <=? c) && (c <=? 13) || (c =? 32) || (c =? 160) || (c =? 5760)
   || (8192 <=? c) && (c <=? 8202) || (c =? 8232) || (c =? 8233)
   || (c =? 8239) || (c =? 8287) || (c =? 12288) || (c =? 65279))%N.

Fixpoint dropWhile {A} (p : A -> bool) (l : list A) : list A :=
  match l with
  | [] => []
  | x :: l' => if p x then dropWhile p l' else l
  end.

Definition trimStart (s : jsstring) : jsstring := dropWhile isWhiteSpace s.
Definition trimEnd (s : jsstring) : jsstring :=
  rev (dropWhile isWhiteSpace (rev s)).
(** [s.trim()] *)
Definition trim (s : jsstring) : jsstring := trimEnd (trimStart s).

(** [s.replace(/\s\s+/g, ' ')] as a left-to-right scan.  [inrun] says
    that the scan is inside a match whose replacement was already
    emitted: the greedy [\s+] keeps consuming.  Outside a match, a match
    starts at a whitespace unit that is followed by another one. *)
Fixpoint collapse_from (inrun : bool) (s : jsstring) : jsstring :=
  match s with
  | [] => []
  | c :: rest =>
      if inrun then
        if isWhiteSpace c then collapse_from true rest
        else c :: collapse_from false rest
      else if isWhiteSpace c then
        match rest with
        | c2 :: _ =>
            if isWhiteSpace c2 then space :: collapse_from true rest
            else c :: collapse_from false rest
        | [] => [c]
        end
      else c :: collapse_from false rest
  end.

Definition collapse (s : jsstring) : jsstring := collapse_from false s.

(** Some pair of adjacent code units is a pair of whitespace units. *)
Fixpoint has_ws_run (s : jsstring) : bool :=
  match s with
  | c1 :: rest =>
      match rest with
      | c2 :: _ => isWhiteSpace c1 && isWhiteSpace c2 || has_ws_run rest
      | [] => false
      end
  | [] => false
  end.

Definition starts_ws (s : jsstring) : bool :=
  match s with
  | c :: _ => isWhiteSpace c
  | [] => false
  end.

Definition ends_ws (s : jsstring) : bool :=
  match last s with
  | Some c => isWhiteSpace c
  | None => false
  end.

(** [s.endsWith(suffix)] and [s.includes(sub)] *)
Fixpoint startsWith (pre s : jsstring) : bool :=
  match pre, s with
  | [], _ => true
  | p :: pre', c :: s' => (p =? c)%N && startsWith pre' s'
  | _ :: _, [] => false
  end.

Definition endsWith (s suffix : jsstring) : bool :=
  startsWith (rev suffix) (rev s).

Fixpoint includes (s sub : jsstring) : bool :=
  startsWith sub s ||
  match s with
  | [] => false
  | _ :: s' => includes s' sub
  end.

(** JavaScript truthiness of a string: non-empty. *)
Definition truthy (s : jsstring) : bool :=
  match s with
  | [] => false
  | _ :: _ => true
  end.

End JS.
Import JS.

(** ** The parsed document

    [parse] of node-html-parser belongs to the host.  The plugin uses
    its result only through [root.querySelector(tag)], which yields the
    first element with that tag name in document order or [null], and
    through the [innerHTML] and [text] of that element.  A document is
    therefore the sequence of its elements in document order, each with
    the three properties that the plugin reads. *)

Record Element := mkElement {
  tagName : jsstring;
  innerHTML : jsstring;
  text : jsstring
}.

Abbreviation Document := (list Element).

Definition hasTag (tag : jsstring) (e : Element) : bool :=
  bool_decide (tagName e = tag).

Definition querySelector (root : Document) (tag : jsstring) : option Element :=
  List.find (hasTag tag) root.

(** ** The file system *)

Abbreviation path := (list (list N)).

Inductive node :=
  | File (content : jsstring)
  | Dir (entries : list jsstring).

Inductive Error :=
  | ENOENT | ENOTDIR | EISDIR | EEXIST
  | MinifyError.

Inductive Res (A : Type) :=
  | Ok (a : A)
  | Throw (e : Error).
Arguments Ok {A} a.
Arguments Throw {A} e.

Module Fs.

Definition existsSync (fs : gmap path node) (p : path) : bool :=
  match fs !! p with
  | Some _ => true
  | None => false
  end.

Definition readdirSync (fs : gmap path node) (p : path) : Res (list jsstring) :=
  match fs !! p with
  | Some (Dir entries) => Ok entries
  | Some (File _) => Throw ENOTDIR
  | None => Throw ENOENT
  end.

Definition readFileSync (fs : gmap path node) (p : path) : Res jsstring :=
  match fs !! p with
  | Some (File content) => Ok content
  | Some (Dir _) => Throw EISDIR
  | None => Throw ENOENT
  end.

(** [path.join(dir, name)] for a directory and an entry name. *)
Definition join (dir : path) (name : jsstring) : path := dir ++ [name].

Definition addEntry (name : jsstring) (entries : list jsstring) : list jsstring :=
  if bool_decide (name ∈ entries) then entries else entries ++ [name].

(** [fs.writeFileSync(path.join(dir, name), content, 'utf8')]: the
    directory must exist, the target must not be a directory; the file
    is created or replaced as a whole. *)
Definition writeFileSync (fs : gmap path node) (dir : path) (name : jsstring)
    (content : jsstring) : Res (gmap path node) :=
  match fs !! dir with
  | Some (Dir entries) =>
      match fs !! join dir name with
      | Some (Dir _) => Throw EISDIR
      | _ => Ok (<[join dir name := File content]>
                   (<[dir := Dir (addEntry name entries)]> fs))
      end
  | Some (File _) => Throw ENOTDIR
  | None => Throw ENOENT
  end.

(** [fs.mkdirSync(p, { recursive: true })]: walks down from the root
    and creates what is missing; what was created before an error
    stays. *)
Fixpoint mkdirs (done : path) (todo : list jsstring) (fs : gmap path node)
    : option Error * gmap path node :=
  match todo with
  | [] => (None, fs)
  | name :: todo' =>
      match fs !! join done name with
      | Some (Dir _) => mkdirs (join done name) todo' fs
      | Some (File _) =>
          match todo' with
          | [] => (Some EEXIST, fs)
          | _ :: _ => (Some ENOTDIR, fs)
          end
      | None =>
          match fs !! done with
          | Some (Dir entries) =>
              mkdirs (join done name) todo'
                (<[join done name := Dir []]>
                   (<[done := Dir (addEntry name entries)]> fs))
          | Some (File _) => (Some ENOTDIR, fs)
          | None => (Some ENOENT, fs)
          end
      end
  end.

Definition mkdirSync (fs : gmap path node) (p : path)
    : option Error * gmap path node :=
  mkdirs [] p fs.

(** [path.basename(path.join(dir, name), ext)]: the last component,
    without [ext] when it ends with it and is longer than it. *)
Definition basename (p : path) (ext : jsstring) : jsstring :=
  match rev p with
  | [] => []
  | name :: _ =>
      if endsWith name ext && negb (bool_decide (name = ext))
      then take (length name - length ext) name
      else name
  end.

End Fs.

(** ** The host and the plugin's state *)

(** What the plugin imports or is given: [parse] (node-html-parser),
    [new CleanCSS().minify(s).styles], terser's [minify(s, ...)], whose
    promise is rejected ([None]) or resolves to an object with [code],
    and [process.cwd()]. *)
Record Host := mkHost {
  parse : jsstring -> Document;
  cleancss : jsstring -> jsstring;
  minify : jsstring -> option jsstring;
  cwd : path
}.

(** The object [data] that every closure of one plugin instance shares. *)
Record Data := mkData {
  script : jsstring;
  style : jsstring;
  template : jsstring
}.

Definition emptyData : Data := mkData [] [] [].

(** The state that the hooks act on: the file system, the closure
    variables of the plugin instance ([plugin]), what [console.error]
    printed, the directories added to the watcher, the number of
    registered [change] listeners and the number of [full-reload]
    messages sent to the client. *)
Record State (P : Type) := mkState {
  fs : gmap path node;
  plugin : P;
  console : list Error;
  watched : list path;
  listeners : nat;
  sent : nat
}.
Arguments mkState {P}.
Arguments fs {P}.
Arguments plugin {P}.
Arguments console {P}.
Arguments watched {P}.
Arguments listeners {P}.
Arguments sent {P}.

Definition set_fs {P : Type} (f : gmap path node) (s : State P) : State P :=
  mkState f (plugin s) (console s) (watched s) (listeners s) (sent s).
Definition set_plugin {P : Type} (p : P) (s : State P) : State P :=
  mkState (fs s) p (console s) (watched s) (listeners s) (sent s).

(** *** The monad of the hooks: state, and exceptions that keep the
    state reached when they were thrown. *)

Module Hook.

Definition M (P A : Type) : Type := State P -> Res A * State P.

Definition ret {P A : Type} (a : A) : M P A := fun s => (Ok a, s).

Definition bind {P A B : Type} (m : M P A) (k : A -> M P B) : M P B :=
  fun s =>
    match m s with
    | (Ok a, s') => k a s'
    | (Throw e, s') => (Throw e, s')
    end.

Definition throw {P A : Type} (e : Error) : M P A := fun s => (Throw e, s).

(** [promise.catch(handler)], and [try ... catch]. *)
Definition catch {P : Type} (m : M P unit) (handler : Error -> M P unit) : M P unit :=
  fun s =>
    match m s with
    | (Ok a, s') => (Ok a, s')
    | (Throw e, s') => handler e s'
    end.

Definition get {P : Type} : M P (State P) := fun s => (Ok s, s).
Definition modify {P : Type} (f : State P -> State P) : M P unit :=
  fun s => (Ok tt, f s).

(** A file-system operation that yields a value. *)
Definition readFs {P A : Type} (op : gmap path node -> Res A) : M P A :=
  fun s =>
    match op (fs s) with
    | Ok a => (Ok a, s)
    | Throw e => (Throw e, s)
    end.

(** A file-system operation that changes the file system. *)
Definition writeFs {P : Type} (op : gmap path node -> Res (gmap path node)) : M P unit :=
  fun s =>
    match op (fs s) with
    | Ok f => (Ok tt, set_fs f s)
    | Throw e => (Throw e, s)
    end.

Definition when {P : Type} (b : bool) (m : M P unit) : M P unit :=
  if b then m else ret tt.

(** [list.forEach(f)]: an exception ends the loop. *)
Fixpoint forEach {P A : Type} (l : list A) (f : A -> M P unit) : M P unit :=
  match l with
  | [] => ret tt
  | x :: l' => bind (f x) (fun _ => forEach l' f)
  end.

Definition existsSync {P : Type} (p : path) : M P bool :=
  fun s => (Ok (Fs.existsSync (fs s) p), s).
Definition readdirSync {P : Type} (p : path) : M P (list jsstring) :=
  readFs (fun f => Fs.readdirSync f p).
Definition readFileSync {P : Type} (p : path) : M P jsstring :=
  readFs (fun f => Fs.readFileSync f p).
Definition writeFileSync {P : Type} (dir : path) (name content : jsstring) : M P unit :=
  writeFs (fun f => Fs.writeFileSync f dir name content).
Definition mkdirSync {P : Type} (p : path) : M P unit :=
  fun s =>
    match Fs.mkdirSync (fs s) p with
    | (None, f) => (Ok tt, set_fs f s)
    | (Some e, f) => (Throw e, set_fs f s)
    end.

(** [console.error('Error writing dev files:', err)] *)
Definition console_error {P : Type} (e : Error) : M P unit :=
  modify (fun s => mkState (fs s) (plugin s) (console s ++ [e])
                     (watched s) (listeners s) (sent s)).

(** [server.watcher.add(dir)], [server.watcher.on('change', handler)]
    and [server.ws.send({ type: 'full-reload' })]. *)
Definition watcher_add {P : Type} (dir : path) : M P unit :=
  modify (fun s => mkState (fs s) (plugin s) (console s)
                     (watched s ++ [dir]) (listeners s) (sent s)).
Definition watcher_on_change {P : Type} : M P unit :=
  modify (fun s => mkState (fs s) (plugin s) (console s)
                     (watched s) (S (listeners s)) (sent s)).
Definition ws_send_full_reload {P : Type} : M P unit :=
  modify (fun s => mkState (fs s) (plugin s) (console s)
                     (watched s) (listeners s) (S (sent s))).

(** [await minify(combined, ...)], then [jsResult.code]. *)
Definition await_minify {P : Type} (h : Host) (combined : jsstring) : M P jsstring :=
  match minify h combined with
  | Some code => ret code
  | None => throw MinifyError
  end.

End Hook.
Import Hook.

Declare Scope hook_scope.
Delimit Scope hook_scope with hook.
Notation "'let!' x ':=' m 'in' k" := (bind m (fun x => k))
  (at level 10, x name, m at level 100, k at level 200) : hook_scope.
Notation "m ;;; k" := (bind m (fun _ => k))
  (at level 100, k at level 200, right associativity) : hook_scope.
Open Scope hook_scope.

(** ** The fragments of generated script *)

(** ['document.querySelectorAll("' + filename +
     '").forEach(function(e){' + 'e.innerHTML = `' + templateHTML + '`' + '})\n'] *)
Definition templateFragment (filename templateHTML : jsstring) : jsstring :=
  lit "document.querySelectorAll(" ++ [dquote] ++ filename ++
  [dquote] ++ lit ").forEach(function(e){" ++
  lit "e.innerHTML = `" ++ templateHTML ++ lit "`" ++ lit "})" ++ [newline].

(** ['document.querySelectorAll("' + filename + '").forEach(function(' +
     filename + '){' + scriptContent + '})\n'] *)
Definition wrappedScript (filename scriptContent : jsstring) : jsstring :=
  lit "document.querySelectorAll(" ++ [dquote] ++ filename ++
  [dquote] ++ lit ").forEach(function(" ++ filename ++ lit "){" ++
  scriptContent ++ lit "})" ++ [newline].

(** [data.template + ' ' + data.script] *)
Definition combined (d : Data) : jsstring :=
  template d ++ lit " " ++ script d.

Definition add_template (x : jsstring) (d : Data) : Data :=
  mkData (script d) (style d) (template d ++ x).
Definition add_script (x : jsstring) (d : Data) : Data :=
  mkData (script d ++ x) (style d) (template d).
Definition add_style (x : jsstring) (d : Data) : Data :=
  mkData (script d) (style d ++ x) (template d).

(** ** The plugin of [src/unnamed/part_001]: scripts are wrapped *)

Module Part001.
Section Plugin.

Variable h : Host.

(** The closure of [sfcPlugin()] holds [data] only. *)
Definition sfcPlugin : Data := emptyData.

Definition update (f : Data -> Data) : M Data unit :=
  modify (fun s => set_plugin (f (plugin s)) s).

(** The three [if] statements of [extractTags], on the parsed file. *)
Definition templateStep (filename : jsstring) (root : Document) (d : Data) : Data :=
  match querySelector root (lit "template") with
  | Some el =>
      let templateHTML := collapse (innerHTML el) in
      add_template (templateFragment filename templateHTML) d
  | None => d
  end.

Definition scriptStep (filename : jsstring) (root : Document) (d : Data) : Data :=
  match querySelector root (lit "script") with
  | Some el =>
      let scriptContent := trim (text el) in
      if truthy scriptContent
      then add_script (wrappedScript filename scriptContent) d
      else d
  | None => d
  end.

Definition styleStep (root : Document) (d : Data) : Data :=
  match querySelector root (lit "style") with
  | Some el => add_style (text el) d
  | None => d
  end.

Definition extractTags (filepath : path) : M Data unit :=
  let! file := readFileSync filepath in
  let filename := Fs.basename filepath (lit ".html") in
  let root := parse h file in
  update (templateStep filename root) ;;;
  update (scriptStep filename root) ;;;
  update (styleStep root).

(** What one call of [extractTags] makes of [data], given the parsed file. *)
Definition extracted (filename : jsstring) (root : Document) (d : Data) : Data :=
  styleStep root (scriptStep filename root (templateStep filename root d)).

Definition componentsDir : path := cwd h ++ [lit "src"; lit "components"].
Definition publicDir : path := cwd h ++ [lit "public"].
Definition devAssetsDir : path := Fs.join publicDir (lit "assets").
Definition srcDir : path := cwd h ++ [lit "src"].

(** [fs.readdirSync(componentsDir).filter((f) => f.endsWith('.html'))]
    and the [forEach] over it. *)
Definition extractAll : M Data unit :=
  let! entries := readdirSync componentsDir in
  let files := List.filter (fun f => endsWith f (lit ".html")) entries in
  forEach files (fun file => extractTags (Fs.join componentsDir file)).

Definition buildStart : M Data unit :=
  let! there := existsSync componentsDir in
  if negb there then ret tt else extractAll.

(** [options.dir || 'dist']: [dir] is [None] when [options.dir] is
    undefined or empty; the relative ['dist'] is resolved against the
    working directory. *)
Definition writeBundle (dir : option path) : M Data unit :=
  let outDir := default (cwd h ++ [lit "dist"]) dir in
  let assetsDir := Fs.join outDir (lit "assets") in
  let! there := existsSync assetsDir in
  when (negb there) (mkdirSync assetsDir) ;;;
  let! s := get in
  let data := plugin s in
  when (truthy (style data))
    (writeFileSync assetsDir (lit "app.min.css") (cleancss h (style data))) ;;;
  let combined := template data ++ lit " " ++ script data in
  let! code := await_minify h combined in
  writeFileSync assetsDir (lit "app.min.js") code.

(** [async]: the call runs to completion where it is made (the awaited
    minification included); an exception is the rejection of its
    promise. *)
Definition writeDevFiles (assetsDir : path) : M Data unit :=
  let! s := get in
  let data := plugin s in
  when (truthy (style data))
    (writeFileSync assetsDir (lit "app.min.css") (cleancss h (style data))) ;;;
  let combined := template data ++ lit " " ++ script data in
  let! code := await_minify h combined in
  writeFileSync assetsDir (lit "app.min.js") code.

(** The listener of the watcher's [change] event. *)
Definition onChange (file : jsstring) : M Data unit :=
  when (includes file (lit "/components/") && endsWith file (lit ".html"))
    (update (fun d => mkData [] (style d) (template d)) ;;;
     update (fun d => mkData (script d) [] (template d)) ;;;
     update (fun d => mkData (script d) (style d) []) ;;;
     extractAll ;;;
     catch (writeDevFiles devAssetsDir) console_error ;;;
     ws_send_full_reload).

(** The blocks of [configureServer], in the order of the source. *)
Definition ensureDirs : M Data unit :=
  let! havePublic := existsSync publicDir in
  when (negb havePublic) (mkdirSync publicDir) ;;;
  let! haveAssets := existsSync devAssetsDir in
  when (negb haveAssets) (mkdirSync devAssetsDir).

Definition extractIfPresent : M Data unit :=
  let! haveComponents := existsSync componentsDir in
  when haveComponents extractAll.

Definition copyIndex : M Data unit :=
  let! haveIndex := existsSync (Fs.join srcDir (lit "index.html")) in
  when haveIndex
    (let! indexContent := readFileSync (Fs.join srcDir (lit "index.html")) in
     writeFileSync publicDir (lit "index.html") indexContent).

Definition writeOnStart : M Data unit :=
  catch (writeDevFiles devAssetsDir) console_error.

Definition watchIfPresent : M Data unit :=
  let! haveComponents := existsSync componentsDir in
  when haveComponents (watcher_add componentsDir ;;; watcher_on_change).

Definition configureServer : M Data unit :=
  ensureDirs ;;;
  extractIfPresent ;;;
  copyIndex ;;;
  writeOnStart ;;;
  watchIfPresent.

End Plugin.
End Part001.

(** ** The plugin of [src/vite-plugin-sfc.js]: scripts run globally *)

Module Sfc.

(** The closure of [sfcPlugin()] holds [data] and [isDev]. *)
Record Plugin := mkPlugin {
  data : Data;
  isDev : bool
}.

Section Plugin.

Variable h : Host.

Definition sfcPlugin : Plugin := mkPlugin emptyData true.

Definition update (f : Data -> Data) : M Plugin unit :=
  modify (fun s => set_plugin (mkPlugin (f (data (plugin s))) (isDev (plugin s))) s).

Definition set_isDev (b : bool) : M Plugin unit :=
  modify (fun s => set_plugin (mkPlugin (data (plugin s)) b) s).

Definition templateStep (filename : jsstring) (root : Document) (d : Data) : Data :=
  match querySelector root (lit "template") with
  | Some el =>
      add_template
        (templateFragment filename (collapse (innerHTML el))) d
  | None => d
  end.

(** [data.script += root.querySelector('script').text + '\n'] *)
Definition scriptStep (root : Document) (d : Data) : Data :=
  match querySelector root (lit "script") with
  | Some el => add_script (text el ++ [newline]) d
  | None => d
  end.

Definition styleStep (root : Document) (d : Data) : Data :=
  match querySelector root (lit "style") with
  | Some el => add_style (text el) d
  | None => d
  end.

Definition extractTags (filepath : path) : M Plugin unit :=
  let! file := readFileSync filepath in
  let filename := Fs.basename filepath (lit ".html") in
  let root := parse h file in
  update (templateStep filename root) ;;;
  update (scriptStep root) ;;;
  update (styleStep root).

Definition extracted (filename : jsstring) (root : Document) (d : Data) : Data :=
  styleStep root (scriptStep root (templateStep filename root d)).

Definition componentsDir : path := cwd h ++ [lit "src"; lit "components"].
Definition publicDir : path := cwd h ++ [lit "public"].
Definition devAssetsDir : path := Fs.join publicDir (lit "assets").
Definition srcDir : path := cwd h ++ [lit "src"].

Definition extractAll : M Plugin unit :=
  let! entries := readdirSync componentsDir in
  let files := List.filter (fun f => endsWith f (lit ".html")) entries in
  forEach files (fun file => extractTags (Fs.join componentsDir file)).

Definition buildStart : M Plugin unit :=
  set_isDev false ;;;
  let! there := existsSync componentsDir in
  if negb there then ret tt else extractAll.

Definition writeBundle (dir : option path) : M Plugin unit :=
  let outDir := default (cwd h ++ [lit "dist"]) dir in
  let assetsDir := Fs.join outDir (lit "assets") in
  let! there := existsSync assetsDir in
  when (negb there) (mkdirSync assetsDir) ;;;
  let! s := get in
  let data := data (plugin s) in
  when (truthy (style data))
    (writeFileSync assetsDir (lit "app.min.css") (cleancss h (style data))) ;;;
  let combined := template data ++ lit " " ++ script data in
  let! code := await_minify h combined in
  writeFileSync assetsDir (lit "app.min.js") code.

(** [writeDevFiles(assetsDir, data, isDev)]: [data] is the shared
    object, [isDev] the value of the variable at the call.  [async]:
    the call runs to completion where it is made; an exception is the
    rejection of its promise. *)
Definition writeDevFiles (assetsDir : path) (isDev : bool) : M Plugin unit :=
  let! s := get in
  let data := data (plugin s) in
  when (truthy (style data))
    (writeFileSync assetsDir (lit "app.min.css") (cleancss h (style data))) ;;;
  let combined := template data ++ lit " " ++ script data in
  if isDev then writeFileSync assetsDir (lit "app.min.js") combined
  else
    let! code := await_minify h combined in
    writeFileSync assetsDir (lit "app.min.js") code.

Definition onChange (file : jsstring) : M Plugin unit :=
  when (includes file (lit "/components/") && endsWith file (lit ".html"))
    (update (fun d => mkData [] (style d) (template d)) ;;;
     update (fun d => mkData (script d) [] (template d)) ;;;
     update (fun d => mkData (script d) (style d) []) ;;;
     extractAll ;;;
     (let! s := get in
      catch (writeDevFiles devAssetsDir (isDev (plugin s))) console_error) ;;;
     ws_send_full_reload).

(** The blocks of [configureServer], in the order of the source. *)
Definition ensureDirs : M Plugin unit :=
  let! havePublic := existsSync publicDir in
  when (negb havePublic) (mkdirSync publicDir) ;;;
  let! haveAssets := existsSync devAssetsDir in
  when (negb haveAssets) (mkdirSync devAssetsDir).

Definition extractIfPresent : M Plugin unit :=
  let! haveComponents := existsSync componentsDir in
  when haveComponents extractAll.

Definition copyIndex : M Plugin unit :=
  let! haveIndex := existsSync (Fs.join srcDir (lit "index.html")) in
  when haveIndex
    (let! indexContent := readFileSync (Fs.join srcDir (lit "index.html")) in
     writeFileSync publicDir (lit "index.html") indexContent).

Definition writeOnStart : M Plugin unit :=
  let! s := get in
  catch (writeDevFiles devAssetsDir (isDev (plugin s))) console_error.

Definition watchIfPresent : M Plugin unit :=
  let! haveComponents := existsSync componentsDir in
  when haveComponents (watcher_add componentsDir ;;; watcher_on_change).

Definition configureServer : M Plugin unit :=
  set_isDev true ;;;
  ensureDirs ;;;
  extractIfPresent ;;;
  copyIndex ;;;
  writeOnStart ;;;
  watchIfPresent.

End Plugin.
End Sfc.

(** ** Properties of the script aggregate, as predicates *)

(** Necessary for [s] to be a JavaScript identifier, so that
    [function(s){...}] binds a variable named [s]: [s] is not empty,
    does not start with a digit, and holds no ASCII unit other than
    letters, digits, [$], [_] and the backslash of a unicode escape. *)
Definition isIdentifierUnit (c : N) : bool :=
  ((97 <=? c) && (c <=? 122) || (65 <=? c) && (c <=? 90)
   || (48 <=? c) && (c <=? 57) || (c =? 36) || (c =? 95) || (c =? 92)
   || (128 <=? c))%N.

Definition identifier_like (s : jsstring) : bool :=
  match s with
  | [] => false
  | c :: _ => negb ((48 <=? c) && (c <=? 57))%N && forallb isIdentifierUnit s
  end.

Definition isLineTerminator (c : N) : bool :=
  ((c =? 10) || (c =? 13) || (c =? 8232) || (c =? 8233))%N.

(** The first quote, backtick or slash of [s] is the [//] that opens a
    line comment. *)
Fixpoint opens_line_comment (s : jsstring) : bool :=
  match s with
  | c1 :: rest =>
      match rest with
      | c2 :: _ =>
          if ((c1 =? 47) && (c2 =? 47))%N then true
          else if ((c1 =? 34) || (c1 =? 39) || (c1 =? 96) || (c1 =? 47))%N
               then false
               else opens_line_comment rest
      | [] => false
      end
  | [] => false
  end.

(** Sufficient for the text put right after [body] to be inside a line
    comment: [body] is one line and a line comment opens in it. *)
Definition comments_out_what_follows (body : jsstring) : bool :=
  forallb (fun c => negb (isLineTerminator c)) body && opens_line_comment body.

(** The claim on the script fragment: the script aggregate went from
    [before] to [after] by a statement that calls, for each element
    selected by the component's name, a function whose parameter is a
    variable of that name and whose body is the script, when the
    trimmed script is not empty; by nothing otherwise.  For the
    statement to be that, the name has to be an identifier and the
    script must not comment out the end of the function. *)
Definition script_runs_bound_to_element (filename : jsstring) (root : Document)
    (before after : Data) : Prop :=
  match querySelector root (lit "script") with
  | Some el =>
      let body := trim (text el) in
      if truthy body
      then script after
           = script before ++
             lit "document.querySelectorAll(" ++ [dquote] ++ filename ++
             [dquote] ++ lit ").forEach(function(" ++ filename ++ lit "){" ++
             body ++ lit "})" ++ [newline]
           /\ identifier_like filename = true
           /\ comments_out_what_follows body = false
      else script after = script before
  | None => script after = script before
  end.

(** The script aggregate depends on the text of the script element
    through its trimmed form only. *)
Definition script_text_trimmed (step : Document -> Data -> Data) : Prop :=
  forall (root root' : Document) (el el' : Element) (d : Data),
    querySelector root (lit "script") = Some el ->
    querySelector root' (lit "script") = Some el' ->
    trim (text el) = trim (text el') ->
    script (step root d) = script (step root' d).

(** ** The output and scan steps on the file system alone

    The file-system side of [writeBundle] and [writeDevFiles] after the
    directory is there: [jsOf] is what the script goes through
    ([minify], or nothing in development mode).  An exception ends the
    function; what was written before stays. *)
Definition writeOutput (css : jsstring -> jsstring)
    (jsOf : jsstring -> option jsstring) (dir : path) (d : Data)
    (f : gmap path node) : Res unit * gmap path node :=
  match (if truthy (style d)
         then Fs.writeFileSync f dir (lit "app.min.css") (css (style d))
         else Ok f) with
  | Throw e => (Throw e, f)
  | Ok f1 =>
      match jsOf (combined d) with
      | None => (Throw MinifyError, f1)
      | Some code =>
          match Fs.writeFileSync f1 dir (lit "app.min.js") code with
          | Ok f2 => (Ok tt, f2)
          | Throw e => (Throw e, f1)
          end
      end
  end.

(** The [forEach] over the component files, on [data] alone: [extract]
    is what one file makes of [data]. *)
Fixpoint scanFiles (extract : jsstring -> Document -> Data -> Data) (h : Host)
    (f : gmap path node) (dir : path) (files : list jsstring) (d : Data)
    : Res unit * Data :=
  match files with
  | [] => (Ok tt, d)
  | file :: rest =>
      match Fs.readFileSync f (Fs.join dir file) with
      | Ok source =>
          scanFiles extract h f dir rest
            (extract (Fs.basename (Fs.join dir file) (lit ".html"))
               (parse h source) d)
      | Throw e => (Throw e, d)
      end
  end.

(** [readdirSync], the filter on [.html] and the [forEach]. *)
Definition scanDir (extract : jsstring -> Document -> Data -> Data) (h : Host)
    (f : gmap path node) (dir : path) (d : Data) : Res unit * Data :=
  match Fs.readdirSync f dir with
  | Ok entries =>
      scanFiles extract h f dir
        (List.filter (fun name => endsWith name (lit ".html")) entries) d
  | Throw e => (Throw e, d)
  end.

(** The script minification of a variant and mode. *)
Definition jsOf (h : Host) (isDev : bool) (js : jsstring) : option jsstring :=
  if isDev then Some js else minify h js.

(** [data] replaced in the state of the [src/vite-plugin-sfc.js] plugin. *)
Definition set_data (d : Data) (s : State Sfc.Plugin) : State Sfc.Plugin :=
  set_plugin (Sfc.mkPlugin d (Sfc.isDev (plugin s))) s.

(** The test of the change listener on the path of the changed file. *)
Definition matches (file : jsstring) : bool :=
  includes file (lit "/components/") && endsWith file (lit ".html").

(** [if (!fs.existsSync(dir)) fs.mkdirSync(dir, { recursive: true })] *)
Definition ensureDir (f : gmap path node) (dir : path)
    : option Error * gmap path node :=
  if Fs.existsSync f dir then (None, f) else Fs.mkdirSync f dir.

(** [options.dir || 'dist'], then [path.join(outDir, 'assets')]. *)
Definition bundleAssetsDir (h : Host) (dir : option path) : path :=
  Fs.join (default (cwd h ++ [lit "dist"]) dir) (lit "assets").

(** ** The rules of the two artifacts

    [f] is the file system before an output function runs on the
    aggregate [d] with the asset directory [dir], [f'] the one after. *)

(** The style artifact: untouched for an empty style aggregate; changed
    only for a non-empty one, and then to its minified text; and
    written for a non-empty one whenever the directory is there and the
    artifact is not a directory. *)
Definition style_artifact_rule (minified : jsstring -> jsstring) (dir : path)
    (d : Data) (f f' : gmap path node) : Prop :=
  let artifact := Fs.join dir (lit "app.min.css") in
  (style d = [] -> f' !! artifact = f !! artifact)
  /\ (f' !! artifact <> f !! artifact ->
      style d <> [] /\ f' !! artifact = Some (File (minified (style d))))
  /\ (style d <> [] ->
      forall entries, f !! dir = Some (Dir entries) ->
      (forall l, f !! artifact <> Some (Dir l)) ->
      f' !! artifact = Some (File (minified (style d)))).

(** The script artifact: whenever the output function returns, the
    artifact holds what [jsOf] makes of template code, one space and
    script code; and the function does return when the directory is
    there, no artifact is a directory and [jsOf] accepts that text,
    whatever the aggregate holds. *)
Definition script_artifact_rule (jsOf : jsstring -> option jsstring)
    (dir : path) (d : Data) (f : gmap path node)
    (result : Res unit) (f' : gmap path node) : Prop :=
  let artifact := Fs.join dir (lit "app.min.js") in
  let handed := template d ++ lit " " ++ script d in
  (result = Ok tt ->
   exists code, jsOf handed = Some code /\ f' !! artifact = Some (File code))
  /\ (forall entries code,
        f !! dir = Some (Dir entries) ->
        (forall l, f !! Fs.join dir (lit "app.min.css") <> Some (Dir l)) ->
        (forall l, f !! artifact <> Some (Dir l)) ->
        jsOf handed = Some code ->
        result = Ok tt /\ f' !! artifact = Some (File code)).

(** Fresh plugin instances of the two variants over a file system:
    nothing printed, watched or sent yet. *)
Definition fresh (f : gmap path node) : State Data :=
  mkState f Part001.sfcPlugin [] [] 0 0.
Definition freshSfc (f : gmap path node) : State Sfc.Plugin :=
  mkState f Sfc.sfcPlugin [] [] 0 0.

(** The directory is missing, or lists no [.html] entry. *)
Definition zero_components (f : gmap path node) (dir : path) : Prop :=
  f !! dir = None
  \/ exists entries,
       f !! dir = Some (Dir entries)
       /\ List.filter (fun name => endsWith name (lit ".html")) entries = [].

(** A computation that leaves the closure variables, the listeners and
    the node at [q] as they are, whatever it returns. *)
Definition preserves {P A : Type} (q : path) (m : M P A) : Prop :=
  forall s : State P,
    plugin (m s).2 = plugin s
    /\ listeners (m s).2 = listeners s
    /\ fs (m s).2 !! q = fs s !! q.

(** ** Later elements of a kind *)



(** ** Aggregates as concatenations *)

(** [d] with the fields of [e] appended, field by field. *)
Definition appendData (d e : Data) : Data :=
  mkData (script d ++ script e) (style d ++ style e)
    (template d ++ template e).

(** What the component file [file] of [dir] adds to an aggregate: the
    fragments that [extract] makes of it, starting from nothing. *)
Definition fragmentsOf (extract : jsstring -> Document -> Data -> Data)
    (h : Host) (f : gmap path node) (dir : path) (file : jsstring) : Data :=
  match Fs.readFileSync f (Fs.join dir file) with
  | Ok source =>
      extract (Fs.basename (Fs.join dir file) (lit ".html"))
        (parse h source) emptyData
  | Throw _ => emptyData
  end.

(** The file can be read. *)
Definition readable (f : gmap path node) (dir : path) (file : jsstring) : bool :=
  match Fs.readFileSync f (Fs.join dir file) with
  | Ok _ => true
  | Throw _ => false
  end.

(** A host like [h] whose script minifier rejects everything. *)
Definition rejecting (h : Host) : Host :=
  mkHost (parse h) (cleancss h) (fun _ => None) (cwd h).

(** A computation that leaves the watcher and the client as they are. *)
Definition keeps_server {P A : Type} (m : M P A) : Prop :=
  forall s : State P,
    watched (m s).2 = watched s /\ sent (m s).2 = sent s.

(** The node at [p] is not a regular file. *)
Definition not_file (f : gmap path node) (p : path) : Prop :=
  forall content, f !! p <> Some (File content).

(** The node at [p] is not a directory. *)
Definition not_dir (f : gmap path node) (p : path) : Prop :=
  forall entries, f !! p <> Some (Dir entries).

(** The entry file and its copy. *)
Definition srcIndex (h : Host) : path :=
  Fs.join (Part001.srcDir h) (lit "index.html").
Definition publicIndex (h : Host) : path :=
  Fs.join (Part001.publicDir h) (lit "index.html").

(** A computation of the [src/vite-plugin-sfc.js] plugin that leaves
    [isDev] as it is. *)
Definition keeps_isDev {A : Type} (m : M Sfc.Plugin A) : Prop :=
  forall s : State Sfc.Plugin,
    Sfc.isDev (plugin (m s).2) = Sfc.isDev (plugin s).

(** ** A small project and host, for examples *)

Module Demo.

(** [card.html]: the three sections, the template with a whitespace run. *)
Definition cardSource : jsstring :=
  lit "<template><div>  {{title}}</div></template><script>card.textContent='x'</script><style>p{color:red}</style>".
Definition cardDoc : Document :=
  [ mkElement (lit "template") (lit "<div>  {{title}}</div>") (lit "  {{title}}");
    mkElement (lit "div") (lit "  {{title}}") (lit "  {{title}}");
    mkElement (lit "script") (lit "card.textContent='x'") (lit "card.textContent='x'");
    mkElement (lit "style") (lit "p{color:red}") (lit "p{color:red}") ].

(** [blank.html]: an empty script element. *)
Definition blankSource : jsstring := lit "<script></script>".
Definition blankDoc : Document :=
  [ mkElement (lit "script") [] [] ].

(** [padded.html] and [tight.html]: the same script, with and without
    whitespace around it. *)
Definition paddedSource : jsstring := lit "<script> go() </script>".
Definition paddedDoc : Document :=
  [ mkElement (lit "script") (lit " go() ") (lit " go() ") ].
Definition tightSource : jsstring := lit "<script>go()</script>".
Definition tightDoc : Document :=
  [ mkElement (lit "script") (lit "go()") (lit "go()") ].

(** [twin.html]: two templates. *)
Definition twinSource : jsstring :=
  lit "<template>one</template><template>two</template>".
Definition twinDoc : Document :=
  [ mkElement (lit "template") (lit "one") (lit "one");
    mkElement (lit "template") (lit "two") (lit "two") ].

(** [note.html]: a script that ends in a line comment. *)
Definition noteSource : jsstring := lit "<script>go() // done</script>".
Definition noteDoc : Document :=
  [ mkElement (lit "script") (lit "go() // done") (lit "go() // done") ].

(** [nested.html]: a second style element, inside the template. *)
Definition nestedSource : jsstring :=
  lit "<style>a{}</style><template><style>b{}</style></template>".
Definition nestedDoc : Document :=
  [ mkElement (lit "style") (lit "a{}") (lit "a{}");
    mkElement (lit "template") (lit "<style>b{}</style>") (lit "b{}");
    mkElement (lit "style") (lit "b{}") (lit "b{}") ].

(** [later.html]: the only style element is inside a second template. *)
Definition laterSource : jsstring :=
  lit "<template>one</template><template><style>s{}</style></template>".
Definition laterDoc : Document :=
  [ mkElement (lit "template") (lit "one") (lit "one");
    mkElement (lit "template") (lit "<style>s{}</style>") (lit "s{}");
    mkElement (lit "style") (lit "s{}") (lit "s{}") ].

Definition sources : list (jsstring * Document) :=
  [ (cardSource, cardDoc); (blankSource, blankDoc);
    (paddedSource, paddedDoc); (tightSource, tightDoc);
    (twinSource, twinDoc); (noteSource, noteDoc);
    (nestedSource, nestedDoc); (laterSource, laterDoc) ].

Fixpoint lookupDoc (table : list (jsstring * Document)) (file : jsstring)
    : Document :=
  match table with
  | [] => []
  | (src, doc) :: table' =>
      if bool_decide (file = src) then doc else lookupDoc table' file
  end.

(** The parser on the files above; the style minifier leaves the text
    as it is; the script minifier trims, and rejects nothing. *)
Definition host : Host :=
  mkHost (lookupDoc sources) (fun css => css) (fun js => Some (trim js))
    [lit "app"].

Definition components : path := [lit "app"; lit "src"; lit "components"].
Definition assets : path := [lit "app"; lit "public"; lit "assets"].
Definition distAssets : path := [lit "app"; lit "dist"; lit "assets"].

(** A project tree with the given component files, [public/assets]
    and [dist/assets]. *)
Definition tree (files : list (jsstring * jsstring)) : gmap path node :=
  foldr (fun f m => <[Fs.join components f.1 := File f.2]> m)
    (<[components := Dir (List.map fst files)]>
    (<[[lit "app"; lit "src"] := Dir [lit "components"]]>
    (<[assets := Dir []]>
    (<[[lit "app"; lit "public"] := Dir [lit "assets"]]>
    (<[distAssets := Dir []]>
    (<[[lit "app"; lit "dist"] := Dir [lit "assets"]]>
    (<[[lit "app"] := Dir [lit "src"; lit "public"; lit "dist"]]>
    (<[[] := Dir [lit "app"]]> ∅))))))))
    files.

(** The same tree without [src/components]. *)
Definition bareTree : gmap path node :=
  <[[lit "app"; lit "src"] := Dir []]> (delete components (tree [])).

Definition cardFile : path := Fs.join components (lit "card.html").

End Demo.

(** ** More of the small project *)

Module Demo2.

(** A project whose component directory also holds a subdirectory
    named [sub.html], between two component files. *)
Definition brokenTree : gmap path node :=
  <[Fs.join Demo.components (lit "sub.html") := Dir []]>
    (<[Demo.components :=
         Dir [lit "card.html"; lit "sub.html"; lit "padded.html"]]>
       (Demo.tree [(lit "card.html", Demo.cardSource);
                   (lit "padded.html", Demo.paddedSource)])).

(** Two projects that differ in a file that is not a component. *)
Definition withNotes (notes : jsstring) : gmap path node :=
  Demo.tree [(lit "card.html", Demo.cardSource); (lit "notes.txt", notes)].

(** A project with [src/index.html]. *)
Definition withIndex : gmap path node :=
  <[[lit "app"; lit "src"; lit "index.html"] := File (lit "<card></card>")]>
    (<[[lit "app"; lit "src"] := Dir [lit "components"; lit "index.html"]]>
       (Demo.tree [(lit "card.html", Demo.cardSource)])).

(** A project with sources only: no [public], no [dist]. *)
Definition sourcesOnly : gmap path node :=
  <[Demo.cardFile := File Demo.cardSource]>
    (<[Demo.components := Dir [lit "card.html"]]>
    (<[[lit "app"; lit "src"] := Dir [lit "components"]]>
    (<[[lit "app"] := Dir [lit "src"]]>
    (<[[] := Dir [lit "app"]]> ∅)))).

End Demo2.

(** * Properties *)

(** *** Facts about the whitespace collapse *)

Section Collapse.

Lemma collapse_from_true_head s :
  starts_ws (collapse_from true s) = false.
Proof.
  induction s as [|c rest IH]; simpl; [reflexivity|].
  destruct (isWhiteSpace c) eqn:Hc; simpl; [exact IH|exact Hc].
Qed.

Lemma collapse_from_false_head c rest :
  isWhiteSpace c = false ->
  starts_ws (collapse_from false (c :: rest)) = false.
Proof. intros Hc. simpl. rewrite Hc. simpl. exact Hc. Qed.

Lemma has_ws_run_cons c s :
  has_ws_run (c :: s) = isWhiteSpace c && starts_ws s || has_ws_run s.
Proof. destruct s as [|c2 s]; simpl; [by rewrite andb_false_r|reflexivity]. Qed.

Lemma collapse_from_no_run b s : has_ws_run (collapse_from b s) = false.
Proof.
  revert b. induction s as [|c rest IH]; intros b; [by destruct b|].
  destruct b.
  - simpl. destruct (isWhiteSpace c) eqn:Hc; [apply IH|].
    rewrite has_ws_run_cons, Hc, IH. reflexivity.
  - cbn [collapse_from].
    destruct (isWhiteSpace c) eqn:Hc.
    + destruct rest as [|c2 rest']; [reflexivity|].
      destruct (isWhiteSpace c2) eqn:Hc2.
      * rewrite has_ws_run_cons, collapse_from_true_head, IH.
        by rewrite andb_false_r.
      * rewrite has_ws_run_cons, (collapse_from_false_head _ _ Hc2), IH.
        by rewrite andb_false_r.
    + rewrite has_ws_run_cons, Hc, IH. reflexivity.
Qed.

(** The scan does what the regular expression says: at two whitespace
    units the whole run is replaced by one space, otherwise the unit is
    copied. *)
Lemma collapse_from_true_dropWhile s :
  collapse_from true s = collapse_from false (dropWhile isWhiteSpace s).
Proof.
  induction s as [|c rest IH]; [reflexivity|].
  simpl. destruct (isWhiteSpace c) eqn:Hc; [exact IH|].
  simpl. rewrite Hc. reflexivity.
Qed.

Lemma collapse_match c1 c2 rest :
  isWhiteSpace c1 = true -> isWhiteSpace c2 = true ->
  collapse (c1 :: c2 :: rest) = space :: collapse (dropWhile isWhiteSpace rest).
Proof.
  intros H1 H2. unfold collapse. simpl. rewrite H1, H2.
  f_equal. apply collapse_from_true_dropWhile.
Qed.

Lemma collapse_copy c rest :
  isWhiteSpace c && starts_ws rest = false ->
  collapse (c :: rest) = c :: collapse rest.
Proof.
  unfold collapse. simpl. destruct (isWhiteSpace c); [|reflexivity].
  destruct rest as [|c2 rest]; simpl; [reflexivity|].
  intros ->. reflexivity.
Qed.

Lemma collapse_id s : has_ws_run s = false -> collapse s = s.
Proof.
  induction s as [|c rest IH]; [reflexivity|].
  rewrite has_ws_run_cons. intros [H1 H2]%orb_false_elim.
  rewrite collapse_copy by exact H1. by rewrite IH.
Qed.

Lemma dropWhile_all {A} (p : A -> bool) w b :
  forallb p w = true -> dropWhile p (w ++ b) = dropWhile p b.
Proof.
  induction w as [|c w IH]; simpl; [reflexivity|].
  intros [-> Hw]%andb_prop. exact (IH Hw).
Qed.

Lemma dropWhile_head s : starts_ws s = false -> dropWhile isWhiteSpace s = s.
Proof. destruct s as [|c s]; simpl; [reflexivity|]. by intros ->. Qed.

Lemma collapse_from_cons2 m c c2 r :
  collapse_from m (c :: c2 :: r) =
  if m then
    if isWhiteSpace c then collapse_from true (c2 :: r)
    else c :: collapse_from false (c2 :: r)
  else if isWhiteSpace c then
    if isWhiteSpace c2 then space :: collapse_from true (c2 :: r)
    else c :: collapse_from false (c2 :: r)
  else c :: collapse_from false (c2 :: r).
Proof. reflexivity. Qed.

Lemma collapse_from_run m a w b :
  (a = [] -> m = false) ->
  ends_ws a = false ->
  forallb isWhiteSpace w = true -> 2 <= length w -> starts_ws b = false ->
  collapse_from m (a ++ w ++ b) = collapse_from m a ++ space :: collapse b.
Proof.
  intros Hm Ha Hw Hlen Hb. revert m Hm Ha.
  induction a as [|c a IH]; intros m Hm Ha.
  - rewrite (Hm eq_refl).
    destruct w as [|c1 [|c2 w]]; simpl in Hlen; [lia|lia|].
    simpl in Hw. apply andb_prop in Hw as [H1 [H2 Hw]%andb_prop].
    change (collapse (c1 :: c2 :: w ++ b) = space :: collapse b).
    rewrite collapse_match by assumption.
    by rewrite (dropWhile_all _ _ _ Hw), dropWhile_head.
  - destruct a as [|c2 a].
    + unfold ends_ws in Ha. simpl in Ha.
      assert (IH0 := IH false (fun _ => eq_refl) eq_refl).
      simpl in IH0. simpl. rewrite Ha. destruct m; by rewrite IH0.
    + assert (Ha' : ends_ws (c2 :: a) = false) by exact Ha.
      assert (IHt := IH true ltac:(discriminate) Ha').
      assert (IHf := IH false ltac:(discriminate) Ha').
      change ((c :: c2 :: a) ++ w ++ b) with (c :: c2 :: (a ++ w ++ b)).
      change ((c2 :: a) ++ w ++ b) with (c2 :: (a ++ w ++ b)) in IHt, IHf.
      rewrite !collapse_from_cons2.
      destruct m, (isWhiteSpace c), (isWhiteSpace c2);
        rewrite ?IHt, ?IHf; reflexivity.
Qed.

(** A run of two or more whitespace units between two other units
    becomes one space. *)
Lemma collapse_run a w b :
  ends_ws a = false ->
  forallb isWhiteSpace w = true -> 2 <= length w -> starts_ws b = false ->
  collapse (a ++ w ++ b) = collapse a ++ space :: collapse b.
Proof. intros. by apply collapse_from_run. Qed.

End Collapse.

(** *** Facts about [trim] *)

Section Trim.

Lemma dropWhile_split {A} (p : A -> bool) s :
  exists l, s = l ++ dropWhile p s /\ forallb p l = true.
Proof.
  induction s as [|c s [l [IH Hl]]]; [by exists []|].
  simpl. destruct (p c) eqn:Hc.
  - exists (c :: l). simpl. rewrite Hc, Hl. by rewrite <- IH.
  - by exists [].
Qed.

Lemma dropWhile_starts s : starts_ws (dropWhile isWhiteSpace s) = false.
Proof.
  induction s as [|c s IH]; [reflexivity|].
  simpl. destruct (isWhiteSpace c) eqn:Hc; [exact IH|exact Hc].
Qed.

Lemma ends_ws_rev s : ends_ws s = starts_ws (rev s).
Proof.
  unfold ends_ws. destruct (rev s) as [|c r] eqn:Hr.
  - apply (f_equal (@rev _)) in Hr. rewrite rev_involutive in Hr. by subst.
  - apply (f_equal (@rev _)) in Hr. rewrite rev_involutive in Hr. subst.
    simpl. by rewrite last_snoc.
Qed.

Lemma forallb_rev {A} (p : A -> bool) l : forallb p (rev l) = forallb p l.
Proof.
  induction l as [|c l IH]; [reflexivity|].
  simpl. rewrite forallb_app, IH. simpl. by rewrite andb_true_r, andb_comm.
Qed.

Lemma starts_ws_trimEnd s : starts_ws s = false -> starts_ws (trimEnd s) = false.
Proof.
  unfold trimEnd. intros Hs.
  destruct (dropWhile_split isWhiteSpace (rev s)) as [l [Hl Hall]].
  destruct (dropWhile isWhiteSpace (rev s)) as [|c r] eqn:Hd; [reflexivity|].
  apply (f_equal (@rev _)) in Hl. rewrite rev_involutive, rev_app_distr in Hl.
  rewrite Hl in Hs. destruct (rev (c :: r)) as [|c' r'] eqn:Hr; [reflexivity|].
  exact Hs.
Qed.

(** [trim] removes a whitespace prefix and a whitespace suffix, and what
    is left neither starts nor ends with whitespace. *)
Lemma trim_spec s :
  exists l r, s = l ++ trim s ++ r
    /\ forallb isWhiteSpace l = true /\ forallb isWhiteSpace r = true
    /\ starts_ws (trim s) = false /\ ends_ws (trim s) = false.
Proof.
  unfold trim, trimStart.
  destruct (dropWhile_split isWhiteSpace s) as [l [Hl Hlw]].
  set (t := dropWhile isWhiteSpace s) in *.
  destruct (dropWhile_split isWhiteSpace (rev t)) as [r [Hr Hrw]].
  exists l, (rev r). repeat split.
  - rewrite Hl at 1. f_equal. unfold trimEnd.
    apply (f_equal (@rev _)) in Hr. rewrite rev_involutive in Hr.
    rewrite Hr at 1. by rewrite rev_app_distr.
  - exact Hlw.
  - by rewrite forallb_rev.
  - apply starts_ws_trimEnd, dropWhile_starts.
  - rewrite ends_ws_rev. unfold trimEnd. rewrite rev_involutive.
    apply dropWhile_starts.
Qed.

End Trim.

(** ** Extraction: what [extractTags] does to [data] *)

Section Extraction.

Variable h : Host.

Lemma Part001_extractTags_run filepath (s : State Data) :
  Part001.extractTags h filepath s =
  match Fs.readFileSync (fs s) filepath with
  | Ok file =>
      (Ok tt,
       set_plugin
         (Part001.extracted (Fs.basename filepath (lit ".html"))
            (parse h file) (plugin s)) s)
  | Throw e => (Throw e, s)
  end.
Proof.
  unfold Part001.extractTags, bind, readFileSync, readFs.
  destruct (Fs.readFileSync (fs s) filepath); reflexivity.
Qed.

Lemma Sfc_extractTags_run filepath (s : State Sfc.Plugin) :
  Sfc.extractTags h filepath s =
  match Fs.readFileSync (fs s) filepath with
  | Ok file =>
      (Ok tt,
       set_plugin
         (Sfc.mkPlugin
            (Sfc.extracted (Fs.basename filepath (lit ".html"))
               (parse h file) (Sfc.data (plugin s)))
            (Sfc.isDev (plugin s))) s)
  | Throw e => (Throw e, s)
  end.
Proof.
  unfold Sfc.extractTags, bind, readFileSync, readFs.
  destruct (Fs.readFileSync (fs s) filepath); reflexivity.
Qed.

(** Each step touches one field of [data]. *)
Lemma Part001_extracted_fields filename root d :
  template (Part001.extracted filename root d)
    = template (Part001.templateStep filename root d)
  /\ script (Part001.extracted filename root d)
    = script (Part001.scriptStep filename root d)
  /\ style (Part001.extracted filename root d)
    = style (Part001.styleStep root d).
Proof.
  unfold Part001.extracted, Part001.styleStep, Part001.scriptStep,
    Part001.templateStep.
  destruct (querySelector root (lit "style")),
    (querySelector root (lit "script")) as [el|],
    (querySelector root (lit "template")); simpl;
    try destruct (truthy (trim (text el))); simpl; auto.
Qed.

Lemma Sfc_extracted_fields filename root d :
  template (Sfc.extracted filename root d)
    = template (Sfc.templateStep filename root d)
  /\ script (Sfc.extracted filename root d) = script (Sfc.scriptStep root d)
  /\ style (Sfc.extracted filename root d) = style (Sfc.styleStep root d).
Proof.
  unfold Sfc.extracted, Sfc.styleStep, Sfc.scriptStep, Sfc.templateStep.
  destruct (querySelector root (lit "style")),
    (querySelector root (lit "script")),
    (querySelector root (lit "template")); simpl; auto.
Qed.

End Extraction.

(** *** The script fragment *)

(** The example of the specification: the wrapped script of [card]. *)
Example wrappedScript_card :
  wrappedScript (lit "card") (lit "card.textContent='x'") =
  lit "document.querySelectorAll(" ++ dquote :: lit "card" ++ dquote ::
  lit ").forEach(function(card){card.textContent='x'})" ++ [newline].
Proof. reflexivity. Qed.

(** C1, as stated, fails in both variants.  In
    [src/vite-plugin-sfc.js] the script of [card.html] is appended as
    it is, with no selection of elements and no binding of [card], and
    the empty script of [blank.html] still adds a line to the
    aggregate.  In [src/unnamed/part_001] the statement for
    [my-widget.html] has the parameter [my-widget], which is no
    identifier and binds no variable, and the statement for [note.html],
    whose script ends in a line comment, has the end of its function
    inside that comment. *)
Lemma script_claim_fails_in_both_variants :
  let f := Demo.tree
             [(lit "card.html", Demo.cardSource);
              (lit "blank.html", Demo.blankSource);
              (lit "my-widget.html", Demo.tightSource);
              (lit "note.html", Demo.noteSource)] in
  let sfc name :=
    Sfc.data (plugin (Sfc.extractTags Demo.host
                        (Fs.join Demo.components name) (freshSfc f)).2) in
  let part001 name :=
    plugin (Part001.extractTags Demo.host
              (Fs.join Demo.components name) (fresh f)).2 in
  (script (sfc (lit "card.html")) = lit "card.textContent='x'" ++ [newline]
   /\ ~ script_runs_bound_to_element (lit "card") Demo.cardDoc
         emptyData (sfc (lit "card.html")))
  /\ (script (sfc (lit "blank.html")) = [newline]
      /\ ~ script_runs_bound_to_element (lit "blank") Demo.blankDoc
            emptyData (sfc (lit "blank.html")))
  /\ (script (part001 (lit "my-widget.html"))
      = lit "document.querySelectorAll(" ++ dquote :: lit "my-widget" ++
        dquote :: lit ").forEach(function(my-widget){go()})" ++ [newline]
      /\ identifier_like (lit "my-widget") = false
      /\ ~ script_runs_bound_to_element (lit "my-widget") Demo.tightDoc
            emptyData (part001 (lit "my-widget.html")))
  /\ (script (part001 (lit "note.html"))
      = lit "document.querySelectorAll(" ++ dquote :: lit "note" ++
        dquote :: lit ").forEach(function(note){go() // done})" ++ [newline]
      /\ comments_out_what_follows (lit "go() // done") = true
      /\ ~ script_runs_bound_to_element (lit "note") Demo.noteDoc
            emptyData (part001 (lit "note.html"))).
Proof.
  cbv zeta. split; [|split; [|split]].
  - split; [vm_compute; reflexivity|].
    vm_compute. intros (H & _). discriminate H.
  - split; [vm_compute; reflexivity|].
    vm_compute. intros H. discriminate H.
  - split; [vm_compute; reflexivity|]. split; [reflexivity|].
    vm_compute. intros (_ & H & _). discriminate H.
  - split; [vm_compute; reflexivity|]. split; [reflexivity|].
    vm_compute. intros (_ & _ & H). discriminate H.
Qed.

(** What the script aggregate gains from a readable file. *)
Lemma Part001_script_after (h : Host) filepath file (s : State Data) :
  Fs.readFileSync (fs s) filepath = Ok file ->
  exists s', Part001.extractTags h filepath s = (Ok tt, s')
    /\ script (plugin s')
       = script (plugin s) ++
         match querySelector (parse h file) (lit "script") with
         | Some el =>
             if truthy (trim (text el))
             then wrappedScript (Fs.basename filepath (lit ".html"))
                    (trim (text el))
             else []
         | None => []
         end.
Proof.
  intros H. rewrite Part001_extractTags_run, H.
  eexists; split; [reflexivity|]. cbn [plugin set_plugin].
  destruct (Part001_extracted_fields (Fs.basename filepath (lit ".html"))
    (parse h file) (plugin s)) as (_ & -> & _).
  unfold Part001.scriptStep.
  destruct (querySelector (parse h file) (lit "script")) as [el|];
    [destruct (truthy (trim (text el)))|]; simpl;
    by rewrite ?app_nil_r.
Qed.

Lemma Sfc_script_after (h : Host) filepath file (s : State Sfc.Plugin) :
  Fs.readFileSync (fs s) filepath = Ok file ->
  exists s', Sfc.extractTags h filepath s = (Ok tt, s')
    /\ script (Sfc.data (plugin s'))
       = script (Sfc.data (plugin s)) ++
         match querySelector (parse h file) (lit "script") with
         | Some el => text el ++ [newline]
         | None => []
         end.
Proof.
  intros H. rewrite Sfc_extractTags_run, H.
  eexists; split; [reflexivity|]. cbn [plugin set_plugin Sfc.data].
  destruct (Sfc_extracted_fields (Fs.basename filepath (lit ".html"))
    (parse h file) (Sfc.data (plugin s))) as (_ & -> & _).
  unfold Sfc.scriptStep.
  destruct (querySelector (parse h file) (lit "script")) as [el|]; simpl;
    by rewrite ?app_nil_r.
Qed.

(** C1, amended: in [src/unnamed/part_001] a component whose trimmed
    script is not empty adds to the script aggregate exactly the text
    [document.querySelectorAll("name").forEach(function(name){script})]
    and a newline, with the component name as the selector and as the
    parameter and the trimmed script as the body, whatever the name and
    the script are; nothing is added for an empty trimmed script or
    without a script element.  In [src/vite-plugin-sfc.js] the text of
    the script element, followed by a newline, is added as it is
    whenever the element exists. *)
Theorem script_fragment_by_variant (h : Host) (filepath : path)
    (file : jsstring) (sB : State Data) (sA : State Sfc.Plugin) :
  Fs.readFileSync (fs sB) filepath = Ok file ->
  Fs.readFileSync (fs sA) filepath = Ok file ->
  let filename := Fs.basename filepath (lit ".html") in
  let root := parse h file in
  (exists sB', Part001.extractTags h filepath sB = (Ok tt, sB')
     /\ script (plugin sB')
        = script (plugin sB) ++
          match querySelector root (lit "script") with
          | Some el =>
              if truthy (trim (text el))
              then lit "document.querySelectorAll(" ++ [dquote] ++
                   filename ++ [dquote] ++ lit ").forEach(function(" ++
                   filename ++ lit "){" ++ trim (text el) ++ lit "})" ++
                   [newline]
              else []
          | None => []
          end)
  /\ (exists sA', Sfc.extractTags h filepath sA = (Ok tt, sA')
     /\ script (Sfc.data (plugin sA'))
        = script (Sfc.data (plugin sA)) ++
          match querySelector root (lit "script") with
          | Some el => text el ++ [newline]
          | None => []
          end).
Proof.
  intros HB HA filename root. subst filename root. split.
  - destruct (Part001_script_after h _ _ _ HB) as (sB' & Hrun & Hs).
    exists sB'. split; [exact Hrun|]. rewrite Hs.
    unfold wrappedScript. reflexivity.
  - exact (Sfc_script_after h _ _ _ HA).
Qed.

Lemma script_fragment_by_variant_witness :
  let s := fresh (Demo.tree [(lit "card.html", Demo.cardSource)]) in
  exists sB', Part001.extractTags Demo.host Demo.cardFile s = (Ok tt, sB')
    /\ script (plugin sB')
       = lit "document.querySelectorAll(" ++ dquote :: lit "card" ++
         dquote :: lit ").forEach(function(card){card.textContent='x'})" ++
         [newline].
Proof.
  exact (proj1 (script_fragment_by_variant Demo.host Demo.cardFile
    Demo.cardSource
    (fresh (Demo.tree [(lit "card.html", Demo.cardSource)]))
    (freshSfc (Demo.tree [(lit "card.html", Demo.cardSource)]))
    eq_refl eq_refl)).
Defined.

(** *** The template fragment *)

Lemma Part001_template_after (h : Host) filepath file (s : State Data) :
  Fs.readFileSync (fs s) filepath = Ok file ->
  exists s', Part001.extractTags h filepath s = (Ok tt, s')
    /\ fs s' = fs s
    /\ template (plugin s')
       = template (plugin s) ++
         match querySelector (parse h file) (lit "template") with
         | Some el =>
             templateFragment (Fs.basename filepath (lit ".html"))
               (collapse (innerHTML el))
         | None => []
         end.
Proof.
  intros H. rewrite Part001_extractTags_run, H.
  eexists; split; [reflexivity|]. split; [reflexivity|].
  cbn [plugin set_plugin].
  destruct (Part001_extracted_fields (Fs.basename filepath (lit ".html"))
    (parse h file) (plugin s)) as (-> & _).
  unfold Part001.templateStep.
  destruct (querySelector (parse h file) (lit "template")); simpl;
    [reflexivity|by rewrite app_nil_r].
Qed.

Lemma Sfc_template_after (h : Host) filepath file (s : State Sfc.Plugin) :
  Fs.readFileSync (fs s) filepath = Ok file ->
  exists s', Sfc.extractTags h filepath s = (Ok tt, s')
    /\ fs s' = fs s
    /\ template (Sfc.data (plugin s'))
       = template (Sfc.data (plugin s)) ++
         match querySelector (parse h file) (lit "template") with
         | Some el =>
             templateFragment (Fs.basename filepath (lit ".html"))
               (collapse (innerHTML el))
         | None => []
         end.
Proof.
  intros H. rewrite Sfc_extractTags_run, H.
  eexists; split; [reflexivity|]. split; [reflexivity|].
  cbn [plugin set_plugin Sfc.data].
  destruct (Sfc_extracted_fields (Fs.basename filepath (lit ".html"))
    (parse h file) (Sfc.data (plugin s))) as (-> & _).
  unfold Sfc.templateStep.
  destruct (querySelector (parse h file) (lit "template")); simpl;
    [reflexivity|by rewrite app_nil_r].
Qed.

(** C2: for a component file with a template element, both variants
    append the template statement whose injected markup is the
    element's inner markup with every run of two or more whitespace
    units replaced by one space: the markup has no two adjacent
    whitespace units, and a run of the original between two other units
    is one space in it. *)
Theorem template_markup_has_no_whitespace_run (h : Host) (filepath : path)
    (file : jsstring) (el : Element)
    (sB : State Data) (sA : State Sfc.Plugin) :
  Fs.readFileSync (fs sB) filepath = Ok file ->
  Fs.readFileSync (fs sA) filepath = Ok file ->
  querySelector (parse h file) (lit "template") = Some el ->
  let filename := Fs.basename filepath (lit ".html") in
  let markup := collapse (innerHTML el) in
  has_ws_run markup = false
  /\ (forall a w b : jsstring,
        innerHTML el = a ++ w ++ b ->
        ends_ws a = false -> forallb isWhiteSpace w = true ->
        2 <= length w -> starts_ws b = false ->
        markup = collapse a ++ space :: collapse b)
  /\ (exists sB', Part001.extractTags h filepath sB = (Ok tt, sB')
        /\ template (plugin sB')
           = template (plugin sB) ++ templateFragment filename markup)
  /\ (exists sA', Sfc.extractTags h filepath sA = (Ok tt, sA')
        /\ template (Sfc.data (plugin sA'))
           = template (Sfc.data (plugin sA))
             ++ templateFragment filename markup).
Proof.
  intros HB HA Hel filename markup. subst filename markup.
  split; [apply collapse_from_no_run|].
  split; [intros a w b ->; apply collapse_run|].
  split.
  - destruct (Part001_template_after h _ _ _ HB) as (sB' & Hrun & _ & Ht).
    rewrite Hel in Ht. eauto.
  - destruct (Sfc_template_after h _ _ _ HA) as (sA' & Hrun & _ & Ht).
    rewrite Hel in Ht. eauto.
Qed.

Lemma template_markup_has_no_whitespace_run_witness :
  has_ws_run (lit "<div>  {{title}}</div>") = true
  /\ collapse (lit "<div>  {{title}}</div>") = lit "<div> {{title}}</div>"
  /\ exists sB',
       Part001.extractTags Demo.host Demo.cardFile
         (fresh (Demo.tree [(lit "card.html", Demo.cardSource)]))
       = (Ok tt, sB')
       /\ template (plugin sB')
          = templateFragment (lit "card") (lit "<div> {{title}}</div>").
Proof.
  split; [reflexivity|]. split; [reflexivity|].
  exact (proj1 (proj2 (proj2 (template_markup_has_no_whitespace_run
    Demo.host Demo.cardFile Demo.cardSource
    (mkElement (lit "template") (lit "<div>  {{title}}</div>")
       (lit "  {{title}}"))
    (fresh (Demo.tree [(lit "card.html", Demo.cardSource)]))
    (freshSfc (Demo.tree [(lit "card.html", Demo.cardSource)]))
    eq_refl eq_refl eq_refl)))).
Defined.

(** C9: on every component file the two variants append the same
    template fragment, character for character (and both stop with the
    same error, appending nothing, when the file cannot be read). *)
Theorem template_fragment_same_in_both_variants (h : Host) (filepath : path)
    (sA : State Sfc.Plugin) (sB : State Data) :
  fs sA = fs sB ->
  fst (Sfc.extractTags h filepath sA) = fst (Part001.extractTags h filepath sB)
  /\ exists fragment : jsstring,
       template (Sfc.data (plugin (snd (Sfc.extractTags h filepath sA))))
       = template (Sfc.data (plugin sA)) ++ fragment
       /\ template (plugin (snd (Part001.extractTags h filepath sB)))
          = template (plugin sB) ++ fragment.
Proof.
  intros Hfs.
  destruct (Fs.readFileSync (fs sB) filepath) as [file|e] eqn:HB.
  - assert (HA : Fs.readFileSync (fs sA) filepath = Ok file) by by rewrite Hfs.
    destruct (Part001_template_after h _ _ _ HB) as (sB' & HrB & _ & HtB).
    destruct (Sfc_template_after h _ _ _ HA) as (sA' & HrA & _ & HtA).
    rewrite HrA, HrB. cbn [fst snd]. rewrite HtA, HtB.
    split; [reflexivity|]. eexists; split; reflexivity.
  - rewrite Part001_extractTags_run, Sfc_extractTags_run, Hfs, HB.
    split; [reflexivity|]. exists []. by rewrite !app_nil_r.
Qed.

Lemma template_fragment_same_in_both_variants_witness :
  exists fragment : jsstring,
    template (Sfc.data (plugin (snd (Sfc.extractTags Demo.host Demo.cardFile
      (freshSfc (Demo.tree [(lit "card.html", Demo.cardSource)]))))))
    = fragment
    /\ template (plugin (snd (Part001.extractTags Demo.host Demo.cardFile
         (fresh (Demo.tree [(lit "card.html", Demo.cardSource)])))))
       = fragment.
Proof.
  exact (proj2 (template_fragment_same_in_both_variants Demo.host
    Demo.cardFile
    (freshSfc (Demo.tree [(lit "card.html", Demo.cardSource)]))
    (fresh (Demo.tree [(lit "card.html", Demo.cardSource)]))
    eq_refl)).
Defined.

(** *** The script text *)

(** C8, as stated, fails on [src/vite-plugin-sfc.js]: the scripts of
    [padded.html] and [tight.html] have the same trimmed text, and the
    aggregate keeps the whitespace around the first. *)
Lemma sfc_script_text_is_not_trimmed :
  let files := [(lit "padded.html", Demo.paddedSource);
                (lit "tight.html", Demo.tightSource)] in
  let s := freshSfc (Demo.tree files) in
  let padded := Fs.join Demo.components (lit "padded.html") in
  script (Sfc.data (plugin (snd (Sfc.extractTags Demo.host padded s))))
    = lit " go() " ++ [newline]
  /\ trim (lit " go() ") = lit "go()"
  /\ ~ script_text_trimmed (Sfc.extracted (lit "padded")).
Proof.
  split; [vm_compute; reflexivity|]. split; [reflexivity|].
  intros H.
  specialize (H Demo.paddedDoc Demo.tightDoc
    (mkElement (lit "script") (lit " go() ") (lit " go() "))
    (mkElement (lit "script") (lit "go()") (lit "go()"))
    emptyData eq_refl eq_refl eq_refl).
  vm_compute in H. discriminate H.
Qed.

Lemma Part001_script_text_trimmed filename :
  script_text_trimmed (Part001.extracted filename).
Proof.
  intros root root' el el' d H H' Ht.
  destruct (Part001_extracted_fields filename root d) as (_ & -> & _).
  destruct (Part001_extracted_fields filename root' d) as (_ & -> & _).
  unfold Part001.scriptStep. by rewrite H, H', Ht.
Qed.

(** C8, amended: in [src/unnamed/part_001] the script text that goes
    into the aggregate is the inner text of the script element without
    its leading and trailing whitespace (and nothing goes in when that
    is empty); in [src/vite-plugin-sfc.js] the inner text goes in as it
    is, followed by a newline. *)
Theorem script_text_by_variant (h : Host) (filepath : path)
    (file : jsstring) (el : Element)
    (sB : State Data) (sA : State Sfc.Plugin) :
  Fs.readFileSync (fs sB) filepath = Ok file ->
  Fs.readFileSync (fs sA) filepath = Ok file ->
  querySelector (parse h file) (lit "script") = Some el ->
  let filename := Fs.basename filepath (lit ".html") in
  let scriptContent := trim (text el) in
  (exists l r : jsstring,
     text el = l ++ scriptContent ++ r
     /\ forallb isWhiteSpace l = true /\ forallb isWhiteSpace r = true
     /\ starts_ws scriptContent = false /\ ends_ws scriptContent = false)
  /\ (exists sB', Part001.extractTags h filepath sB = (Ok tt, sB')
        /\ script (plugin sB')
           = script (plugin sB) ++
             if truthy scriptContent
             then wrappedScript filename scriptContent else [])
  /\ script_text_trimmed (Part001.extracted filename)
  /\ (exists sA', Sfc.extractTags h filepath sA = (Ok tt, sA')
        /\ script (Sfc.data (plugin sA'))
           = script (Sfc.data (plugin sA)) ++ text el ++ [newline]).
Proof.
  intros HB HA Hel filename scriptContent. subst filename scriptContent.
  split; [apply trim_spec|].
  destruct (Part001_script_after h _ _ _ HB) as (sB' & HrB & HsB).
  destruct (Sfc_script_after h _ _ _ HA) as (sA' & HrA & HsA).
  rewrite Hel in HsA, HsB.
  split; [eauto|]. split; [apply Part001_script_text_trimmed|eauto].
Qed.

Lemma script_text_by_variant_witness :
  let files := [(lit "padded.html", Demo.paddedSource)] in
  let padded := Fs.join Demo.components (lit "padded.html") in
  exists sB',
    Part001.extractTags Demo.host padded (fresh (Demo.tree files))
    = (Ok tt, sB')
    /\ script (plugin sB') = wrappedScript (lit "padded") (lit "go()").
Proof.
  exact (proj1 (proj2 (script_text_by_variant Demo.host
    (Fs.join Demo.components (lit "padded.html")) Demo.paddedSource
    (mkElement (lit "script") (lit " go() ") (lit " go() "))
    (fresh (Demo.tree [(lit "padded.html", Demo.paddedSource)]))
    (freshSfc (Demo.tree [(lit "padded.html", Demo.paddedSource)]))
    eq_refl eq_refl eq_refl))).
Defined.

(** *** Elements after the first of their kind *)











(** ** The file system operations *)

Section FileSystem.

Implicit Types (f : gmap path node) (dir p : path) (name : jsstring).

Lemma join_ne_dir dir name : Fs.join dir name <> dir.
Proof.
  unfold Fs.join. intros H. apply (f_equal length) in H.
  rewrite length_app in H. simpl in H. lia.
Qed.

Lemma join_inj dir name name' :
  Fs.join dir name = Fs.join dir name' -> name = name'.
Proof. unfold Fs.join. intros H. by apply app_inv_head in H; inversion H. Qed.

Lemma addEntry_elem name entries : name ∈ Fs.addEntry name entries.
Proof.
  unfold Fs.addEntry. case_bool_decide; [assumption|].
  apply elem_of_app. right. apply list_elem_of_singleton. reflexivity.
Qed.

Lemma addEntry_id name entries :
  name ∈ entries -> Fs.addEntry name entries = entries.
Proof. intros H. unfold Fs.addEntry. by rewrite bool_decide_eq_true_2. Qed.

Lemma addEntry_mono name name' entries :
  name ∈ entries -> name ∈ Fs.addEntry name' entries.
Proof.
  intros H. unfold Fs.addEntry. case_bool_decide; [assumption|].
  apply elem_of_app. by left.
Qed.

(** What a successful [writeFileSync] leaves. *)
Lemma writeFileSync_ok f dir name content f' :
  Fs.writeFileSync f dir name content = Ok f' ->
  exists entries,
    f !! dir = Some (Dir entries)
    /\ f' = <[Fs.join dir name := File content]>
             (<[dir := Dir (Fs.addEntry name entries)]> f).
Proof.
  unfold Fs.writeFileSync. intros H.
  destruct (f !! dir) as [[|entries]|]; try discriminate.
  exists entries. split; [reflexivity|].
  destruct (f !! Fs.join dir name) as [[|]|]; by inversion H.
Qed.

Lemma writeFileSync_file f dir name content f' :
  Fs.writeFileSync f dir name content = Ok f' ->
  f' !! Fs.join dir name = Some (File content).
Proof.
  intros (entries & _ & ->)%writeFileSync_ok. apply lookup_insert_eq.
Qed.

Lemma writeFileSync_dir f dir name content f' :
  Fs.writeFileSync f dir name content = Ok f' ->
  exists entries, f' !! dir = Some (Dir entries) /\ name ∈ entries.
Proof.
  intros (entries & _ & ->)%writeFileSync_ok.
  exists (Fs.addEntry name entries). split; [|apply addEntry_elem].
  rewrite lookup_insert_ne by apply join_ne_dir. apply lookup_insert_eq.
Qed.

Lemma writeFileSync_other f dir name content f' p :
  Fs.writeFileSync f dir name content = Ok f' ->
  p <> dir -> p <> Fs.join dir name -> f' !! p = f !! p.
Proof.
  intros (entries & _ & ->)%writeFileSync_ok Hd Hj.
  rewrite lookup_insert_ne by congruence.
  rewrite lookup_insert_ne by congruence. reflexivity.
Qed.

(** Writing succeeds when the directory is there and the target is not
    a directory. *)
Lemma writeFileSync_succeeds f dir name content entries :
  f !! dir = Some (Dir entries) ->
  (forall l, f !! Fs.join dir name <> Some (Dir l)) ->
  exists f', Fs.writeFileSync f dir name content = Ok f'.
Proof.
  intros Hd Hn. unfold Fs.writeFileSync. rewrite Hd.
  destruct (f !! Fs.join dir name) as [[c|l]|]; eauto.
  by destruct (Hn l).
Qed.

(** Writing a file that is there with that content, into a directory
    that lists it, changes nothing. *)
Lemma writeFileSync_same f dir name content entries :
  f !! dir = Some (Dir entries) -> name ∈ entries ->
  f !! Fs.join dir name = Some (File content) ->
  Fs.writeFileSync f dir name content = Ok f.
Proof.
  intros Hd Hin Hf. unfold Fs.writeFileSync. rewrite Hd, Hf.
  rewrite addEntry_id by assumption.
  rewrite (insert_id f dir) by assumption.
  by rewrite insert_id.
Qed.

Lemma writeFileSync_again f dir name content f' :
  Fs.writeFileSync f dir name content = Ok f' ->
  Fs.writeFileSync f' dir name content = Ok f'.
Proof.
  intros H. destruct (writeFileSync_dir _ _ _ _ _ H) as (entries & Hd & Hin).
  eapply writeFileSync_same; eauto using writeFileSync_file.
Qed.

(** After a second file was written next to it, too. *)
Lemma writeFileSync_again_after f dir name content f1 name2 content2 f2 :
  name <> name2 ->
  Fs.writeFileSync f dir name content = Ok f1 ->
  Fs.writeFileSync f1 dir name2 content2 = Ok f2 ->
  Fs.writeFileSync f2 dir name content = Ok f2.
Proof.
  intros Hne H1 H2.
  destruct (writeFileSync_dir _ _ _ _ _ H1) as (entries1 & Hd1 & Hin1).
  destruct (writeFileSync_ok _ _ _ _ _ H2) as (entries & Hd & ->).
  assert (entries = entries1) by congruence. subst entries.
  assert (Hj : Fs.join dir name2 <> Fs.join dir name)
    by (intros Hj; apply join_inj in Hj; congruence).
  eapply writeFileSync_same.
  - rewrite lookup_insert_ne by apply join_ne_dir. apply lookup_insert_eq.
  - by apply addEntry_mono.
  - rewrite lookup_insert_ne by assumption.
    rewrite lookup_insert_ne by (apply not_eq_sym, join_ne_dir).
    eauto using writeFileSync_file.
Qed.

End FileSystem.

(** ** The output step *)

Section Output.

Variables (css : jsstring -> jsstring) (js : jsstring -> option jsstring).
Implicit Types (f : gmap path node) (dir p : path) (d : Data).

Lemma css_ne_js : lit "app.min.css" <> lit "app.min.js".
Proof. discriminate. Qed.

Lemma writeOutput_other dir d f p :
  p <> dir -> p <> Fs.join dir (lit "app.min.css") ->
  p <> Fs.join dir (lit "app.min.js") ->
  (writeOutput css js dir d f).2 !! p = f !! p.
Proof.
  intros Hd Hc Hj. unfold writeOutput.
  destruct (truthy (style d)).
  - destruct (Fs.writeFileSync f dir _ _) as [f1|e] eqn:H1; [|reflexivity].
    destruct (js (combined d)) as [code|]; simpl;
      [|eauto using writeFileSync_other].
    destruct (Fs.writeFileSync f1 dir _ code) as [f2|e] eqn:H2; simpl.
    + rewrite (writeFileSync_other _ _ _ _ _ _ H2) by assumption.
      eauto using writeFileSync_other.
    + eauto using writeFileSync_other.
  - destruct (js (combined d)) as [code|]; simpl; [|reflexivity].
    destruct (Fs.writeFileSync f dir _ code) as [f2|e] eqn:H2; simpl;
      eauto using writeFileSync_other.
Qed.

(** Doing the output step again on its own result changes nothing. *)
Lemma writeOutput_again dir d f :
  writeOutput css js dir d (writeOutput css js dir d f).2
  = ((writeOutput css js dir d f).1, (writeOutput css js dir d f).2).
Proof.
  unfold writeOutput.
  destruct (truthy (style d)).
  - destruct (Fs.writeFileSync f dir _ _) as [f1|e] eqn:H1;
      [|cbn [fst snd]; by rewrite H1].
    destruct (js (combined d)) as [code|] eqn:Hjs; cbn [fst snd].
    + destruct (Fs.writeFileSync f1 dir _ code) as [f2|e] eqn:H2; cbn [fst snd].
      * rewrite (writeFileSync_again_after _ _ _ _ _ _ _ _ css_ne_js H1 H2).
        by rewrite ?Hjs, (writeFileSync_again _ _ _ _ _ H2).
      * by rewrite (writeFileSync_again _ _ _ _ _ H1), ?Hjs, H2.
    + by rewrite (writeFileSync_again _ _ _ _ _ H1), ?Hjs.
  - destruct (js (combined d)) as [code|] eqn:Hjs; cbn [fst snd]; [|by rewrite ?Hjs].
    destruct (Fs.writeFileSync f dir _ code) as [f2|e] eqn:H2; cbn [fst snd].
    + by rewrite ?Hjs, (writeFileSync_again _ _ _ _ _ H2).
    + by rewrite ?Hjs, H2.
Qed.

(** The style artifact after the output step. *)
Lemma writeOutput_css dir d f :
  (writeOutput css js dir d f).2 !! Fs.join dir (lit "app.min.css") =
  if truthy (style d) then
    match Fs.writeFileSync f dir (lit "app.min.css") (css (style d)) with
    | Ok _ => Some (File (css (style d)))
    | Throw _ => f !! Fs.join dir (lit "app.min.css")
    end
  else f !! Fs.join dir (lit "app.min.css").
Proof.
  assert (Hne : Fs.join dir (lit "app.min.css") <> Fs.join dir (lit "app.min.js"))
    by (intros H; apply join_inj in H; discriminate H).
  unfold writeOutput.
  destruct (truthy (style d)).
  - destruct (Fs.writeFileSync f dir _ _) as [f1|e] eqn:H1; [|reflexivity].
    destruct (js (combined d)) as [code|]; simpl;
      [|eauto using writeFileSync_file].
    destruct (Fs.writeFileSync f1 dir _ code) as [f2|e] eqn:H2; simpl;
      [|eauto using writeFileSync_file].
    rewrite (writeFileSync_other _ _ _ _ _ _ H2) by auto using join_ne_dir.
    eauto using writeFileSync_file.
  - destruct (js (combined d)) as [code|]; simpl; [|reflexivity].
    destruct (Fs.writeFileSync f dir _ code) as [f2|e] eqn:H2; simpl;
      [|reflexivity].
    rewrite (writeFileSync_other _ _ _ _ _ _ H2) by auto using join_ne_dir.
    reflexivity.
Qed.

(** The output step succeeds, and writes the script artifact, when the
    directory is there, neither artifact is a directory and the script
    goes through. *)
Lemma writeOutput_js dir d f entries code :
  f !! dir = Some (Dir entries) ->
  (forall l, f !! Fs.join dir (lit "app.min.css") <> Some (Dir l)) ->
  (forall l, f !! Fs.join dir (lit "app.min.js") <> Some (Dir l)) ->
  js (combined d) = Some code ->
  exists f', writeOutput css js dir d f = (Ok tt, f')
    /\ f' !! Fs.join dir (lit "app.min.js") = Some (File code).
Proof.
  intros Hd Hc Hj Hjs. unfold writeOutput. rewrite Hjs.
  assert (Hne : Fs.join dir (lit "app.min.js") <> Fs.join dir (lit "app.min.css"))
    by (intros H; apply join_inj in H; discriminate H).
  destruct (truthy (style d)).
  - destruct (writeFileSync_succeeds f dir (lit "app.min.css")
      (css (style d)) entries Hd Hc) as [f1 H1].
    rewrite H1.
    destruct (writeFileSync_dir _ _ _ _ _ H1) as (entries1 & Hd1 & _).
    destruct (writeFileSync_succeeds f1 dir (lit "app.min.js") code entries1 Hd1)
      as [f2 H2].
    { intros l. rewrite (writeFileSync_other _ _ _ _ _ _ H1)
        by auto using join_ne_dir. apply Hj. }
    rewrite H2. eauto using writeFileSync_file.
  - destruct (writeFileSync_succeeds f dir (lit "app.min.js") code entries Hd Hj)
      as [f2 H2].
    rewrite H2. eauto using writeFileSync_file.
Qed.

(** Whenever the output step succeeds, it has written the script
    artifact. *)
Lemma writeOutput_ok_js dir d f f' :
  writeOutput css js dir d f = (Ok tt, f') ->
  exists code, js (combined d) = Some code
    /\ f' !! Fs.join dir (lit "app.min.js") = Some (File code).
Proof.
  unfold writeOutput. intros H.
  destruct (if truthy (style d) then _ else _) as [f1|e]; [|discriminate].
  destruct (js (combined d)) as [code|]; [|discriminate].
  destruct (Fs.writeFileSync f1 dir _ code) as [f2|e] eqn:H2; [|discriminate].
  inversion H; subst. eauto using writeFileSync_file.
Qed.

End Output.

(** ** The hooks, step by step *)

Section State.

Context {P : Type}.
Implicit Types (s : State P).

Lemma set_fs_id s : set_fs (fs s) s = s.
Proof. by destruct s. Qed.

Lemma set_plugin_id s : set_plugin (plugin s) s = s.
Proof. by destruct s. Qed.

Lemma set_fs_set_fs f f' s : set_fs f (set_fs f' s) = set_fs f s.
Proof. reflexivity. Qed.

Lemma set_plugin_set_plugin (p p' : P) s :
  set_plugin p (set_plugin p' s) = set_plugin p s.
Proof. reflexivity. Qed.

End State.

Section Part001Hooks.

Variable h : Host.
Implicit Types (s : State Data).

Lemma Part001_writeDevFiles_run dir s :
  Part001.writeDevFiles h dir s =
  ((writeOutput (cleancss h) (minify h) dir (plugin s) (fs s)).1,
   set_fs (writeOutput (cleancss h) (minify h) dir (plugin s) (fs s)).2 s).
Proof.
  unfold Part001.writeDevFiles, writeOutput, bind, get, when, writeFileSync,
    writeFs, await_minify, ret, throw, combined.
  destruct (truthy (style (plugin s)));
    [destruct (Fs.writeFileSync (fs s) dir _ _) as [f1|e]|];
    cbn [fst snd fs set_fs]; rewrite ?set_fs_id; try reflexivity;
    (destruct (minify h _) as [code|];
      cbn [fst snd fs set_fs]; rewrite ?set_fs_id; [|reflexivity]);
    destruct (Fs.writeFileSync _ dir _ code);
    cbn [fst snd fs set_fs]; rewrite ?set_fs_id; reflexivity.
Qed.

Lemma Part001_writeBundle_unfold (dir : option path) :
  Part001.writeBundle h dir =
  let assetsDir :=
    Fs.join (default (cwd h ++ [lit "dist"]) dir) (lit "assets") in
  (let! there := existsSync assetsDir in
   when (negb there) (mkdirSync assetsDir) ;;;
   Part001.writeDevFiles h assetsDir).
Proof. reflexivity. Qed.

Lemma Part001_forEach_run dir files s :
  forEach files (fun file => Part001.extractTags h (Fs.join dir file)) s =
  ((scanFiles Part001.extracted h (fs s) dir files (plugin s)).1,
   set_plugin (scanFiles Part001.extracted h (fs s) dir files (plugin s)).2 s).
Proof.
  revert s. induction files as [|file rest IH]; intros s.
  - simpl. by rewrite set_plugin_id.
  - cbn [forEach scanFiles]. unfold bind at 1.
    rewrite Part001_extractTags_run.
    destruct (Fs.readFileSync (fs s) (Fs.join dir file)) as [source|e].
    + rewrite IH. reflexivity.
    + simpl. by rewrite set_plugin_id.
Qed.

Lemma Part001_extractAll_run s :
  Part001.extractAll h s =
  ((scanDir Part001.extracted h (fs s) (Part001.componentsDir h) (plugin s)).1,
   set_plugin
     (scanDir Part001.extracted h (fs s) (Part001.componentsDir h) (plugin s)).2
     s).
Proof.
  unfold Part001.extractAll, scanDir, bind at 1, readdirSync, readFs.
  destruct (Fs.readdirSync (fs s) (Part001.componentsDir h)) as [entries|e].
  - apply Part001_forEach_run.
  - simpl. by rewrite set_plugin_id.
Qed.

End Part001Hooks.

Section SfcHooks.

Variable h : Host.
Implicit Types (s : State Sfc.Plugin).

Lemma set_data_id s : set_data (Sfc.data (plugin s)) s = s.
Proof. by destruct s as [? [] ? ? ? ?]. Qed.

Lemma Sfc_writeDevFiles_run dir isDev s :
  Sfc.writeDevFiles h dir isDev s =
  ((writeOutput (cleancss h) (jsOf h isDev) dir (Sfc.data (plugin s)) (fs s)).1,
   set_fs
     (writeOutput (cleancss h) (jsOf h isDev) dir (Sfc.data (plugin s)) (fs s)).2
     s).
Proof.
  unfold Sfc.writeDevFiles, writeOutput, jsOf, bind, get, when, writeFileSync,
    writeFs, await_minify, ret, throw, combined.
  destruct (truthy (style (Sfc.data (plugin s))));
    [destruct (Fs.writeFileSync (fs s) dir _ _) as [f1|e]|];
    cbn [fst snd fs set_fs]; rewrite ?set_fs_id; try reflexivity;
    (destruct isDev;
      [|destruct (minify h _) as [code|];
        cbn [fst snd fs set_fs]; rewrite ?set_fs_id; [|reflexivity]]);
    destruct (Fs.writeFileSync _ dir (lit "app.min.js") _);
    cbn [fst snd fs set_fs]; rewrite ?set_fs_id; reflexivity.
Qed.

Lemma Sfc_writeBundle_unfold (dir : option path) :
  Sfc.writeBundle h dir =
  let assetsDir :=
    Fs.join (default (cwd h ++ [lit "dist"]) dir) (lit "assets") in
  (let! there := existsSync assetsDir in
   when (negb there) (mkdirSync assetsDir) ;;;
   Sfc.writeDevFiles h assetsDir false).
Proof. reflexivity. Qed.

Lemma Sfc_forEach_run dir files s :
  forEach files (fun file => Sfc.extractTags h (Fs.join dir file)) s =
  ((scanFiles Sfc.extracted h (fs s) dir files (Sfc.data (plugin s))).1,
   set_data
     (scanFiles Sfc.extracted h (fs s) dir files (Sfc.data (plugin s))).2 s).
Proof.
  revert s. induction files as [|file rest IH]; intros s.
  - simpl. by rewrite set_data_id.
  - cbn [forEach scanFiles]. unfold bind at 1.
    rewrite Sfc_extractTags_run.
    destruct (Fs.readFileSync (fs s) (Fs.join dir file)) as [source|e].
    + rewrite IH. reflexivity.
    + simpl. by rewrite set_data_id.
Qed.

Lemma Sfc_extractAll_run s :
  Sfc.extractAll h s =
  ((scanDir Sfc.extracted h (fs s) (Sfc.componentsDir h) (Sfc.data (plugin s))).1,
   set_data
     (scanDir Sfc.extracted h (fs s) (Sfc.componentsDir h)
        (Sfc.data (plugin s))).2 s).
Proof.
  unfold Sfc.extractAll, scanDir, bind at 1, readdirSync, readFs.
  destruct (Fs.readdirSync (fs s) (Sfc.componentsDir h)) as [entries|e].
  - apply Sfc_forEach_run.
  - simpl. by rewrite set_data_id.
Qed.

End SfcHooks.

(** ** Paths of the project *)

Section Paths.

Variable h : Host.

Lemma components_ne_assets :
  Part001.componentsDir h <> Part001.devAssetsDir h.
Proof.
  unfold Part001.componentsDir, Part001.devAssetsDir, Part001.publicDir,
    Fs.join. rewrite <- app_assoc. intros H%app_inv_head. discriminate H.
Qed.

Lemma components_ne_artifact name :
  Part001.componentsDir h <> Fs.join (Part001.devAssetsDir h) name.
Proof.
  unfold Part001.componentsDir, Part001.devAssetsDir, Part001.publicDir,
    Fs.join. rewrite <- !app_assoc. intros H%app_inv_head. discriminate H.
Qed.

Lemma component_ne_assets file :
  Fs.join (Part001.componentsDir h) file <> Part001.devAssetsDir h.
Proof.
  unfold Part001.componentsDir, Part001.devAssetsDir, Part001.publicDir,
    Fs.join. rewrite <- !app_assoc. intros H%app_inv_head. discriminate H.
Qed.

Lemma component_ne_artifact file name :
  Fs.join (Part001.componentsDir h) file
  <> Fs.join (Part001.devAssetsDir h) name.
Proof.
  unfold Part001.componentsDir, Part001.devAssetsDir, Part001.publicDir,
    Fs.join. rewrite <- !app_assoc. intros H%app_inv_head. discriminate H.
Qed.

End Paths.

(** ** The scan reads the component directory only *)

Section Scan.

Variables (extract : jsstring -> Document -> Data -> Data) (h : Host).
Implicit Types (f : gmap path node) (dir : path) (d : Data).

Lemma scanFiles_ext f f' dir files d :
  (forall name, f' !! Fs.join dir name = f !! Fs.join dir name) ->
  scanFiles extract h f' dir files d = scanFiles extract h f dir files d.
Proof.
  intros H. revert d. induction files as [|file rest IH]; intros d;
    [reflexivity|].
  simpl. unfold Fs.readFileSync. rewrite H.
  destruct (f !! Fs.join dir file) as [[source|]|]; auto.
Qed.

Lemma scanDir_ext f f' dir d :
  f' !! dir = f !! dir ->
  (forall name, f' !! Fs.join dir name = f !! Fs.join dir name) ->
  scanDir extract h f' dir d = scanDir extract h f dir d.
Proof.
  intros Hd H. unfold scanDir, Fs.readdirSync. rewrite Hd.
  destruct (f !! dir) as [[|entries]|]; auto using scanFiles_ext.
Qed.

(** The output step leaves the scan as it was. *)
Lemma scanDir_after_output css js d0 f d :
  scanDir extract h (writeOutput css js (Part001.devAssetsDir h) d0 f).2
    (Part001.componentsDir h) d
  = scanDir extract h f (Part001.componentsDir h) d.
Proof.
  apply scanDir_ext; [|intros name]; apply writeOutput_other;
    auto using components_ne_assets, components_ne_artifact,
      component_ne_assets, component_ne_artifact.
Qed.

(** No [.html] entry, no change. *)
Lemma scanDir_no_component f dir d entries :
  Fs.readdirSync f dir = Ok entries ->
  List.filter (fun name => endsWith name (lit ".html")) entries = [] ->
  scanDir extract h f dir d = (Ok tt, d).
Proof. intros H1 H2. unfold scanDir. by rewrite H1, H2. Qed.

End Scan.

(** ** The change listener *)

Section Part001Change.

Variable h : Host.
Implicit Types (s : State Data).

Lemma Part001_onChange_skip file s :
  matches file = false -> Part001.onChange h file s = (Ok tt, s).
Proof.
  unfold matches, Part001.onChange. intros ->. reflexivity.
Qed.

Lemma bind_update {B} (g : Data -> Data) (k : M Data B) s :
  (Part001.update g ;;; k) s = k (set_plugin (g (plugin s)) s).
Proof. reflexivity. Qed.

(** On a matching file: [data] is what the scan makes of the empty
    aggregate; the output step follows unless the scan threw; an error
    of the output step is printed. *)
Lemma Part001_onChange_run file s :
  matches file = true ->
  Part001.onChange h file s =
  let scanned :=
    scanDir Part001.extracted h (fs s) (Part001.componentsDir h) emptyData in
  match scanned.1 with
  | Throw e => (Throw e, set_plugin scanned.2 s)
  | Ok _ =>
      let out :=
        writeOutput (cleancss h) (minify h) (Part001.devAssetsDir h)
          scanned.2 (fs s) in
      (Ok tt,
       mkState out.2 scanned.2
         (console s ++ match out.1 with Throw e => [e] | Ok _ => [] end)
         (watched s) (listeners s) (S (sent s)))
  end.
Proof.
  unfold matches, Part001.onChange. intros ->. cbn [when].
  rewrite !bind_update. cbn [plugin set_plugin script style template].
  unfold bind at 1. rewrite Part001_extractAll_run.
  cbn [fs plugin set_plugin]. fold emptyData.
  destruct (scanDir Part001.extracted h (fs s) (Part001.componentsDir h)
    emptyData) as [[[]|e] d]; cbn [fst snd]; [|reflexivity].
  unfold bind at 1, catch. rewrite Part001_writeDevFiles_run.
  cbn [fs plugin set_plugin].
  destruct (writeOutput (cleancss h) (minify h) (Part001.devAssetsDir h) d
    (fs s)) as [[[]|e] f']; cbn [fst snd].
  - unfold ws_send_full_reload, modify. cbn. by rewrite app_nil_r.
  - reflexivity.
Qed.

Lemma Part001_onChange_effect file s :
  matches file = true ->
  let scanned :=
    scanDir Part001.extracted h (fs s) (Part001.componentsDir h) emptyData in
  plugin (Part001.onChange h file s).2 = scanned.2
  /\ fs (Part001.onChange h file s).2 =
     match scanned.1 with
     | Ok _ =>
         (writeOutput (cleancss h) (minify h) (Part001.devAssetsDir h)
            scanned.2 (fs s)).2
     | Throw _ => fs s
     end.
Proof.
  intros Hm. rewrite (Part001_onChange_run _ _ Hm). cbv zeta.
  destruct (scanDir Part001.extracted h (fs s) (Part001.componentsDir h)
    emptyData) as [[[]|e] d]; split; reflexivity.
Qed.

End Part001Change.

Section SfcChange.

Variable h : Host.
Implicit Types (s : State Sfc.Plugin).

Lemma bind_update_sfc {B} (g : Data -> Data) (k : M Sfc.Plugin B) s :
  (Sfc.update g ;;; k) s = k (set_data (g (Sfc.data (plugin s))) s).
Proof. reflexivity. Qed.

Lemma Sfc_onChange_skip file s :
  matches file = false -> Sfc.onChange h file s = (Ok tt, s).
Proof. unfold matches, Sfc.onChange. intros ->. reflexivity. Qed.

Lemma Sfc_onChange_run file s :
  matches file = true ->
  Sfc.onChange h file s =
  let scanned :=
    scanDir Sfc.extracted h (fs s) (Sfc.componentsDir h) emptyData in
  match scanned.1 with
  | Throw e => (Throw e, set_data scanned.2 s)
  | Ok _ =>
      let out :=
        writeOutput (cleancss h) (jsOf h (Sfc.isDev (plugin s)))
          (Sfc.devAssetsDir h) scanned.2 (fs s) in
      (Ok tt,
       mkState out.2 (Sfc.mkPlugin scanned.2 (Sfc.isDev (plugin s)))
         (console s ++ match out.1 with Throw e => [e] | Ok _ => [] end)
         (watched s) (listeners s) (S (sent s)))
  end.
Proof.
  unfold matches, Sfc.onChange. intros ->. cbn [when].
  rewrite !bind_update_sfc. unfold set_data.
  cbn [plugin set_plugin script style template Sfc.data Sfc.isDev].
  unfold bind at 1. rewrite Sfc_extractAll_run. unfold set_data.
  cbn [fs plugin set_plugin Sfc.data Sfc.isDev]. fold emptyData.
  destruct (scanDir Sfc.extracted h (fs s) (Sfc.componentsDir h)
    emptyData) as [[[]|e] d]; cbn [fst snd]; [|reflexivity].
  unfold bind at 1 2, get, catch. rewrite Sfc_writeDevFiles_run.
  cbn [fs plugin set_plugin Sfc.data Sfc.isDev].
  destruct (writeOutput (cleancss h) (jsOf h (Sfc.isDev (plugin s)))
    (Sfc.devAssetsDir h) d (fs s)) as [[[]|e] f']; cbn [fst snd].
  - unfold ws_send_full_reload, modify. cbn. by rewrite app_nil_r.
  - reflexivity.
Qed.

End SfcChange.

(** ** Two rebuilds in a row *)

(** X22: a run of the change listener on a component file that
    follows another such run, with nothing changed in between, leaves
    the file system, and so the script and style artifacts, exactly as
    the first left it, and builds the same aggregates; in both
    variants.  (Rebuilds of the start hooks are not covered.) *)
Theorem rebuild_twice_same_artifacts (h : Host) (file1 file2 : jsstring)
    (sB : State Data) (sA : State Sfc.Plugin) :
  matches file1 = true -> matches file2 = true ->
  let sB1 := (Part001.onChange h file1 sB).2 in
  let sB2 := (Part001.onChange h file2 sB1).2 in
  let sA1 := (Sfc.onChange h file1 sA).2 in
  let sA2 := (Sfc.onChange h file2 sA1).2 in
  (fs sB2 = fs sB1 /\ plugin sB2 = plugin sB1)
  /\ (fs sA2 = fs sA1 /\ plugin sA2 = plugin sA1).
Proof.
  intros H1 H2. cbv zeta. split.
  - rewrite (Part001_onChange_run h file2 _ H2).
    rewrite (Part001_onChange_run h file1 sB H1). cbv zeta.
    destruct (scanDir Part001.extracted h (fs sB) (Part001.componentsDir h)
      emptyData) as [[[]|e] d] eqn:Hscan; cbn [fst snd fs plugin set_plugin].
    + rewrite scanDir_after_output, Hscan. cbn [fst snd fs plugin].
      rewrite writeOutput_again. split; reflexivity.
    + rewrite Hscan. split; reflexivity.
  - rewrite (Sfc_onChange_run h file2 _ H2).
    rewrite (Sfc_onChange_run h file1 sA H1). cbv zeta.
    destruct (scanDir Sfc.extracted h (fs sA) (Sfc.componentsDir h)
      emptyData) as [[[]|e] d] eqn:Hscan;
      unfold set_data; cbn [fst snd fs plugin set_plugin Sfc.isDev].
    + change (Sfc.devAssetsDir h) with (Part001.devAssetsDir h).
      change (Sfc.componentsDir h) with (Part001.componentsDir h) in *.
      rewrite scanDir_after_output, Hscan.
      cbn [fst snd fs plugin Sfc.isDev].
      rewrite writeOutput_again. split; reflexivity.
    + rewrite Hscan. split; reflexivity.
Qed.

Lemma rebuild_twice_same_artifacts_witness :
  let file := lit "/app/src/components/card.html" in
  let s := fresh (Demo.tree [(lit "card.html", Demo.cardSource)]) in
  let s1 := (Part001.onChange Demo.host file s).2 in
  let s2 := (Part001.onChange Demo.host file s1).2 in
  fs s1 !! Fs.join Demo.assets (lit "app.min.css")
    = Some (File (lit "p{color:red}"))
  /\ fs s2 = fs s1 /\ plugin s2 = plugin s1.
Proof.
  split; [vm_compute; reflexivity|].
  exact (proj1 (rebuild_twice_same_artifacts Demo.host
    (lit "/app/src/components/card.html")
    (lit "/app/src/components/card.html")
    (fresh (Demo.tree [(lit "card.html", Demo.cardSource)]))
    (freshSfc (Demo.tree [(lit "card.html", Demo.cardSource)]))
    eq_refl eq_refl)).
Defined.

(** ** Creating directories *)

Section Mkdir.

Implicit Types (f : gmap path node) (done q : path) (todo : list jsstring).

(** [mkdirs] touches the prefixes of its target only. *)
Lemma mkdirs_other done todo f q :
  (forall k, q <> done ++ take k todo) ->
  (Fs.mkdirs done todo f).2 !! q = f !! q.
Proof.
  revert done f. induction todo as [|name todo IH]; intros done f Hq;
    [reflexivity|].
  assert (Hnext : forall k, q <> Fs.join done name ++ take k todo).
  { intros k. unfold Fs.join. rewrite <- app_assoc. apply (Hq (S k)). }
  assert (Hdone : q <> done).
  { specialize (Hq 0). by rewrite take_0, app_nil_r in Hq. }
  assert (Hjoin : q <> Fs.join done name).
  { specialize (Hq 1). simpl in Hq. by rewrite take_0 in Hq. }
  cbn [Fs.mkdirs].
  destruct (f !! Fs.join done name) as [[c|l]|].
  - destruct todo; reflexivity.
  - by apply IH.
  - destruct (f !! done) as [[c|entries]|]; try reflexivity.
    rewrite IH by assumption.
    rewrite lookup_insert_ne by congruence.
    by rewrite lookup_insert_ne by congruence.
Qed.

Lemma ensureDir_other f dir q :
  (forall k, q <> take k dir) -> (ensureDir f dir).2 !! q = f !! q.
Proof.
  intros Hq. unfold ensureDir, Fs.mkdirSync.
  destruct (Fs.existsSync f dir); [reflexivity|].
  by apply mkdirs_other.
Qed.

Lemma longer_not_prefix (dir q : path) :
  length dir < length q -> forall k, q <> take k dir.
Proof.
  intros Hlen k H. apply (f_equal length) in H.
  rewrite length_take in H. lia.
Qed.

Lemma ensureDir_child f dir name :
  (ensureDir f dir).2 !! Fs.join dir name = f !! Fs.join dir name.
Proof.
  apply ensureDir_other, longer_not_prefix.
  unfold Fs.join. rewrite length_app. simpl. lia.
Qed.

Lemma ensureDir_present f dir n :
  f !! dir = Some n -> ensureDir f dir = (None, f).
Proof. intros H. unfold ensureDir, Fs.existsSync. by rewrite H. Qed.

End Mkdir.

(** ** The production hooks *)

Section Bundle.

Variable h : Host.

Lemma ensure_run {P : Type} (dir : path) (k : M P unit) (s : State P) :
  (let! there := existsSync dir in when (negb there) (mkdirSync dir) ;;; k) s
  = match ensureDir (fs s) dir with
    | (None, f1) => k (set_fs f1 s)
    | (Some e, f1) => (Throw e, set_fs f1 s)
    end.
Proof.
  unfold bind at 1, existsSync, ensureDir.
  destruct (Fs.existsSync (fs s) dir); cbn [negb when].
  - unfold bind, ret. by rewrite set_fs_id.
  - unfold bind, mkdirSync.
    destruct (Fs.mkdirSync (fs s) dir) as [[e|] f1]; reflexivity.
Qed.

Lemma Part001_writeBundle_run (dir : option path) (s : State Data) :
  Part001.writeBundle h dir s =
  match ensureDir (fs s) (bundleAssetsDir h dir) with
  | (None, f1) =>
      ((writeOutput (cleancss h) (minify h) (bundleAssetsDir h dir)
          (plugin s) f1).1,
       set_fs (writeOutput (cleancss h) (minify h) (bundleAssetsDir h dir)
                 (plugin s) f1).2 s)
  | (Some e, f1) => (Throw e, set_fs f1 s)
  end.
Proof.
  rewrite Part001_writeBundle_unfold. cbv zeta.
  fold (bundleAssetsDir h dir). rewrite ensure_run.
  destruct (ensureDir (fs s) (bundleAssetsDir h dir)) as [[e|] f1];
    [reflexivity|].
  by rewrite Part001_writeDevFiles_run.
Qed.

Lemma Sfc_writeBundle_run (dir : option path) (s : State Sfc.Plugin) :
  Sfc.writeBundle h dir s =
  match ensureDir (fs s) (bundleAssetsDir h dir) with
  | (None, f1) =>
      ((writeOutput (cleancss h) (minify h) (bundleAssetsDir h dir)
          (Sfc.data (plugin s)) f1).1,
       set_fs (writeOutput (cleancss h) (minify h) (bundleAssetsDir h dir)
                 (Sfc.data (plugin s)) f1).2 s)
  | (Some e, f1) => (Throw e, set_fs f1 s)
  end.
Proof.
  rewrite Sfc_writeBundle_unfold. cbv zeta.
  fold (bundleAssetsDir h dir). rewrite ensure_run.
  destruct (ensureDir (fs s) (bundleAssetsDir h dir)) as [[e|] f1];
    [reflexivity|].
  by rewrite Sfc_writeDevFiles_run.
Qed.

Lemma Part001_buildStart_run (s : State Data) :
  Part001.buildStart h s =
  if Fs.existsSync (fs s) (Part001.componentsDir h) then
    ((scanDir Part001.extracted h (fs s) (Part001.componentsDir h)
        (plugin s)).1,
     set_plugin
       (scanDir Part001.extracted h (fs s) (Part001.componentsDir h)
          (plugin s)).2 s)
  else (Ok tt, s).
Proof.
  unfold Part001.buildStart, bind, existsSync.
  destruct (Fs.existsSync (fs s) (Part001.componentsDir h)); cbn [negb];
    [apply Part001_extractAll_run|reflexivity].
Qed.

Lemma Sfc_buildStart_run (s : State Sfc.Plugin) :
  Sfc.buildStart h s =
  let s0 := set_plugin (Sfc.mkPlugin (Sfc.data (plugin s)) false) s in
  if Fs.existsSync (fs s) (Sfc.componentsDir h) then
    ((scanDir Sfc.extracted h (fs s) (Sfc.componentsDir h)
        (Sfc.data (plugin s))).1,
     set_data
       (scanDir Sfc.extracted h (fs s) (Sfc.componentsDir h)
          (Sfc.data (plugin s))).2 s0)
  else (Ok tt, s0).
Proof.
  unfold Sfc.buildStart, Sfc.set_isDev, modify. unfold bind at 1 2, existsSync.
  cbn [fs set_plugin].
  destruct (Fs.existsSync (fs s) (Sfc.componentsDir h)); cbn [negb];
    [|reflexivity].
  by rewrite Sfc_extractAll_run.
Qed.

End Bundle.

(** ** The two artifacts *)

Section Artifacts.

Variables (css : jsstring -> jsstring) (js : jsstring -> option jsstring).

Lemma truthy_nil (x : jsstring) : truthy x = false <-> x = [].
Proof. destruct x; simpl; split; congruence. Qed.

Lemma writeOutput_style_rule dir d f :
  style_artifact_rule css dir d f (writeOutput css js dir d f).2.
Proof.
  unfold style_artifact_rule. cbv zeta. rewrite writeOutput_css.
  destruct (truthy (style d)) eqn:Ht.
  - assert (Hne : style d <> []) by (intros H%truthy_nil; congruence).
    split; [intros H; by destruct Hne|]. split.
    + intros Hch. split; [exact Hne|].
      destruct (Fs.writeFileSync f dir _ _); [reflexivity|by destruct Hch].
    + intros _ entries Hd Hc.
      destruct (writeFileSync_succeeds f dir (lit "app.min.css")
        (css (style d)) entries Hd Hc) as [f1 ->]. reflexivity.
  - apply truthy_nil in Ht.
    split; [reflexivity|]. split; [intros Hch; by destruct Hch|].
    intros Hne. by destruct Hne.
Qed.

Lemma writeOutput_script_rule dir d f :
  script_artifact_rule js dir d f
    (writeOutput css js dir d f).1 (writeOutput css js dir d f).2.
Proof.
  unfold script_artifact_rule. cbv zeta. split.
  - intros Hok. apply (writeOutput_ok_js css js dir d f).
    destruct (writeOutput css js dir d f) as [r f']. simpl in Hok. by subst.
  - intros entries code Hd Hc Hj Hjs.
    destruct (writeOutput_js css js dir d f entries code Hd Hc Hj Hjs)
      as (f' & -> & Hf'). by split.
Qed.

(** With the directory made first, as [writeBundle] does. *)
Lemma ensured_style_rule dir d f :
  style_artifact_rule css dir d f
    match ensureDir f dir with
    | (None, f1) => (writeOutput css js dir d f1).2
    | (Some _, f1) => f1
    end.
Proof.
  pose proof (ensureDir_child f dir (lit "app.min.css")) as Hsame.
  destruct (ensureDir f dir) as [[e|] f1] eqn:He; cbn [snd] in Hsame.
  - unfold style_artifact_rule. cbv zeta. rewrite Hsame.
    split; [reflexivity|]. split; [intros H; by destruct H|].
    intros _ entries Hd. rewrite (ensureDir_present _ _ _ Hd) in He.
    discriminate He.
  - destruct (writeOutput_style_rule dir d f1) as (R1 & R2 & R3).
    unfold style_artifact_rule. cbv zeta. rewrite <- Hsame.
    split; [exact R1|]. split; [exact R2|].
    intros Hne entries Hd. rewrite (ensureDir_present _ _ _ Hd) in He.
    inversion He; subst f1. intros Hc. by apply (R3 Hne entries).
Qed.

Lemma ensured_script_rule dir d f :
  script_artifact_rule js dir d f
    match ensureDir f dir with
    | (None, f1) => (writeOutput css js dir d f1).1
    | (Some e, _) => Throw e
    end
    match ensureDir f dir with
    | (None, f1) => (writeOutput css js dir d f1).2
    | (Some _, f1) => f1
    end.
Proof.
  destruct (ensureDir f dir) as [[e|] f1] eqn:He.
  - unfold script_artifact_rule. cbv zeta. split; [discriminate|].
    intros entries code Hd. rewrite (ensureDir_present _ _ _ Hd) in He.
    discriminate He.
  - destruct (writeOutput_script_rule dir d f1) as (R1 & R2).
    unfold script_artifact_rule. cbv zeta. split; [exact R1|].
    intros entries code Hd. rewrite (ensureDir_present _ _ _ Hd) in He.
    inversion He; subst f1. by apply (R2 entries).
Qed.

End Artifacts.

(** C7: in the output functions of both variants ([writeDevFiles] and
    [writeBundle]) the style artifact is left as it was when the style
    aggregate is empty, changes only when the aggregate is not empty,
    then to the minified aggregate, and is written for a non-empty
    aggregate whenever its directory is there and it is not itself a
    directory. *)
Theorem style_artifact_only_for_nonempty_style (h : Host) (assetsDir : path)
    (isDev : bool) (dir : option path)
    (sB : State Data) (sA : State Sfc.Plugin) :
  style_artifact_rule (cleancss h) assetsDir (plugin sB) (fs sB)
    (fs (Part001.writeDevFiles h assetsDir sB).2)
  /\ style_artifact_rule (cleancss h) assetsDir (Sfc.data (plugin sA)) (fs sA)
       (fs (Sfc.writeDevFiles h assetsDir isDev sA).2)
  /\ style_artifact_rule (cleancss h) (bundleAssetsDir h dir) (plugin sB)
       (fs sB) (fs (Part001.writeBundle h dir sB).2)
  /\ style_artifact_rule (cleancss h) (bundleAssetsDir h dir)
       (Sfc.data (plugin sA)) (fs sA) (fs (Sfc.writeBundle h dir sA).2).
Proof.
  rewrite Part001_writeDevFiles_run, Sfc_writeDevFiles_run,
    Part001_writeBundle_run, Sfc_writeBundle_run.
  cbn [snd fs set_fs].
  split; [apply writeOutput_style_rule|].
  split; [apply writeOutput_style_rule|].
  split.
  - generalize (ensured_style_rule (cleancss h) (minify h)
      (bundleAssetsDir h dir) (plugin sB) (fs sB)).
    by destruct (ensureDir (fs sB) (bundleAssetsDir h dir)) as [[e|] f1].
  - generalize (ensured_style_rule (cleancss h) (minify h)
      (bundleAssetsDir h dir) (Sfc.data (plugin sA)) (fs sA)).
    by destruct (ensureDir (fs sA) (bundleAssetsDir h dir)) as [[e|] f1].
Qed.

(** With no component, [buildStart] leaves the aggregate of a fresh
    plugin empty. *)
Lemma scanDir_zero extract (h : Host) f dir d :
  zero_components f dir ->
  (if Fs.existsSync f dir then scanDir extract h f dir d else (Ok tt, d))
  = (Ok tt, d).
Proof.
  unfold Fs.existsSync. intros [Hz|(entries & Hz & Hf)]; rewrite Hz;
    [reflexivity|].
  eapply scanDir_no_component; [|exact Hf]. unfold Fs.readdirSync.
  by rewrite Hz.
Qed.

Lemma Part001_buildStart_zero (h : Host) f :
  zero_components f (Part001.componentsDir h) ->
  Part001.buildStart h (fresh f) = (Ok tt, fresh f).
Proof.
  intros Hz. rewrite Part001_buildStart_run. cbn [fs plugin fresh].
  pose proof (scanDir_zero Part001.extracted h f _ Part001.sfcPlugin Hz) as H.
  destruct (Fs.existsSync f (Part001.componentsDir h)); [|reflexivity].
  by rewrite H.
Qed.

Lemma Sfc_buildStart_zero (h : Host) f :
  zero_components f (Sfc.componentsDir h) ->
  Sfc.buildStart h (freshSfc f)
  = (Ok tt, set_plugin (Sfc.mkPlugin emptyData false) (freshSfc f)).
Proof.
  intros Hz. rewrite Sfc_buildStart_run. cbv zeta.
  cbn [fs plugin freshSfc Sfc.data Sfc.sfcPlugin].
  pose proof (scanDir_zero Sfc.extracted h f _ emptyData Hz) as H.
  destruct (Fs.existsSync f (Sfc.componentsDir h)); [|reflexivity].
  by rewrite H.
Qed.

(** C3: the script text that [writeBundle] and [writeDevFiles] hand on
    is template code, one space, script code, whatever the aggregate
    holds: whenever they return the script artifact holds it (minified,
    or as it is in development mode of [src/vite-plugin-sfc.js]), they
    do return on a sound asset directory when the minifier accepts the
    text, and for the empty aggregate the text is one space. *)
Theorem script_artifact_is_space_joined (h : Host) (assetsDir : path)
    (isDev : bool) (dir : option path)
    (sB : State Data) (sA : State Sfc.Plugin) :
  script_artifact_rule (minify h) (bundleAssetsDir h dir) (plugin sB) (fs sB)
    (Part001.writeBundle h dir sB).1 (fs (Part001.writeBundle h dir sB).2)
  /\ script_artifact_rule (jsOf h isDev) assetsDir (Sfc.data (plugin sA))
       (fs sA) (Sfc.writeDevFiles h assetsDir isDev sA).1
       (fs (Sfc.writeDevFiles h assetsDir isDev sA).2)
  /\ script_artifact_rule (minify h) assetsDir (plugin sB) (fs sB)
       (Part001.writeDevFiles h assetsDir sB).1
       (fs (Part001.writeDevFiles h assetsDir sB).2)
  /\ script_artifact_rule (minify h) (bundleAssetsDir h dir)
       (Sfc.data (plugin sA)) (fs sA)
       (Sfc.writeBundle h dir sA).1 (fs (Sfc.writeBundle h dir sA).2)
  /\ (forall f, zero_components f (Part001.componentsDir h) ->
      let d := plugin (Part001.buildStart h (fresh f)).2 in
      template d ++ lit " " ++ script d = [space])
  /\ (forall f, zero_components f (Sfc.componentsDir h) ->
      let d := Sfc.data (plugin (Sfc.buildStart h (freshSfc f)).2) in
      template d ++ lit " " ++ script d = [space]).
Proof.
  rewrite Part001_writeDevFiles_run, Sfc_writeDevFiles_run,
    Part001_writeBundle_run, Sfc_writeBundle_run.
  split; [|split; [|split; [|split; [|split]]]].
  - generalize (ensured_script_rule (cleancss h) (minify h)
      (bundleAssetsDir h dir) (plugin sB) (fs sB)).
    by destruct (ensureDir (fs sB) (bundleAssetsDir h dir)) as [[e|] f1].
  - apply writeOutput_script_rule.
  - apply writeOutput_script_rule.
  - generalize (ensured_script_rule (cleancss h) (minify h)
      (bundleAssetsDir h dir) (Sfc.data (plugin sA)) (fs sA)).
    by destruct (ensureDir (fs sA) (bundleAssetsDir h dir)) as [[e|] f1].
  - intros f Hz. by rewrite (Part001_buildStart_zero h f Hz).
  - intros f Hz. by rewrite (Sfc_buildStart_zero h f Hz).
Qed.

(** ** The development server *)

Section Preserves.

Context {P : Type}.
Implicit Types (q dir : path) (s : State P).

Lemma preserves_bind {A B} q (m : M P A) (k : A -> M P B) :
  preserves q m -> (forall a, preserves q (k a)) -> preserves q (bind m k).
Proof.
  intros Hm Hk s. unfold bind. specialize (Hm s).
  destruct (m s) as [[a|e] s1]; cbn [snd] in *; [|exact Hm].
  destruct Hm as (Hp & Hl & Hf). destruct (Hk a s1) as (Hp' & Hl' & Hf').
  split; [congruence|]. split; congruence.
Qed.

Lemma preserves_ret {A} q (a : A) : preserves q (ret (P:=P) a).
Proof. by intros s. Qed.

Lemma preserves_when q b (m : M P unit) :
  preserves q m -> preserves q (when b m).
Proof. destruct b; [auto|intros _; apply preserves_ret]. Qed.

Lemma preserves_existsSync q dir : preserves q (existsSync (P:=P) dir).
Proof. by intros s. Qed.

Lemma preserves_get q : preserves q (get (P:=P)).
Proof. by intros s. Qed.

Lemma preserves_readFileSync q p : preserves q (readFileSync (P:=P) p).
Proof.
  intros s. unfold readFileSync, readFs.
  by destruct (Fs.readFileSync (fs s) p).
Qed.

Lemma preserves_mkdirSync q dir :
  (forall k, q <> take k dir) -> preserves q (mkdirSync (P:=P) dir).
Proof.
  intros Hq s. unfold mkdirSync.
  pose proof (mkdirs_other [] dir (fs s) q Hq) as H.
  unfold Fs.mkdirSync.
  destruct (Fs.mkdirs [] dir (fs s)) as [[e|] f1]; cbn [snd] in *; by auto.
Qed.

Lemma preserves_writeFileSync q dir name content :
  q <> dir -> q <> Fs.join dir name ->
  preserves q (writeFileSync (P:=P) dir name content).
Proof.
  intros Hd Hj s. unfold writeFileSync, writeFs.
  destruct (Fs.writeFileSync (fs s) dir name content) as [f1|e] eqn:H;
    cbn [snd]; [|by auto].
  split; [reflexivity|]. split; [reflexivity|].
  cbn [fs set_fs]. eauto using writeFileSync_other.
Qed.

Lemma preserves_console_error q e : preserves q (console_error (P:=P) e).
Proof. by intros s. Qed.

Lemma preserves_catch q (m : M P unit) (handler : Error -> M P unit) :
  preserves q m -> (forall e, preserves q (handler e)) ->
  preserves q (catch m handler).
Proof.
  intros Hm Hh s. unfold catch. specialize (Hm s).
  destruct (m s) as [[a|e] s1]; cbn [snd] in *; [exact Hm|].
  destruct Hm as (Hp & Hl & Hf). destruct (Hh e s1) as (Hp' & Hl' & Hf').
  split; [congruence|]. split; congruence.
Qed.


Lemma bind_last (m k : M P unit) s :
  (forall s', k s' = (Ok tt, s')) ->
  (m ;;; k) s = match m s with (Ok _, s1) => (Ok tt, s1) | other => other end.
Proof.
  intros H. unfold bind. destruct (m s) as [[[]|e] s1]; [apply H|reflexivity].
Qed.

End Preserves.

Section Server.

Variable h : Host.

Lemma components_not_under_public :
  forall k, Part001.componentsDir h <> take k (Part001.publicDir h).
Proof.
  apply longer_not_prefix. unfold Part001.componentsDir, Part001.publicDir.
  rewrite !length_app. simpl. lia.
Qed.

Lemma components_not_under_assets :
  forall k, Part001.componentsDir h <> take k (Part001.devAssetsDir h).
Proof.
  intros k H.
  destruct (decide (length (Part001.devAssetsDir h) <= k)) as [Hk|Hk].
  - rewrite take_ge in H by exact Hk. by apply components_ne_assets in H.
  - apply (f_equal length) in H. rewrite length_take in H.
    unfold Part001.componentsDir, Part001.devAssetsDir, Part001.publicDir,
      Fs.join in *. rewrite !length_app in *. simpl in *. lia.
Qed.

Lemma components_ne_public :
  Part001.componentsDir h <> Part001.publicDir h.
Proof.
  intros H. apply (components_not_under_public (length (Part001.publicDir h))).
  by rewrite firstn_all.
Qed.

Lemma components_ne_public_file name :
  Part001.componentsDir h <> Fs.join (Part001.publicDir h) name.
Proof.
  unfold Part001.componentsDir, Part001.publicDir, Fs.join.
  rewrite <- !app_assoc. intros H%app_inv_head. discriminate H.
Qed.








Lemma Sfc_ensureDirs_preserves :
  preserves (Sfc.componentsDir h) (Sfc.ensureDirs h).
Proof.
  unfold Sfc.ensureDirs.
  repeat first
    [ apply preserves_bind; [|intros ?]
    | apply preserves_when
    | apply preserves_existsSync
    | apply preserves_mkdirSync ];
    auto using components_not_under_public, components_not_under_assets.
Qed.

Lemma Sfc_copyIndex_preserves :
  preserves (Sfc.componentsDir h) (Sfc.copyIndex h).
Proof.
  unfold Sfc.copyIndex.
  repeat first
    [ apply preserves_bind; [|intros ?]
    | apply preserves_when
    | apply preserves_existsSync
    | apply preserves_readFileSync
    | apply preserves_writeFileSync ];
    auto using components_ne_public, components_ne_public_file.
Qed.

Lemma Sfc_writeOnStart_preserves :
  preserves (Sfc.componentsDir h) (Sfc.writeOnStart h).
Proof.
  unfold Sfc.writeOnStart.
  apply preserves_bind; [apply preserves_get|]. intros s0.
  apply preserves_catch; [|intros e; apply preserves_console_error].
  intros s. rewrite Sfc_writeDevFiles_run. cbn [snd fs plugin set_fs].
  split; [reflexivity|]. split; [reflexivity|].
  apply writeOutput_other;
    auto using components_ne_assets, components_ne_artifact.
Qed.





End Server.



(** ** The start hooks do not clear the aggregate *)

(** [buildStart] and the scan of [configureServer] go on from the
    aggregate they find; only the change listener starts from the empty
    one. *)
Lemma Part001_start_hooks_append (h : Host) (s : State Data) :
  fs s !! Part001.componentsDir h <> None ->
  plugin (Part001.buildStart h s).2
  = (scanDir Part001.extracted h (fs s) (Part001.componentsDir h)
       (plugin s)).2
  /\ plugin (Part001.extractIfPresent h s).2
     = (scanDir Part001.extracted h (fs s) (Part001.componentsDir h)
          (plugin s)).2.
Proof.
  intros Hd. split.
  - rewrite Part001_buildStart_run. unfold Fs.existsSync.
    destruct (fs s !! Part001.componentsDir h); [reflexivity|by destruct Hd].
  - unfold Part001.extractIfPresent, bind, existsSync, Fs.existsSync.
    destruct (fs s !! Part001.componentsDir h); [|by destruct Hd].
    cbn [when]. by rewrite Part001_extractAll_run.
Qed.

(** C4, on the code: with the one component [card.html], [buildStart]
    followed by [configureServer] on the same plugin instance (or
    [buildStart] twice, as in a watch build) leaves every fragment
    twice in the aggregate, and [writeBundle] writes the style twice;
    the change listener, which clears [data] first, leaves each
    fragment once. *)
Theorem start_hooks_leave_earlier_fragments :
  let s0 := fresh (Demo.tree [(lit "card.html", Demo.cardSource)]) in
  let once := templateFragment (lit "card") (lit "<div> {{title}}</div>") in
  let s1 := (Part001.buildStart Demo.host s0).2 in
  let s2 := (Part001.configureServer Demo.host s1).2 in
  let s2' := (Part001.buildStart Demo.host s1).2 in
  let s3 := (Part001.writeBundle Demo.host None s2').2 in
  let s4 :=
    (Part001.onChange Demo.host (lit "/app/src/components/card.html") s2).2 in
  template (plugin s1) = once
  /\ template (plugin s2) = once ++ once
  /\ style (plugin s2) = lit "p{color:red}p{color:red}"
  /\ template (plugin s2') = once ++ once
  /\ fs s3 !! Fs.join Demo.distAssets (lit "app.min.css")
     = Some (File (lit "p{color:red}p{color:red}"))
  /\ template (plugin s4) = once
  /\ style (plugin s4) = lit "p{color:red}".
Proof. vm_compute. repeat split; reflexivity. Qed.

(** C5, on the code: over the one unchanged component [card.html], two
    builds in a row on one plugin instance ([buildStart] and
    [writeBundle], twice, as in a watch build) write different style
    and script artifacts, the second with every fragment twice; the
    rebuild of the server start ([buildStart], then [configureServer])
    and the rebuild of a change that follows it write different
    artifacts; and in [vite-plugin-sfc.js] a [buildStart] between the
    server start and a change makes the change write the minified
    script where the server start wrote the plain one.  The component
    directory and file are the same throughout. *)
Theorem start_rebuilds_write_different_artifacts :
  let card := [(lit "card.html", Demo.cardSource)] in
  let changed := lit "/app/src/components/card.html" in
  let distCss := Fs.join Demo.distAssets (lit "app.min.css") in
  let distJs := Fs.join Demo.distAssets (lit "app.min.js") in
  let devCss := Fs.join Demo.assets (lit "app.min.css") in
  let devJs := Fs.join Demo.assets (lit "app.min.js") in
  let s0 := fresh (Demo.tree card) in
  let b1 :=
    (Part001.writeBundle Demo.host None (Part001.buildStart Demo.host s0).2).2 in
  let b2 :=
    (Part001.writeBundle Demo.host None (Part001.buildStart Demo.host b1).2).2 in
  let d1 :=
    (Part001.configureServer Demo.host (Part001.buildStart Demo.host s0).2).2 in
  let d2 := (Part001.onChange Demo.host changed d1).2 in
  let a0 := freshSfc (Demo.tree card) in
  let a1 := (Sfc.configureServer Demo.host a0).2 in
  let a2 := (Sfc.onChange Demo.host changed (Sfc.buildStart Demo.host a1).2).2 in
  (fs b1 !! distCss = Some (File (lit "p{color:red}"))
   /\ fs b2 !! distCss = Some (File (lit "p{color:red}p{color:red}"))
   /\ fs b1 !! distJs <> fs b2 !! distJs
   /\ fs b2 !! Demo.cardFile = fs s0 !! Demo.cardFile
   /\ fs b2 !! Demo.components = fs s0 !! Demo.components)
  /\ (fs d1 !! devCss = Some (File (lit "p{color:red}p{color:red}"))
      /\ fs d2 !! devCss = Some (File (lit "p{color:red}"))
      /\ fs d1 !! devJs <> fs d2 !! devJs
      /\ fs d2 !! Demo.cardFile = fs s0 !! Demo.cardFile
      /\ fs d2 !! Demo.components = fs s0 !! Demo.components)
  /\ (fs a1 !! devCss = fs a2 !! devCss
      /\ fs a1 !! devJs
         = Some (File (combined (Sfc.data (plugin a1))))
      /\ fs a2 !! devJs
         = Some (File (trim (combined (Sfc.data (plugin a1)))))
      /\ fs a1 !! devJs <> fs a2 !! devJs
      /\ fs a2 !! Demo.cardFile = fs a0 !! Demo.cardFile
      /\ fs a2 !! Demo.components = fs a0 !! Demo.components).
Proof.
  vm_compute. repeat split; try reflexivity; intros H; discriminate H.
Qed.

(** C6, on the code: once a build has filled [data] from [card.html],
    a rebuild with the component directory gone raises no error in the
    start hooks but leaves [data] as the earlier build filled it, and
    [writeBundle] writes that style again; and the change listener,
    registered while the directory was there, lists the directory
    without asking whether it exists, and throws. *)
Theorem missing_directory_keeps_earlier_aggregate :
  let card := [(lit "card.html", Demo.cardSource)] in
  let changed := lit "/app/lib/components/list.html" in
  let distCss := Fs.join Demo.distAssets (lit "app.min.css") in
  let s1 := (Part001.buildStart Demo.host (fresh (Demo.tree card))).2 in
  let gone := set_fs Demo.bareTree s1 in
  let s2 := (Part001.buildStart Demo.host gone).2 in
  let s3 := (Part001.writeBundle Demo.host None s2).2 in
  let d1 := (Part001.configureServer Demo.host (fresh (Demo.tree card))).2 in
  let a1 := (Sfc.configureServer Demo.host (freshSfc (Demo.tree card))).2 in
  let a2 := (Sfc.configureServer Demo.host (set_fs Demo.bareTree a1)).2 in
  (Fs.existsSync Demo.bareTree (Part001.componentsDir Demo.host) = false
   /\ Part001.buildStart Demo.host gone = (Ok tt, gone)
   /\ style (plugin s2) = lit "p{color:red}"
   /\ template (plugin s2)
      = templateFragment (lit "card") (lit "<div> {{title}}</div>")
   /\ Demo.bareTree !! distCss = None
   /\ fs s3 !! distCss = Some (File (lit "p{color:red}")))
  /\ ((Sfc.configureServer Demo.host (set_fs Demo.bareTree a1)).1 = Ok tt
      /\ style (Sfc.data (plugin a2)) = lit "p{color:red}"
      /\ fs a2 !! Fs.join Demo.assets (lit "app.min.css")
         = Some (File (lit "p{color:red}")))
  /\ (listeners d1 = 1 /\ listeners a1 = 1
      /\ matches changed = true
      /\ (Part001.onChange Demo.host changed (set_fs Demo.bareTree d1)).1
         = Throw ENOENT
      /\ (Sfc.onChange Demo.host changed (set_fs Demo.bareTree a1)).1
         = Throw ENOENT).
Proof. vm_compute. repeat split; reflexivity. Qed.

(** ** The rules of the artifacts on the small project *)

Lemma script_artifact_is_space_joined_witness :
  let s := freshSfc (Demo.tree []) in
  (Sfc.writeDevFiles Demo.host Demo.assets true s).1 = Ok tt
  /\ fs (Sfc.writeDevFiles Demo.host Demo.assets true s).2
       !! Fs.join Demo.assets (lit "app.min.js")
     = Some (File (lit " ")).
Proof.
  pose proof (script_artifact_is_space_joined Demo.host Demo.assets true None
    (fresh (Demo.tree [])) (freshSfc (Demo.tree []))) as (_ & (_ & H) & _).
  apply (H [] (lit " "));
    [reflexivity
    |intros l; vm_compute; discriminate
    |intros l; vm_compute; discriminate
    |reflexivity].
Defined.

Lemma style_artifact_only_for_nonempty_style_witness :
  let s0 := fresh (Demo.tree [(lit "card.html", Demo.cardSource)]) in
  let s1 := (Part001.buildStart Demo.host s0).2 in
  fs (Part001.writeDevFiles Demo.host Demo.assets s0).2
    !! Fs.join Demo.assets (lit "app.min.css") = None
  /\ fs (Part001.writeDevFiles Demo.host Demo.assets s1).2
       !! Fs.join Demo.assets (lit "app.min.css")
     = Some (File (lit "p{color:red}")).
Proof.
  split.
  - pose proof (style_artifact_only_for_nonempty_style Demo.host Demo.assets
      true None (fresh (Demo.tree [(lit "card.html", Demo.cardSource)]))
      (freshSfc (Demo.tree []))) as ((H & _) & _).
    exact (H eq_refl).
  - pose proof (style_artifact_only_for_nonempty_style Demo.host Demo.assets
      true None
      (Part001.buildStart Demo.host
         (fresh (Demo.tree [(lit "card.html", Demo.cardSource)]))).2
      (freshSfc (Demo.tree []))) as ((_ & _ & H) & _).
    apply (H ltac:(vm_compute; discriminate) []);
      [reflexivity|intros l; vm_compute; discriminate].
Defined.

(** The examples of the specification. *)

(** A production build of no component: the script artifact is what
    the minifier makes of one space, and no style artifact appears. *)
Example bundle_of_no_component :
  let s1 := (Part001.buildStart Demo.host (fresh (Demo.tree []))).2 in
  let s2 := (Part001.writeBundle Demo.host None s1).2 in
  plugin s1 = emptyData
  /\ fs s2 !! Fs.join Demo.distAssets (lit "app.min.js") = Some (File [])
  /\ fs s2 !! Fs.join Demo.distAssets (lit "app.min.css") = None.
Proof. vm_compute. repeat split; reflexivity. Qed.

(** [card.html] in the wrapping variant: the template statement comes
    before the script statement in what is handed to the minifier. *)
Example card_aggregate :
  let s1 := (Part001.buildStart Demo.host
               (fresh (Demo.tree [(lit "card.html", Demo.cardSource)]))).2 in
  combined (plugin s1)
  = templateFragment (lit "card") (lit "<div> {{title}}</div>") ++ lit " "
    ++ wrappedScript (lit "card") (lit "card.textContent='x'")
  /\ style (plugin s1) = lit "p{color:red}".
Proof. vm_compute. split; reflexivity. Qed.

(** A component with a style section only adds to the style aggregate. *)
Example style_only_component (filename : jsstring) (d : Data) :
  let root := [mkElement (lit "style") (lit "p{color:red}") (lit "p{color:red}")] in
  Part001.extracted filename root d = add_style (lit "p{color:red}") d
  /\ Sfc.extracted filename root d = add_style (lit "p{color:red}") d.
Proof. split; reflexivity. Qed.

(** * Further properties *)

(** ** More on the whitespace collapse and on [trim] *)

(** X1: collapsing is idempotent: markup that went through
    [replace(/\s\s+/g, ' ')] comes out of it unchanged. *)
Theorem collapse_idempotent (s : jsstring) :
  collapse (collapse s) = collapse s.
Proof. apply collapse_id, collapse_from_no_run. Qed.

Lemma isWhiteSpace_space : isWhiteSpace space = true.
Proof. reflexivity. Qed.

Lemma collapse_from_nonws m (s : jsstring) :
  List.filter (fun c => negb (isWhiteSpace c)) (collapse_from m s)
  = List.filter (fun c => negb (isWhiteSpace c)) s.
Proof.
  revert m. induction s as [|c rest IH]; intros m; [by destruct m|].
  destruct m.
  - cbn [collapse_from]. destruct (isWhiteSpace c) eqn:Hc.
    + rewrite IH. simpl. by rewrite Hc.
    + simpl. rewrite Hc. simpl. by rewrite IH.
  - cbn [collapse_from]. destruct (isWhiteSpace c) eqn:Hc.
    + destruct rest as [|c2 rest']; [reflexivity|].
      destruct (isWhiteSpace c2) eqn:Hc2.
      * cbn [List.filter]. rewrite isWhiteSpace_space, Hc. cbn [negb].
        apply IH.
      * cbn [List.filter]. rewrite Hc. cbn [negb]. apply IH.
    + cbn [List.filter]. rewrite Hc. cbn [negb]. by rewrite IH.
Qed.

Lemma collapse_from_length m (s : jsstring) :
  length (collapse_from m s) <= length s.
Proof.
  revert m. induction s as [|c rest IH]; intros m; [by destruct m|].
  pose proof (IH true). pose proof (IH false).
  destruct m; cbn [collapse_from]; destruct (isWhiteSpace c);
    try (simpl; lia).
  destruct rest as [|c2 rest']; [simpl; lia|].
  destruct (isWhiteSpace c2); simpl in *; lia.
Qed.

(** X2: the collapse touches whitespace only: the units that are not
    whitespace come out the same, in the same order, and the result is
    never longer than the input. *)
Theorem collapse_keeps_other_units (s : jsstring) :
  List.filter (fun c => negb (isWhiteSpace c)) (collapse s)
  = List.filter (fun c => negb (isWhiteSpace c)) s
  /\ length (collapse s) <= length s.
Proof.
  split; [apply collapse_from_nonws|apply collapse_from_length].
Qed.

Lemma dropWhile_forallb {A} (p : A -> bool) (s : list A) :
  forallb p s = true -> dropWhile p s = [].
Proof.
  induction s as [|c s IH]; [reflexivity|].
  simpl. intros [-> Hs]%andb_prop. exact (IH Hs).
Qed.

(** [trim] leaves nothing exactly of the strings of whitespace. *)
Lemma trim_nil_iff (s : jsstring) :
  trim s = [] <-> forallb isWhiteSpace s = true.
Proof.
  split.
  - intros Ht. destruct (trim_spec s) as (l & r & Hs & Hl & Hr & _).
    rewrite Ht in Hs. rewrite Hs, forallb_app, Hl. exact Hr.
  - intros Hs. unfold trim, trimStart.
    by rewrite (dropWhile_forallb _ _ Hs).
Qed.

Lemma wrappedScript_not_nil filename body : wrappedScript filename body <> [].
Proof. discriminate. Qed.

(** X3: in [src/unnamed/part_001] a script element leaves the script
    aggregate as it is exactly when its text is whitespace only (or
    empty); in [src/vite-plugin-sfc.js] a script element always adds to
    the aggregate. *)
Theorem script_skipped_iff_whitespace (filename : jsstring) (root : Document)
    (el : Element) (d : Data) :
  querySelector root (lit "script") = Some el ->
  (script (Part001.extracted filename root d) = script d
   <-> forallb isWhiteSpace (text el) = true)
  /\ script (Sfc.extracted filename root d) <> script d.
Proof.
  intros Hel. split.
  - destruct (Part001_extracted_fields filename root d) as (_ & -> & _).
    unfold Part001.scriptStep. rewrite Hel, <- trim_nil_iff.
    destruct (trim (text el)) as [|c t] eqn:Ht; simpl; [tauto|].
    split; [|discriminate].
    intros H. rewrite <- (app_nil_r (script d)) in H at 2.
    apply app_inv_head in H. by apply wrappedScript_not_nil in H.
  - destruct (Sfc_extracted_fields filename root d) as (_ & -> & _).
    unfold Sfc.scriptStep. rewrite Hel. simpl.
    intros H. rewrite <- (app_nil_r (script d)) in H at 2.
    apply app_inv_head in H. by destruct (text el).
Qed.

Lemma script_skipped_iff_whitespace_witness :
  script (Part001.extracted (lit "blank") Demo.blankDoc emptyData) = []
  /\ script (Sfc.extracted (lit "blank") Demo.blankDoc emptyData) <> [].
Proof.
  destruct (script_skipped_iff_whitespace (lit "blank") Demo.blankDoc
    (mkElement (lit "script") [] []) emptyData eq_refl)
    as [[_ H1] H2].
  split; [exact (H1 eq_refl)|exact H2].
Defined.

(** ** The component name *)

Lemma startsWith_app (pre rest : jsstring) : startsWith pre (pre ++ rest) = true.
Proof.
  induction pre as [|c pre IH]; [reflexivity|].
  simpl. by rewrite N.eqb_refl, IH.
Qed.

Lemma endsWith_app (base ext : jsstring) : endsWith (base ++ ext) ext = true.
Proof. unfold endsWith. rewrite rev_app_distr. apply startsWith_app. Qed.

(** X4: the component name of the file [base.html] in a directory is
    [base], for a non-empty [base]; the entry [.html] itself keeps its
    whole name. *)
Theorem basename_strips_html (dir : path) (base : jsstring) :
  base <> [] ->
  Fs.basename (Fs.join dir (base ++ lit ".html")) (lit ".html") = base
  /\ Fs.basename (Fs.join dir (lit ".html")) (lit ".html") = lit ".html".
Proof.
  intros Hb. unfold Fs.basename, Fs.join. rewrite !rev_app_distr.
  cbn [rev app]. split; [|reflexivity].
  rewrite endsWith_app. rewrite bool_decide_eq_false_2.
  - cbn [negb andb]. rewrite length_app, Nat.add_sub.
    by rewrite take_app_length.
  - intros H. apply (f_equal length) in H. rewrite length_app in H.
    destruct base; [by destruct Hb|simpl in H; lia].
Qed.

Lemma basename_strips_html_witness :
  Fs.basename Demo.cardFile (lit ".html") = lit "card".
Proof.
  exact (proj1 (basename_strips_html Demo.components (lit "card")
    ltac:(discriminate))).
Defined.

(** ** More on the scan of the component directory *)

Section AppendOnly.

Lemma appendData_empty_r d : appendData d emptyData = d.
Proof. destruct d. unfold appendData. simpl. by rewrite !app_nil_r. Qed.

Lemma appendData_empty_l d : appendData emptyData d = d.
Proof. by destruct d. Qed.

Lemma appendData_assoc d e g :
  appendData d (appendData e g) = appendData (appendData d e) g.
Proof. unfold appendData. simpl. by rewrite !app_assoc. Qed.

(** One call of [extractTags] appends, and what it appends does not
    depend on what is there. *)
Lemma Part001_extracted_append filename root d :
  Part001.extracted filename root d
  = appendData d (Part001.extracted filename root emptyData).
Proof.
  unfold Part001.extracted, Part001.styleStep, Part001.scriptStep,
    Part001.templateStep, appendData.
  destruct (querySelector root (lit "style")),
    (querySelector root (lit "script")) as [el|],
    (querySelector root (lit "template"));
    try destruct (truthy (trim (text el)));
    destruct d; simpl; by rewrite ?app_nil_r.
Qed.

Lemma Sfc_extracted_append filename root d :
  Sfc.extracted filename root d
  = appendData d (Sfc.extracted filename root emptyData).
Proof.
  unfold Sfc.extracted, Sfc.styleStep, Sfc.scriptStep,
    Sfc.templateStep, appendData.
  destruct (querySelector root (lit "style")),
    (querySelector root (lit "script")),
    (querySelector root (lit "template"));
    destruct d; simpl; by rewrite ?app_nil_r.
Qed.

Variables (extract : jsstring -> Document -> Data -> Data) (h : Host).
Hypothesis extract_append :
  forall filename root d,
    extract filename root d = appendData d (extract filename root emptyData).
Implicit Types (f : gmap path node) (dir : path) (d : Data).

Lemma scanFiles_append f dir files d :
  scanFiles extract h f dir files d
  = ((scanFiles extract h f dir files emptyData).1,
     appendData d (scanFiles extract h f dir files emptyData).2).
Proof.
  revert d. induction files as [|file rest IH]; intros d.
  - simpl. by rewrite appendData_empty_r.
  - cbn [scanFiles].
    destruct (Fs.readFileSync f (Fs.join dir file)) as [source|e].
    + rewrite IH. symmetry. rewrite IH. cbn [fst snd].
      by rewrite appendData_assoc, <- extract_append.
    + simpl. by rewrite appendData_empty_r.
Qed.

Lemma scanDir_append f dir d :
  scanDir extract h f dir d
  = ((scanDir extract h f dir emptyData).1,
     appendData d (scanDir extract h f dir emptyData).2).
Proof.
  unfold scanDir. destruct (Fs.readdirSync f dir) as [entries|e].
  - apply scanFiles_append.
  - simpl. by rewrite appendData_empty_r.
Qed.

(** The aggregate of readable files is the concatenation of their
    fragments, in the order of the list. *)
Lemma scanFiles_concat f dir files d :
  forallb (readable f dir) files = true ->
  scanFiles extract h f dir files d
  = (Ok tt,
     foldl appendData d (List.map (fragmentsOf extract h f dir) files)).
Proof.
  revert d. induction files as [|file rest IH]; intros d; [reflexivity|].
  cbn [forallb scanFiles List.map foldl].
  intros [Hr Hrest]%andb_prop. rewrite <- (IH _ Hrest).
  unfold readable in Hr. unfold fragmentsOf.
  destruct (Fs.readFileSync f (Fs.join dir file)) as [source|e];
    [|discriminate].
  by rewrite <- extract_append.
Qed.

(** The first file that cannot be read ends the scan: the files before
    it are in the aggregate, the files after it are not looked at. *)
Lemma scanFiles_stops f dir before bad after d e :
  forallb (readable f dir) before = true ->
  Fs.readFileSync f (Fs.join dir bad) = Throw e ->
  scanFiles extract h f dir (before ++ bad :: after) d
  = (Throw e,
     foldl appendData d (List.map (fragmentsOf extract h f dir) before)).
Proof.
  revert d. induction before as [|file rest IH]; intros d.
  - intros _ Hbad. simpl. by rewrite Hbad.
  - cbn [forallb scanFiles List.map foldl app].
    intros [Hr Hrest]%andb_prop Hbad. rewrite <- (IH _ Hrest Hbad).
    unfold readable in Hr. unfold fragmentsOf.
    destruct (Fs.readFileSync f (Fs.join dir file)) as [source|e'];
      [|discriminate].
    by rewrite <- extract_append.
Qed.

End AppendOnly.

Lemma Part001_buildStart_append (h : Host) (sB : State Data) :
  (Part001.buildStart h sB).1
    = (Part001.buildStart h (set_plugin emptyData sB)).1
  /\ plugin (Part001.buildStart h sB).2
     = appendData (plugin sB)
         (plugin (Part001.buildStart h (set_plugin emptyData sB)).2).
Proof.
  rewrite !Part001_buildStart_run. cbn [fs plugin set_plugin].
  rewrite (scanDir_append Part001.extracted h Part001_extracted_append
    (fs sB) (Part001.componentsDir h) (plugin sB)).
  destruct (Fs.existsSync (fs sB) (Part001.componentsDir h));
    cbn [fst snd plugin set_plugin]; rewrite ?appendData_empty_r;
    split; reflexivity.
Qed.

Lemma Part001_extractIfPresent_append (h : Host) (sB : State Data) :
  (Part001.extractIfPresent h sB).1
    = (Part001.extractIfPresent h (set_plugin emptyData sB)).1
  /\ plugin (Part001.extractIfPresent h sB).2
     = appendData (plugin sB)
         (plugin (Part001.extractIfPresent h (set_plugin emptyData sB)).2).
Proof.
  unfold Part001.extractIfPresent, bind, existsSync.
  cbn [fs plugin set_plugin].
  destruct (Fs.existsSync (fs sB) (Part001.componentsDir h)); cbn [when].
  - rewrite !Part001_extractAll_run. cbn [fst snd fs plugin set_plugin].
    rewrite (scanDir_append Part001.extracted h Part001_extracted_append
      (fs sB) (Part001.componentsDir h) (plugin sB)).
    split; reflexivity.
  - cbn [fst snd ret plugin set_plugin]. rewrite appendData_empty_r.
    split; reflexivity.
Qed.

Lemma Sfc_buildStart_append (h : Host) (sA : State Sfc.Plugin) :
  (Sfc.buildStart h sA).1 = (Sfc.buildStart h (set_data emptyData sA)).1
  /\ Sfc.data (plugin (Sfc.buildStart h sA).2)
     = appendData (Sfc.data (plugin sA))
         (Sfc.data (plugin (Sfc.buildStart h (set_data emptyData sA)).2)).
Proof.
  rewrite !Sfc_buildStart_run. cbv zeta.
  cbn [fs plugin set_plugin set_data Sfc.data Sfc.isDev].
  rewrite (scanDir_append Sfc.extracted h Sfc_extracted_append
    (fs sA) (Sfc.componentsDir h) (Sfc.data (plugin sA))).
  destruct (Fs.existsSync (fs sA) (Sfc.componentsDir h));
    cbn [fst snd fs plugin set_plugin set_data Sfc.data Sfc.isDev];
    rewrite ?appendData_empty_r; split; reflexivity.
Qed.

Lemma Sfc_extractIfPresent_append (h : Host) (sA : State Sfc.Plugin) :
  (Sfc.extractIfPresent h sA).1
    = (Sfc.extractIfPresent h (set_data emptyData sA)).1
  /\ Sfc.data (plugin (Sfc.extractIfPresent h sA).2)
     = appendData (Sfc.data (plugin sA))
         (Sfc.data (plugin (Sfc.extractIfPresent h (set_data emptyData sA)).2)).
Proof.
  unfold Sfc.extractIfPresent, bind, existsSync.
  cbn [fs plugin set_plugin set_data].
  destruct (Fs.existsSync (fs sA) (Sfc.componentsDir h)); cbn [when].
  - rewrite !Sfc_extractAll_run.
    cbn [fst snd fs plugin set_plugin set_data Sfc.data Sfc.isDev].
    rewrite (scanDir_append Sfc.extracted h Sfc_extracted_append
      (fs sA) (Sfc.componentsDir h) (Sfc.data (plugin sA))).
    split; reflexivity.
  - cbn [fst snd ret plugin set_plugin set_data Sfc.data].
    rewrite appendData_empty_r. split; reflexivity.
Qed.

(** X5: the start hooks only append: what [buildStart] and the scan of
    [configureServer] ([extractIfPresent]) leave in [data] is what was
    there followed, field by field, by what they leave when [data] is
    empty, and they end with the same result (return or exception) as
    from empty [data]; for both hooks, in both variants. *)
Theorem start_hooks_append_only (h : Host)
    (sB : State Data) (sA : State Sfc.Plugin) :
  ((Part001.buildStart h sB).1
     = (Part001.buildStart h (set_plugin emptyData sB)).1
   /\ plugin (Part001.buildStart h sB).2
      = appendData (plugin sB)
          (plugin (Part001.buildStart h (set_plugin emptyData sB)).2))
  /\ ((Part001.extractIfPresent h sB).1
       = (Part001.extractIfPresent h (set_plugin emptyData sB)).1
      /\ plugin (Part001.extractIfPresent h sB).2
         = appendData (plugin sB)
             (plugin (Part001.extractIfPresent h (set_plugin emptyData sB)).2))
  /\ ((Sfc.buildStart h sA).1 = (Sfc.buildStart h (set_data emptyData sA)).1
      /\ Sfc.data (plugin (Sfc.buildStart h sA).2)
         = appendData (Sfc.data (plugin sA))
             (Sfc.data (plugin (Sfc.buildStart h (set_data emptyData sA)).2)))
  /\ ((Sfc.extractIfPresent h sA).1
       = (Sfc.extractIfPresent h (set_data emptyData sA)).1
      /\ Sfc.data (plugin (Sfc.extractIfPresent h sA).2)
         = appendData (Sfc.data (plugin sA))
             (Sfc.data
                (plugin (Sfc.extractIfPresent h (set_data emptyData sA)).2))).
Proof.
  split; [apply Part001_buildStart_append|].
  split; [apply Part001_extractIfPresent_append|].
  split; [apply Sfc_buildStart_append|apply Sfc_extractIfPresent_append].
Qed.

(** X6: when every component file can be read, [buildStart] returns and
    [data] is what was there followed by the fragments of the [.html]
    entries, one file after the other in the order of the directory
    listing; in both variants. *)
Theorem aggregate_is_concatenation_in_listing_order (h : Host)
    (entries : list jsstring) (sB : State Data) (sA : State Sfc.Plugin) :
  let files := List.filter (fun name => endsWith name (lit ".html")) entries in
  fs sB !! Part001.componentsDir h = Some (Dir entries) ->
  fs sA !! Sfc.componentsDir h = Some (Dir entries) ->
  forallb (readable (fs sB) (Part001.componentsDir h)) files = true ->
  forallb (readable (fs sA) (Sfc.componentsDir h)) files = true ->
  Part001.buildStart h sB
  = (Ok tt,
     set_plugin
       (foldl appendData (plugin sB)
          (List.map (fragmentsOf Part001.extracted h (fs sB)
                       (Part001.componentsDir h)) files)) sB)
  /\ Sfc.buildStart h sA
     = (Ok tt,
        set_plugin
          (Sfc.mkPlugin
             (foldl appendData (Sfc.data (plugin sA))
                (List.map (fragmentsOf Sfc.extracted h (fs sA)
                             (Sfc.componentsDir h)) files)) false) sA).
Proof.
  intros files HB HA HrB HrA.
  rewrite Part001_buildStart_run, Sfc_buildStart_run. cbv zeta.
  unfold Fs.existsSync, scanDir, Fs.readdirSync. rewrite HB, HA.
  fold files.
  rewrite (scanFiles_concat Part001.extracted h Part001_extracted_append
    _ _ _ _ HrB).
  rewrite (scanFiles_concat Sfc.extracted h Sfc_extracted_append
    _ _ _ _ HrA).
  split; reflexivity.
Qed.

Lemma aggregate_is_concatenation_in_listing_order_witness :
  let f := Demo.tree [(lit "padded.html", Demo.paddedSource);
                      (lit "card.html", Demo.cardSource)] in
  exists d, Part001.buildStart Demo.host (fresh f) = (Ok tt, set_plugin d (fresh f))
    /\ script d
       = wrappedScript (lit "padded") (lit "go()")
         ++ wrappedScript (lit "card") (lit "card.textContent='x'").
Proof.
  eexists. split.
  - exact (proj1 (aggregate_is_concatenation_in_listing_order Demo.host
      [lit "padded.html"; lit "card.html"]
      (fresh (Demo.tree [(lit "padded.html", Demo.paddedSource);
                         (lit "card.html", Demo.cardSource)]))
      (freshSfc (Demo.tree [(lit "padded.html", Demo.paddedSource);
                            (lit "card.html", Demo.cardSource)]))
      eq_refl eq_refl eq_refl eq_refl)).
  - vm_compute. reflexivity.
Defined.

(** X7: a component file that cannot be read ends the scan with its
    error: [buildStart] throws it with the fragments of the files
    listed before it in [data] and none of the later ones; the change
    listener throws it too, and then writes nothing, prints nothing and
    sends no reload. *)
Theorem unreadable_component_stops_scan (h : Host) (file : jsstring)
    (entries before after : list jsstring) (bad : jsstring) (e : Error)
    (s : State Data) :
  fs s !! Part001.componentsDir h = Some (Dir entries) ->
  List.filter (fun name => endsWith name (lit ".html")) entries
    = before ++ bad :: after ->
  forallb (readable (fs s) (Part001.componentsDir h)) before = true ->
  Fs.readFileSync (fs s) (Fs.join (Part001.componentsDir h) bad) = Throw e ->
  matches file = true ->
  let found d :=
    foldl appendData d
      (List.map (fragmentsOf Part001.extracted h (fs s)
                   (Part001.componentsDir h)) before) in
  Part001.buildStart h s = (Throw e, set_plugin (found (plugin s)) s)
  /\ Part001.onChange h file s = (Throw e, set_plugin (found emptyData) s).
Proof.
  intros Hd Hf Hr Hbad Hm found. subst found.
  assert (Hscan : forall d,
    scanDir Part001.extracted h (fs s) (Part001.componentsDir h) d
    = (Throw e,
       foldl appendData d
         (List.map (fragmentsOf Part001.extracted h (fs s)
                      (Part001.componentsDir h)) before))).
  { intros d. unfold scanDir, Fs.readdirSync. rewrite Hd, Hf.
    by apply scanFiles_stops; [apply Part001_extracted_append| |]. }
  split.
  - rewrite Part001_buildStart_run. unfold Fs.existsSync.
    by rewrite Hd, Hscan.
  - rewrite (Part001_onChange_run h file s Hm). cbv zeta. by rewrite Hscan.
Qed.

Lemma unreadable_component_stops_scan_witness :
  let s := fresh Demo2.brokenTree in
  (Part001.buildStart Demo.host s).1 = Throw EISDIR
  /\ script (plugin (Part001.buildStart Demo.host s).2)
     = wrappedScript (lit "card") (lit "card.textContent='x'").
Proof.
  pose proof (proj1 (unreadable_component_stops_scan Demo.host
    (lit "/app/src/components/card.html")
    [lit "card.html"; lit "sub.html"; lit "padded.html"]
    [lit "card.html"] [lit "padded.html"] (lit "sub.html") EISDIR
    (fresh Demo2.brokenTree) eq_refl eq_refl eq_refl eq_refl eq_refl)) as H.
  cbv zeta. rewrite H. split; [reflexivity|vm_compute; reflexivity].
Defined.

Section HtmlOnly.

Variables (extract : jsstring -> Document -> Data -> Data) (h : Host).
Implicit Types (f : gmap path node) (dir : path) (d : Data).

Lemma scanFiles_ext_in f f' dir files d :
  (forall name, In name files ->
     f' !! Fs.join dir name = f !! Fs.join dir name) ->
  scanFiles extract h f' dir files d = scanFiles extract h f dir files d.
Proof.
  revert d. induction files as [|file rest IH]; intros d H; [reflexivity|].
  simpl. unfold Fs.readFileSync. rewrite (H file) by (by left).
  destruct (f !! Fs.join dir file) as [[source|]|]; try reflexivity.
  apply IH. intros name Hin. apply H. by right.
Qed.

Lemma scanDir_html_only f f' dir d :
  f' !! dir = f !! dir ->
  (forall name, endsWith name (lit ".html") = true ->
     f' !! Fs.join dir name = f !! Fs.join dir name) ->
  scanDir extract h f' dir d = scanDir extract h f dir d.
Proof.
  intros Hd H. unfold scanDir, Fs.readdirSync. rewrite Hd.
  destruct (f !! dir) as [[|entries]|]; try reflexivity.
  apply scanFiles_ext_in. intros name [_ Hn]%filter_In. by apply H.
Qed.

End HtmlOnly.

(** X8: only the directory itself and its entries that end in [.html]
    are read: on two file systems that agree on these, [buildStart] and
    the change listener build the same aggregate and end with the same
    result, whatever else differs; in both variants. *)
Theorem only_html_entries_are_read (h : Host) (file : jsstring)
    (f f' : gmap path node) :
  f' !! Part001.componentsDir h = f !! Part001.componentsDir h ->
  (forall name, endsWith name (lit ".html") = true ->
     f' !! Fs.join (Part001.componentsDir h) name
     = f !! Fs.join (Part001.componentsDir h) name) ->
  ((Part001.buildStart h (fresh f')).1 = (Part001.buildStart h (fresh f)).1
   /\ plugin (Part001.buildStart h (fresh f')).2
      = plugin (Part001.buildStart h (fresh f)).2)
  /\ ((Sfc.buildStart h (freshSfc f')).1 = (Sfc.buildStart h (freshSfc f)).1
      /\ plugin (Sfc.buildStart h (freshSfc f')).2
         = plugin (Sfc.buildStart h (freshSfc f)).2)
  /\ ((Part001.onChange h file (fresh f')).1
      = (Part001.onChange h file (fresh f)).1
      /\ plugin (Part001.onChange h file (fresh f')).2
         = plugin (Part001.onChange h file (fresh f)).2).
Proof.
  intros Hd Hn.
  assert (HB := scanDir_html_only Part001.extracted h f f' _ emptyData Hd Hn).
  assert (HA := scanDir_html_only Sfc.extracted h f f' _ emptyData Hd Hn).
  rewrite !Part001_buildStart_run, !Sfc_buildStart_run. cbv zeta.
  unfold Fs.existsSync. cbn [fs plugin fresh freshSfc].
  change (Sfc.componentsDir h) with (Part001.componentsDir h).
  rewrite Hd.
  unfold Part001.sfcPlugin, Sfc.sfcPlugin. cbn [Sfc.data].
  rewrite HB, HA.
  split; [|split].
  - destruct (f !! Part001.componentsDir h); split; reflexivity.
  - destruct (f !! Part001.componentsDir h); split; reflexivity.
  - destruct (matches file) eqn:Hm.
    + rewrite !(Part001_onChange_run h file _ Hm). cbv zeta.
      cbn [fs plugin fresh]. rewrite HB.
      destruct (scanDir Part001.extracted h f (Part001.componentsDir h)
        emptyData) as [[[]|e] d]; split; reflexivity.
    + rewrite !(Part001_onChange_skip h file _ Hm). split; reflexivity.
Qed.

Lemma only_html_entries_are_read_witness :
  plugin (Part001.buildStart Demo.host (fresh (Demo2.withNotes (lit "b")))).2
  = plugin (Part001.buildStart Demo.host (fresh (Demo2.withNotes (lit "a")))).2.
Proof.
  refine (proj2 (proj1 (only_html_entries_are_read Demo.host []
    (Demo2.withNotes (lit "a")) (Demo2.withNotes (lit "b")) eq_refl _))).
  intros name Hn. unfold Demo2.withNotes, Demo.tree. cbn [foldr fst snd].
  destruct (decide (name = lit "card.html")) as [->|Hcard];
    [by rewrite !lookup_insert_eq|].
  rewrite !(lookup_insert_ne _ (Fs.join Demo.components (lit "card.html")))
    by (intros H%join_inj; congruence).
  destruct (decide (name = lit "notes.txt")) as [->|Hnotes];
    [discriminate Hn|].
  by rewrite !(lookup_insert_ne _ (Fs.join Demo.components (lit "notes.txt")))
    by (intros H%join_inj; congruence).
Defined.

(** X9: [buildStart] reads only: it leaves the file system, the
    console, the watcher and the client alone, in both variants (and
    [src/vite-plugin-sfc.js] leaves [isDev] false). *)
Theorem buildStart_reads_only (h : Host)
    (sB : State Data) (sA : State Sfc.Plugin) :
  (exists d, (Part001.buildStart h sB).2 = set_plugin d sB)
  /\ (exists d, (Sfc.buildStart h sA).2
                = set_plugin (Sfc.mkPlugin d false) sA).
Proof.
  rewrite Part001_buildStart_run, Sfc_buildStart_run. cbv zeta. split.
  - destruct (Fs.existsSync (fs sB) (Part001.componentsDir h)); cbn [snd];
      [eauto|]. exists (plugin sB). by rewrite set_plugin_id.
  - destruct (Fs.existsSync (fs sA) (Sfc.componentsDir h)); cbn [snd];
      eauto.
Qed.

(** ** More on the change listener *)

(** X10: the change listener of [src/unnamed/part_001] acts on
    matching files only (the path holds [/components/] and ends in
    [.html]); it throws exactly when the scan throws; it sends one
    reload exactly when the scan returns, also when the output step
    failed; and it prints exactly the error of a failed output step. *)
Theorem change_listener_accounting (h : Host) (file : jsstring)
    (s : State Data) :
  let scanned :=
    scanDir Part001.extracted h (fs s) (Part001.componentsDir h) emptyData in
  let out :=
    writeOutput (cleancss h) (minify h) (Part001.devAssetsDir h)
      scanned.2 (fs s) in
  let s' := (Part001.onChange h file s).2 in
  (matches file = false -> Part001.onChange h file s = (Ok tt, s))
  /\ (matches file = true ->
      (Part001.onChange h file s).1 = scanned.1
      /\ sent s' = (if scanned.1 is Ok _ then S (sent s) else sent s)
      /\ console s'
         = console s ++
           (if scanned.1 is Ok _
            then (if out.1 is Throw e then [e] else [])
            else [])
      /\ (forall e, scanned.1 = Throw e -> fs s' = fs s)).
Proof.
  cbv zeta. split; [apply Part001_onChange_skip|].
  intros Hm. rewrite (Part001_onChange_run h file s Hm). cbv zeta.
  destruct (scanDir Part001.extracted h (fs s) (Part001.componentsDir h)
    emptyData) as [[[]|e] d]; cbn [fst snd sent console fs set_plugin];
    rewrite ?app_nil_r; repeat split; try reflexivity.
  intros e. discriminate.
Qed.

Lemma change_listener_accounting_witness :
  let s := fresh (Demo.tree [(lit "card.html", Demo.cardSource)]) in
  Part001.onChange Demo.host (lit "/app/src/index.html") s = (Ok tt, s)
  /\ sent (Part001.onChange Demo.host
             (lit "/app/src/components/card.html") s).2 = 1.
Proof.
  pose proof (change_listener_accounting Demo.host (lit "/app/src/index.html")
    (fresh (Demo.tree [(lit "card.html", Demo.cardSource)]))) as [H1 _].
  pose proof (change_listener_accounting Demo.host
    (lit "/app/src/components/card.html")
    (fresh (Demo.tree [(lit "card.html", Demo.cardSource)]))) as [_ H2].
  split; [exact (H1 eq_refl)|].
  destruct (H2 eq_refl) as (_ & -> & _). vm_compute. reflexivity.
Defined.

(** X11: a rebuild on change is a full replace: whatever [data] held,
    after the change listener ran on a matching file it holds exactly
    what [buildStart] builds on a fresh plugin over the same file
    system; in both variants. *)
Theorem change_rebuild_equals_fresh_scan (h : Host) (file : jsstring)
    (sB : State Data) (sA : State Sfc.Plugin) :
  matches file = true ->
  plugin (Part001.onChange h file sB).2
    = plugin (Part001.buildStart h (fresh (fs sB))).2
  /\ Sfc.data (plugin (Sfc.onChange h file sA).2)
     = Sfc.data (plugin (Sfc.buildStart h (freshSfc (fs sA))).2).
Proof.
  intros Hm.
  rewrite (Part001_onChange_run h file sB Hm), (Sfc_onChange_run h file sA Hm).
  rewrite Part001_buildStart_run, Sfc_buildStart_run. cbv zeta.
  cbn [fs plugin fresh freshSfc]. unfold Part001.sfcPlugin, Sfc.sfcPlugin.
  cbn [Sfc.data]. unfold Fs.existsSync, scanDir, Fs.readdirSync.
  change (Sfc.componentsDir h) with (Part001.componentsDir h).
  split.
  - destruct (fs sB !! Part001.componentsDir h) as [[c|entries]|];
      try reflexivity.
    by destruct (scanFiles Part001.extracted h (fs sB) _ _ emptyData)
      as [[[]|e] d].
  - destruct (fs sA !! Part001.componentsDir h) as [[c|entries]|];
      try reflexivity.
    by destruct (scanFiles Sfc.extracted h (fs sA) _ _ emptyData)
      as [[[]|e] d].
Qed.

Lemma change_rebuild_equals_fresh_scan_witness :
  let f := Demo.tree [(lit "card.html", Demo.cardSource)] in
  let stale := set_plugin (mkData (lit "old()") (lit "old{}") (lit "old")) (fresh f) in
  plugin (Part001.onChange Demo.host (lit "/app/src/components/card.html") stale).2
  = plugin (Part001.buildStart Demo.host (fresh f)).2.
Proof.
  exact (proj1 (change_rebuild_equals_fresh_scan Demo.host
    (lit "/app/src/components/card.html")
    (set_plugin (mkData (lit "old()") (lit "old{}") (lit "old"))
       (fresh (Demo.tree [(lit "card.html", Demo.cardSource)])))
    (freshSfc (Demo.tree [(lit "card.html", Demo.cardSource)]))
    eq_refl)).
Defined.

(** ** More on extraction *)

(** X12: the style text goes into the aggregate as it is (not trimmed,
    not collapsed) and nothing is added without a style element; and a
    template element always adds its statement, also an empty one; in
    both variants. *)
Theorem style_verbatim_template_always (h : Host) (filepath : path)
    (file : jsstring) (sB : State Data) (sA : State Sfc.Plugin) :
  Fs.readFileSync (fs sB) filepath = Ok file ->
  Fs.readFileSync (fs sA) filepath = Ok file ->
  let root := parse h file in
  let added :=
    match querySelector root (lit "style") with
    | Some el => text el
    | None => []
    end in
  style (plugin (Part001.extractTags h filepath sB).2)
    = style (plugin sB) ++ added
  /\ style (Sfc.data (plugin (Sfc.extractTags h filepath sA).2))
     = style (Sfc.data (plugin sA)) ++ added
  /\ (querySelector root (lit "template") <> None ->
      template (plugin (Part001.extractTags h filepath sB).2)
        <> template (plugin sB)
      /\ template (Sfc.data (plugin (Sfc.extractTags h filepath sA).2))
         <> template (Sfc.data (plugin sA))).
Proof.
  intros HB HA root added. subst root added.
  rewrite Part001_extractTags_run, Sfc_extractTags_run, HB, HA.
  cbn [snd plugin set_plugin Sfc.data].
  destruct (Part001_extracted_fields (Fs.basename filepath (lit ".html"))
    (parse h file) (plugin sB)) as (-> & _ & ->).
  destruct (Sfc_extracted_fields (Fs.basename filepath (lit ".html"))
    (parse h file) (Sfc.data (plugin sA))) as (-> & _ & ->).
  unfold Part001.styleStep, Sfc.styleStep, Part001.templateStep,
    Sfc.templateStep.
  split; [|split].
  - destruct (querySelector (parse h file) (lit "style")); simpl;
      by rewrite ?app_nil_r.
  - destruct (querySelector (parse h file) (lit "style")); simpl;
      by rewrite ?app_nil_r.
  - intros Ht.
    destruct (querySelector (parse h file) (lit "template")) as [el|];
      [|by destruct Ht].
    simpl. split; intros H;
      rewrite <- (app_nil_r (template _)) in H at 2;
      apply app_inv_head in H; discriminate H.
Qed.

Lemma style_verbatim_template_always_witness :
  style (plugin (Part001.extractTags Demo.host Demo.cardFile
    (fresh (Demo.tree [(lit "card.html", Demo.cardSource)]))).2)
  = lit "p{color:red}".
Proof.
  exact (proj1 (style_verbatim_template_always Demo.host Demo.cardFile
    Demo.cardSource
    (fresh (Demo.tree [(lit "card.html", Demo.cardSource)]))
    (freshSfc (Demo.tree [(lit "card.html", Demo.cardSource)]))
    eq_refl eq_refl)).
Defined.

(** ** More on the output functions *)

(** X13: the output functions change the file system only: [data] and
    the rest of the state stay; and in the file system they touch the
    two artifacts and the asset directory ([writeBundle]: and the
    directories above it) only; in both variants. *)
Theorem output_touches_artifacts_only (h : Host) (assetsDir : path)
    (dir : option path) (isDev : bool) (p : path)
    (sB : State Data) (sA : State Sfc.Plugin) :
  p <> assetsDir ->
  p <> Fs.join assetsDir (lit "app.min.css") ->
  p <> Fs.join assetsDir (lit "app.min.js") ->
  (forall k, p <> take k (bundleAssetsDir h dir)) ->
  p <> Fs.join (bundleAssetsDir h dir) (lit "app.min.css") ->
  p <> Fs.join (bundleAssetsDir h dir) (lit "app.min.js") ->
  (exists f, (Part001.writeDevFiles h assetsDir sB).2 = set_fs f sB
             /\ f !! p = fs sB !! p)
  /\ (exists f, (Sfc.writeDevFiles h assetsDir isDev sA).2 = set_fs f sA
                /\ f !! p = fs sA !! p)
  /\ (exists f, (Part001.writeBundle h dir sB).2 = set_fs f sB
                /\ f !! p = fs sB !! p)
  /\ (exists f, (Sfc.writeBundle h dir sA).2 = set_fs f sA
                /\ f !! p = fs sA !! p).
Proof.
  intros Hd Hc Hj Hk Hbc Hbj.
  rewrite Part001_writeDevFiles_run, Sfc_writeDevFiles_run,
    Part001_writeBundle_run, Sfc_writeBundle_run.
  split; [|split; [|split]].
  - eexists. split; [reflexivity|by apply writeOutput_other].
  - eexists. split; [reflexivity|by apply writeOutput_other].
  - pose proof (ensureDir_other (fs sB) _ p Hk) as He.
    destruct (ensureDir (fs sB) (bundleAssetsDir h dir)) as [[e|] f1];
      cbn [snd] in *; eexists; (split; [reflexivity|]); [exact He|].
    rewrite writeOutput_other; [exact He| |assumption|assumption].
    intros ->. apply (Hk (length (bundleAssetsDir h dir))).
    by rewrite firstn_all.
  - pose proof (ensureDir_other (fs sA) _ p Hk) as He.
    destruct (ensureDir (fs sA) (bundleAssetsDir h dir)) as [[e|] f1];
      cbn [snd] in *; eexists; (split; [reflexivity|]); [exact He|].
    rewrite writeOutput_other; [exact He| |assumption|assumption].
    intros ->. apply (Hk (length (bundleAssetsDir h dir))).
    by rewrite firstn_all.
Qed.

Lemma output_touches_artifacts_only_witness :
  let s := (Part001.buildStart Demo.host
              (fresh (Demo.tree [(lit "card.html", Demo.cardSource)]))).2 in
  exists f, (Part001.writeBundle Demo.host None s).2 = set_fs f s
    /\ f !! Demo.cardFile = Some (File Demo.cardSource).
Proof.
  refine (proj1 (proj2 (proj2 (output_touches_artifacts_only Demo.host
    Demo.assets None true Demo.cardFile
    (Part001.buildStart Demo.host
       (fresh (Demo.tree [(lit "card.html", Demo.cardSource)]))).2
    (freshSfc (Demo.tree [])) _ _ _ _ _ _))));
    try discriminate.
  apply longer_not_prefix. simpl. lia.
Defined.

(** X14: a failed output is partial.  When the style artifact cannot be
    written, nothing is written and the script is not even minified;
    when the minifier rejects the script, the style artifact has
    already been replaced and stays so, and the script artifact is
    untouched.  [writeDevFiles] of [src/unnamed/part_001]. *)
Theorem failed_output_is_partial (h : Host) (assetsDir : path)
    (s : State Data) :
  let d := plugin s in
  let css := cleancss h (style d) in
  (forall e, style d <> [] ->
     Fs.writeFileSync (fs s) assetsDir (lit "app.min.css") css = Throw e ->
     Part001.writeDevFiles h assetsDir s = (Throw e, s))
  /\ (minify h (template d ++ lit " " ++ script d) = None ->
      (style d = [] ->
       Part001.writeDevFiles h assetsDir s = (Throw MinifyError, s))
      /\ (forall f1, style d <> [] ->
            Fs.writeFileSync (fs s) assetsDir (lit "app.min.css") css = Ok f1 ->
            Part001.writeDevFiles h assetsDir s
              = (Throw MinifyError, set_fs f1 s)
            /\ f1 !! Fs.join assetsDir (lit "app.min.css") = Some (File css)
            /\ f1 !! Fs.join assetsDir (lit "app.min.js")
               = fs s !! Fs.join assetsDir (lit "app.min.js"))).
Proof.
  cbv zeta. rewrite Part001_writeDevFiles_run. unfold writeOutput, combined.
  split; [|intros Hmin; split].
  - intros e Hne Hw. destruct (truthy (style (plugin s))) eqn:Ht;
      [|by apply truthy_nil in Ht].
    rewrite Hw. cbn [fst snd]. by rewrite set_fs_id.
  - intros Hnil. rewrite Hnil. cbn [truthy]. rewrite Hmin.
    cbn [fst snd]. by rewrite set_fs_id.
  - intros f1 Hne Hw. destruct (truthy (style (plugin s))) eqn:Ht;
      [|by apply truthy_nil in Ht].
    rewrite Hw, Hmin. cbn [fst snd].
    split; [reflexivity|]. split; [eauto using writeFileSync_file|].
    apply (writeFileSync_other _ _ _ _ _ _ Hw); [apply join_ne_dir|].
    intros H%join_inj. discriminate H.
Qed.

Lemma failed_output_is_partial_witness :
  let s := (Part001.buildStart Demo.host
              (fresh (Demo.tree [(lit "card.html", Demo.cardSource)]))).2 in
  let s' := (Part001.writeDevFiles (rejecting Demo.host) Demo.assets s).2 in
  (Part001.writeDevFiles (rejecting Demo.host) Demo.assets s).1
    = Throw MinifyError
  /\ fs s' !! Fs.join Demo.assets (lit "app.min.css")
     = Some (File (lit "p{color:red}"))
  /\ fs s' !! Fs.join Demo.assets (lit "app.min.js") = None.
Proof.
  pose proof (failed_output_is_partial (rejecting Demo.host) Demo.assets
    (Part001.buildStart Demo.host
       (fresh (Demo.tree [(lit "card.html", Demo.cardSource)]))).2)
    as [_ H].
  destruct (H eq_refl) as [_ H2].
  destruct (Fs.writeFileSync
    (fs (Part001.buildStart Demo.host
       (fresh (Demo.tree [(lit "card.html", Demo.cardSource)]))).2)
    Demo.assets (lit "app.min.css") (lit "p{color:red}")) as [f1|e] eqn:Hw;
    [|vm_compute in Hw; discriminate Hw].
  destruct (H2 f1 ltac:(vm_compute; discriminate) Hw) as (Hrun & Hc & Hj).
  cbv zeta. rewrite Hrun. cbn [fst snd fs set_fs].
  split; [reflexivity|]. split; [exact Hc|].
  rewrite Hj. vm_compute. reflexivity.
Defined.

(** X15: the production output is the same in both variants, and the
    development output of [src/vite-plugin-sfc.js] with [isDev] false
    is the one of [src/unnamed/part_001]: same result, same file
    system afterwards, on the same aggregate and file system. *)
Theorem output_same_in_both_variants (h : Host) (assetsDir : path)
    (dir : option path) (sB : State Data) (sA : State Sfc.Plugin) :
  fs sA = fs sB -> Sfc.data (plugin sA) = plugin sB ->
  ((Sfc.writeBundle h dir sA).1 = (Part001.writeBundle h dir sB).1
   /\ fs (Sfc.writeBundle h dir sA).2 = fs (Part001.writeBundle h dir sB).2)
  /\ ((Sfc.writeDevFiles h assetsDir false sA).1
      = (Part001.writeDevFiles h assetsDir sB).1
      /\ fs (Sfc.writeDevFiles h assetsDir false sA).2
         = fs (Part001.writeDevFiles h assetsDir sB).2).
Proof.
  intros Hfs Hd.
  rewrite Part001_writeDevFiles_run, Sfc_writeDevFiles_run,
    Part001_writeBundle_run, Sfc_writeBundle_run, Hfs, Hd.
  unfold jsOf. split.
  - destruct (ensureDir (fs sB) (bundleAssetsDir h dir)) as [[e|] f1];
      split; reflexivity.
  - split; reflexivity.
Qed.

Lemma output_same_in_both_variants_witness :
  fs (Sfc.writeBundle Demo.host None (freshSfc (Demo.tree []))).2
  = fs (Part001.writeBundle Demo.host None (fresh (Demo.tree []))).2.
Proof.
  exact (proj2 (proj1 (output_same_in_both_variants Demo.host Demo.assets None
    (fresh (Demo.tree [])) (freshSfc (Demo.tree [])) eq_refl eq_refl))).
Defined.

(** ** More on directories *)

Section MkdirMore.

Implicit Types (f : gmap path node) (done q : path) (todo : list jsstring).

(** A successful [mkdirs] leaves a directory at its target. *)
Lemma mkdirs_ok_dir done todo f :
  (Fs.mkdirs done todo f).1 = None -> todo <> [] ->
  exists l, (Fs.mkdirs done todo f).2 !! (done ++ todo) = Some (Dir l).
Proof.
  revert done f. induction todo as [|name todo IH]; intros done f Hok Hne;
    [by destruct Hne|].
  cbn [Fs.mkdirs] in *.
  replace (done ++ name :: todo) with (Fs.join done name ++ todo)
    by (unfold Fs.join; by rewrite <- app_assoc).
  destruct (f !! Fs.join done name) as [[c|l]|] eqn:Hj.
  - destruct todo; discriminate Hok.
  - destruct todo as [|n2 todo]; [|by apply IH].
    cbn [Fs.mkdirs snd]. rewrite app_nil_r. eauto.
  - destruct (f !! done) as [[c|entries]|]; try discriminate Hok.
    destruct todo as [|n2 todo]; [|by apply IH].
    cbn [Fs.mkdirs snd]. rewrite app_nil_r, lookup_insert_eq. eauto.
Qed.

(** [mkdirs] removes nothing. *)
Lemma mkdirs_keeps done todo f q :
  is_Some (f !! q) -> is_Some ((Fs.mkdirs done todo f).2 !! q).
Proof.
  revert done f. induction todo as [|name todo IH]; intros done f Hq;
    [exact Hq|].
  cbn [Fs.mkdirs].
  destruct (f !! Fs.join done name) as [[c|l]|].
  - by destruct todo.
  - by apply IH.
  - destruct (f !! done) as [[c|entries]|]; try exact Hq.
    apply IH. rewrite !lookup_insert. repeat case_decide; eauto.
Qed.

(** [mkdirs] succeeds when it starts in a directory and meets no
    regular file on its way. *)
Lemma mkdirs_succeeds done todo f :
  (exists l, f !! done = Some (Dir l)) ->
  (forall k, not_file f (done ++ take k todo)) ->
  (Fs.mkdirs done todo f).1 = None.
Proof.
  revert done f. induction todo as [|name todo IH]; intros done f Hd Hnf;
    [reflexivity|].
  cbn [Fs.mkdirs].
  assert (Hnext : forall f', (forall k, not_file f' (done ++ take (S k) (name :: todo))) ->
            forall k, not_file f' (Fs.join done name ++ take k todo)).
  { intros f' H k. unfold Fs.join. rewrite <- app_assoc. apply (H k). }
  destruct (f !! Fs.join done name) as [[c|l]|] eqn:Hj.
  - destruct (Hnf 1 c). simpl. by rewrite take_0.
  - apply IH; [eauto|]. apply Hnext. intros k. apply Hnf.
  - destruct Hd as [entries Hd]. rewrite Hd.
    apply IH; [rewrite lookup_insert_eq; eauto|].
    apply Hnext. intros k content.
    rewrite !lookup_insert. repeat case_decide; try discriminate.
    apply Hnf.
Qed.

Lemma ensureDir_ok_exists f dir :
  (ensureDir f dir).1 = None -> dir <> [] ->
  Fs.existsSync (ensureDir f dir).2 dir = true
  /\ (f !! dir = None -> exists l, (ensureDir f dir).2 !! dir = Some (Dir l)).
Proof.
  unfold ensureDir. destruct (Fs.existsSync f dir) eqn:He; cbn [fst snd].
  - intros _ _. split; [exact He|]. unfold Fs.existsSync in He.
    intros Hn. by rewrite Hn in He.
  - intros Hok Hne. unfold Fs.mkdirSync in *.
    destruct (mkdirs_ok_dir [] dir f Hok Hne) as [l Hl]. simpl in Hl.
    split; [|eauto]. unfold Fs.existsSync. by rewrite Hl.
Qed.

Lemma ensureDir_keeps f dir q :
  is_Some (f !! q) -> is_Some ((ensureDir f dir).2 !! q).
Proof.
  unfold ensureDir. destruct (Fs.existsSync f dir); [auto|].
  apply mkdirs_keeps.
Qed.

Lemma ensure_run_last {P : Type} (dir : path) (s : State P) :
  (let! there := existsSync dir in when (negb there) (mkdirSync dir)) s
  = match ensureDir (fs s) dir with
    | (None, f1) => (Ok tt, set_fs f1 s)
    | (Some e, f1) => (Throw e, set_fs f1 s)
    end.
Proof.
  unfold bind, existsSync, ensureDir.
  destruct (Fs.existsSync (fs s) dir); cbn [negb when].
  - unfold ret. by rewrite set_fs_id.
  - unfold mkdirSync.
    destruct (Fs.mkdirSync (fs s) dir) as [[e|] f1]; reflexivity.
Qed.

End MkdirMore.

Section EnsureDirs.

Variable h : Host.

Lemma Part001_ensureDirs_run (s : State Data) :
  Part001.ensureDirs h s =
  match ensureDir (fs s) (Part001.publicDir h) with
  | (Some e, f1) => (Throw e, set_fs f1 s)
  | (None, f1) =>
      match ensureDir f1 (Part001.devAssetsDir h) with
      | (Some e, f2) => (Throw e, set_fs f2 s)
      | (None, f2) => (Ok tt, set_fs f2 s)
      end
  end.
Proof.
  unfold Part001.ensureDirs. rewrite ensure_run.
  destruct (ensureDir (fs s) (Part001.publicDir h)) as [[e|] f1];
    [reflexivity|].
  rewrite ensure_run_last. cbn [fs set_fs].
  destruct (ensureDir f1 (Part001.devAssetsDir h)) as [[e|] f2]; reflexivity.
Qed.

Lemma Sfc_ensureDirs_run (s : State Sfc.Plugin) :
  Sfc.ensureDirs h s =
  match ensureDir (fs s) (Sfc.publicDir h) with
  | (Some e, f1) => (Throw e, set_fs f1 s)
  | (None, f1) =>
      match ensureDir f1 (Sfc.devAssetsDir h) with
      | (Some e, f2) => (Throw e, set_fs f2 s)
      | (None, f2) => (Ok tt, set_fs f2 s)
      end
  end.
Proof.
  unfold Sfc.ensureDirs. rewrite ensure_run.
  destruct (ensureDir (fs s) (Sfc.publicDir h)) as [[e|] f1];
    [reflexivity|].
  rewrite ensure_run_last. cbn [fs set_fs].
  destruct (ensureDir f1 (Sfc.devAssetsDir h)) as [[e|] f2]; reflexivity.
Qed.

Lemma publicDir_not_nil : Part001.publicDir h <> [].
Proof. unfold Part001.publicDir. by destruct (cwd h). Qed.

Lemma devAssetsDir_not_nil : Part001.devAssetsDir h <> [].
Proof.
  unfold Part001.devAssetsDir, Fs.join.
  by destruct (Part001.publicDir h).
Qed.

End EnsureDirs.

(** X16: when the block of [configureServer] that ensures the
    directories returns, [public] and [public/assets] exist, and
    [public/assets] is a directory if it was missing before; it changes
    nothing but the file system.  Both variants. *)
Theorem ensureDirs_leaves_directories (h : Host)
    (sB sB' : State Data) (sA sA' : State Sfc.Plugin) :
  Part001.ensureDirs h sB = (Ok tt, sB') ->
  Sfc.ensureDirs h sA = (Ok tt, sA') ->
  (sB' = set_fs (fs sB') sB
   /\ Fs.existsSync (fs sB') (Part001.publicDir h) = true
   /\ Fs.existsSync (fs sB') (Part001.devAssetsDir h) = true
   /\ (fs sB !! Part001.devAssetsDir h = None ->
       exists l, fs sB' !! Part001.devAssetsDir h = Some (Dir l)))
  /\ (sA' = set_fs (fs sA') sA
      /\ Fs.existsSync (fs sA') (Sfc.publicDir h) = true
      /\ Fs.existsSync (fs sA') (Sfc.devAssetsDir h) = true
      /\ (fs sA !! Sfc.devAssetsDir h = None ->
          exists l, fs sA' !! Sfc.devAssetsDir h = Some (Dir l))).
Proof.
  assert (Hcore : forall f f1 f2,
    ensureDir f (Part001.publicDir h) = (None, f1) ->
    ensureDir f1 (Part001.devAssetsDir h) = (None, f2) ->
    Fs.existsSync f2 (Part001.publicDir h) = true
    /\ Fs.existsSync f2 (Part001.devAssetsDir h) = true
    /\ (f !! Part001.devAssetsDir h = None ->
        exists l, f2 !! Part001.devAssetsDir h = Some (Dir l))).
  { intros f f1 f2 H1 H2.
    destruct (ensureDir_ok_exists f (Part001.publicDir h)) as [E1 _];
      [by rewrite H1|apply publicDir_not_nil|].
    destruct (ensureDir_ok_exists f1 (Part001.devAssetsDir h)) as [E2 D2];
      [by rewrite H2|apply devAssetsDir_not_nil|].
    rewrite H1 in E1. rewrite H2 in E2, D2. cbn [snd] in *.
    split; [|split; [exact E2|]].
    - pose proof (ensureDir_keeps f1 (Part001.devAssetsDir h)
        (Part001.publicDir h)) as Hk.
      rewrite H2 in Hk. cbn [snd] in Hk. unfold Fs.existsSync in *.
      destruct (f1 !! Part001.publicDir h) eqn:Hp; [|discriminate E1].
      destruct (Hk ltac:(eauto)) as [n' ->]. reflexivity.
    - intros Hn. apply D2.
      pose proof (ensureDir_other f (Part001.publicDir h)
        (Part001.devAssetsDir h)) as Ho.
      rewrite H1 in Ho. cbn [snd] in Ho. rewrite Ho; [exact Hn|].
      apply longer_not_prefix. unfold Part001.devAssetsDir, Fs.join.
      rewrite length_app. simpl. lia. }
  rewrite Part001_ensureDirs_run, Sfc_ensureDirs_run.
  change (Sfc.publicDir h) with (Part001.publicDir h).
  change (Sfc.devAssetsDir h) with (Part001.devAssetsDir h).
  intros HB HA. split.
  - destruct (ensureDir (fs sB) (Part001.publicDir h)) as [[e|] f1] eqn:H1;
      [discriminate HB|].
    destruct (ensureDir f1 (Part001.devAssetsDir h)) as [[e|] f2] eqn:H2;
      [discriminate HB|].
    inversion HB; subst sB'. cbn [fs set_fs].
    split; [reflexivity|]. by apply (Hcore _ f1).
  - destruct (ensureDir (fs sA) (Part001.publicDir h)) as [[e|] f1] eqn:H1;
      [discriminate HA|].
    destruct (ensureDir f1 (Part001.devAssetsDir h)) as [[e|] f2] eqn:H2;
      [discriminate HA|].
    inversion HA; subst sA'. cbn [fs set_fs].
    split; [reflexivity|]. by apply (Hcore _ f1).
Qed.

Lemma ensureDirs_leaves_directories_witness :
  exists sB', Part001.ensureDirs Demo.host (fresh Demo2.sourcesOnly) = (Ok tt, sB')
    /\ exists l, fs sB' !! Demo.assets = Some (Dir l).
Proof.
  destruct (Part001.ensureDirs Demo.host (fresh Demo2.sourcesOnly))
    as [r sB'] eqn:HB.
  destruct (Sfc.ensureDirs Demo.host (freshSfc Demo2.sourcesOnly))
    as [r' sA'] eqn:HA.
  assert (r = Ok tt) as -> by (apply (f_equal fst) in HB; vm_compute in HB; congruence).
  assert (r' = Ok tt) as -> by (apply (f_equal fst) in HA; vm_compute in HA; congruence).
  exists sB'. split; [reflexivity|].
  destruct (ensureDirs_leaves_directories Demo.host _ _ _ _ HB HA)
    as [(_ & _ & _ & H) _].
  exact (H eq_refl).
Defined.

(** ** The blocks of [configureServer], one by one *)

Lemma bind_ok {P A B : Type} (m : M P A) (k : A -> M P B) (s s' : State P)
    (b : B) :
  bind m k s = (Ok b, s') ->
  exists a s1, m s = (Ok a, s1) /\ k a s1 = (Ok b, s').
Proof.
  unfold bind. destruct (m s) as [[a|e] s1]; [eauto|discriminate].
Qed.

Lemma same_length_not_prefix (dir q : path) :
  length q = length dir -> q <> dir -> forall k, q <> take k dir.
Proof.
  intros Hlen Hne k H.
  destruct (decide (length dir <= k)) as [Hk|Hk].
  - rewrite take_ge in H by exact Hk. contradiction.
  - apply (f_equal length) in H. rewrite length_take in H. lia.
Qed.

Section Blocks.

Variable h : Host.

Lemma ensured_dirs_other (f : gmap path node) (q : path) :
  (forall k, q <> take k (Part001.publicDir h)) ->
  (forall k, q <> take k (Part001.devAssetsDir h)) ->
  forall f1 f2 r1 r2,
    ensureDir f (Part001.publicDir h) = (r1, f1) ->
    ensureDir f1 (Part001.devAssetsDir h) = (r2, f2) ->
    f1 !! q = f !! q /\ f2 !! q = f !! q.
Proof.
  intros Hp Ha f1 f2 r1 r2 H1 H2.
  pose proof (ensureDir_other f _ q Hp) as E1.
  pose proof (ensureDir_other f1 _ q Ha) as E2.
  rewrite H1 in E1. rewrite H2 in E2. cbn [snd] in *.
  split; congruence.
Qed.

Lemma index_paths_apart :
  (forall k, (srcIndex h) <> take k (Part001.publicDir h))
  /\ (forall k, (srcIndex h) <> take k (Part001.devAssetsDir h))
  /\ (forall k, (publicIndex h) <> take k (Part001.publicDir h))
  /\ (forall k, (publicIndex h) <> take k (Part001.devAssetsDir h))
  /\ (publicIndex h) <> Part001.devAssetsDir h
  /\ (forall name, (publicIndex h) <> Fs.join (Part001.devAssetsDir h) name)
  /\ (srcIndex h) <> Part001.publicDir h
  /\ (srcIndex h) <> (publicIndex h).
Proof.
  unfold srcIndex, publicIndex, Part001.srcDir,
    Part001.devAssetsDir, Part001.publicDir, Fs.join.
  repeat split.
  - apply longer_not_prefix. rewrite !length_app. simpl. lia.
  - apply same_length_not_prefix; [rewrite !length_app; simpl; lia|].
    rewrite <- !app_assoc. intros H%app_inv_head. discriminate H.
  - apply longer_not_prefix. rewrite !length_app. simpl. lia.
  - apply same_length_not_prefix; [rewrite !length_app; simpl; lia|].
    intros H%app_inv_head. discriminate H.
  - intros H%app_inv_head. discriminate H.
  - intros name H. apply (f_equal length) in H.
    rewrite !length_app in H. simpl in H. lia.
  - intros H. apply (f_equal length) in H.
    rewrite !length_app in H. simpl in H. lia.
  - rewrite <- !app_assoc. intros H%app_inv_head. discriminate H.
Qed.

(** The copy of the entry file, on the file system. *)
Lemma Part001_copyIndex_run (s : State Data) :
  Part001.copyIndex h s =
  match fs s !! (srcIndex h) with
  | None => (Ok tt, s)
  | Some (Dir _) => (Throw EISDIR, s)
  | Some (File content) =>
      match Fs.writeFileSync (fs s) (Part001.publicDir h) (lit "index.html")
              content with
      | Ok f => (Ok tt, set_fs f s)
      | Throw e => (Throw e, s)
      end
  end.
Proof.
  unfold Part001.copyIndex, bind, existsSync, Fs.existsSync, readFileSync,
    readFs, Fs.readFileSync, writeFileSync, writeFs, when, ret.
  change (Fs.join (Part001.srcDir h) (lit "index.html")) with (srcIndex h).
  destruct (fs s !! (srcIndex h)) as [[content|l]|] eqn:Hi; cbv beta;
    rewrite ?Hi; reflexivity.
Qed.

Lemma Sfc_copyIndex_run (s : State Sfc.Plugin) :
  Sfc.copyIndex h s =
  match fs s !! (srcIndex h) with
  | None => (Ok tt, s)
  | Some (Dir _) => (Throw EISDIR, s)
  | Some (File content) =>
      match Fs.writeFileSync (fs s) (Part001.publicDir h) (lit "index.html")
              content with
      | Ok f => (Ok tt, set_fs f s)
      | Throw e => (Throw e, s)
      end
  end.
Proof.
  unfold Sfc.copyIndex, bind, existsSync, Fs.existsSync, readFileSync,
    readFs, Fs.readFileSync, writeFileSync, writeFs, when, ret.
  change (Fs.join (Sfc.srcDir h) (lit "index.html")) with (srcIndex h).
  destruct (fs s !! (srcIndex h)) as [[content|l]|] eqn:Hi; cbv beta;
    rewrite ?Hi; reflexivity.
Qed.

(** The output at the start of the server never throws: an error is
    printed. *)
Lemma Part001_writeOnStart_run (s : State Data) :
  Part001.writeOnStart h s =
  let out :=
    writeOutput (cleancss h) (minify h) (Part001.devAssetsDir h)
      (plugin s) (fs s) in
  (Ok tt,
   mkState out.2 (plugin s)
     (console s ++ (if out.1 is Throw e then [e] else []))
     (watched s) (listeners s) (sent s)).
Proof.
  unfold Part001.writeOnStart, catch. rewrite Part001_writeDevFiles_run.
  cbv zeta.
  destruct (writeOutput (cleancss h) (minify h) (Part001.devAssetsDir h)
    (plugin s) (fs s)) as [[[]|e] f']; cbn [fst snd]; [|reflexivity].
  destruct s. unfold set_fs. cbn. by rewrite app_nil_r.
Qed.

Lemma Sfc_writeOnStart_run (s : State Sfc.Plugin) :
  Sfc.writeOnStart h s =
  let out :=
    writeOutput (cleancss h) (jsOf h (Sfc.isDev (plugin s)))
      (Part001.devAssetsDir h) (Sfc.data (plugin s)) (fs s) in
  (Ok tt,
   mkState out.2 (plugin s)
     (console s ++ (if out.1 is Throw e then [e] else []))
     (watched s) (listeners s) (sent s)).
Proof.
  unfold Sfc.writeOnStart, bind, get, catch. rewrite Sfc_writeDevFiles_run.
  cbv zeta. change (Sfc.devAssetsDir h) with (Part001.devAssetsDir h).
  destruct (writeOutput (cleancss h) (jsOf h (Sfc.isDev (plugin s)))
    (Part001.devAssetsDir h) (Sfc.data (plugin s)) (fs s))
    as [[[]|e] f']; cbn [fst snd]; [|reflexivity].
  destruct s. unfold set_fs. cbn. by rewrite app_nil_r.
Qed.

Lemma watchIfPresent_run {P : Type} (s : State P) :
  (let! haveComponents := existsSync (Part001.componentsDir h) in
   when haveComponents
     (watcher_add (Part001.componentsDir h) ;;; watcher_on_change)) s
  = (Ok tt,
     if Fs.existsSync (fs s) (Part001.componentsDir h)
     then mkState (fs s) (plugin s) (console s)
            (watched s ++ [Part001.componentsDir h]) (S (listeners s))
            (sent s)
     else s).
Proof.
  unfold bind, existsSync.
  destruct (Fs.existsSync (fs s) (Part001.componentsDir h)); reflexivity.
Qed.

Lemma Part001_extractIfPresent_run (s : State Data) :
  exists r d, Part001.extractIfPresent h s = (r, set_plugin d s).
Proof.
  unfold Part001.extractIfPresent, bind, existsSync.
  destruct (Fs.existsSync (fs s) (Part001.componentsDir h)); cbn [when].
  - rewrite Part001_extractAll_run. eauto.
  - exists (Ok tt), (plugin s). by rewrite set_plugin_id.
Qed.

Lemma Sfc_extractIfPresent_run (s : State Sfc.Plugin) :
  exists r d, Sfc.extractIfPresent h s = (r, set_data d s).
Proof.
  unfold Sfc.extractIfPresent, bind, existsSync.
  destruct (Fs.existsSync (fs s) (Sfc.componentsDir h)); cbn [when].
  - rewrite Sfc_extractAll_run. eauto.
  - exists (Ok tt), (Sfc.data (plugin s)). by rewrite set_data_id.
Qed.

(** A run of [configureServer] that returns, block by block. *)
Lemma Part001_configureServer_ok (s s' : State Data) :
  Part001.configureServer h s = (Ok tt, s') ->
  exists f1 d f3,
    Part001.ensureDirs h s = (Ok tt, set_fs f1 s)
    /\ Part001.extractIfPresent h (set_fs f1 s)
       = (Ok tt, set_plugin d (set_fs f1 s))
    /\ Part001.copyIndex h (set_plugin d (set_fs f1 s))
       = (Ok tt, set_fs f3 (set_plugin d s))
    /\ Part001.watchIfPresent h
         (Part001.writeOnStart h (set_fs f3 (set_plugin d s))).2
       = (Ok tt, s').
Proof.
  unfold Part001.configureServer.
  intros ([] & s1 & H1 & ([] & s2 & H2 & ([] & s3 & H3 & ([] & s4 & H4 & H5)
    %bind_ok)%bind_ok)%bind_ok)%bind_ok.
  assert (exists f1, s1 = set_fs f1 s) as [f1 ->].
  { rewrite Part001_ensureDirs_run in H1.
    destruct (ensureDir (fs s) _) as [[e|] f1]; [discriminate|].
    destruct (ensureDir f1 _) as [[e|] f2]; [discriminate|].
    inversion H1. eauto. }
  assert (exists d, s2 = set_plugin d (set_fs f1 s)) as [d ->].
  { destruct (Part001_extractIfPresent_run (set_fs f1 s)) as (r & d & Hr).
    rewrite Hr in H2. inversion H2. eauto. }
  assert (exists f3, s3 = set_fs f3 (set_plugin d s)) as [f3 ->].
  { rewrite Part001_copyIndex_run in H3.
    destruct (fs _ !! (srcIndex h)) as [[c|l]|]; [|discriminate|].
    - destruct (Fs.writeFileSync _ _ _ c) as [f|e]; [|discriminate].
      inversion H3. eauto.
    - inversion H3. exists f1. reflexivity. }
  exists f1, d, f3. repeat split; try assumption.
  by rewrite H4.
Qed.

Lemma Sfc_configureServer_ok (s s' : State Sfc.Plugin) :
  Sfc.configureServer h s = (Ok tt, s') ->
  let s0 := set_plugin (Sfc.mkPlugin (Sfc.data (plugin s)) true) s in
  exists f1 d f3,
    Sfc.ensureDirs h s0 = (Ok tt, set_fs f1 s0)
    /\ Sfc.extractIfPresent h (set_fs f1 s0)
       = (Ok tt, set_data d (set_fs f1 s0))
    /\ Sfc.copyIndex h (set_data d (set_fs f1 s0))
       = (Ok tt, set_fs f3 (set_data d s0))
    /\ Sfc.watchIfPresent h
         (Sfc.writeOnStart h (set_fs f3 (set_data d s0))).2
       = (Ok tt, s').
Proof.
  intros H s0. unfold Sfc.configureServer in H.
  apply bind_ok in H as ([] & s0' & H0 & H).
  assert (s0' = s0) as -> by (inversion H0; reflexivity).
  revert H.
  intros ([] & s1 & H1 & ([] & s2 & H2 & ([] & s3 & H3 & ([] & s4 & H4 & H5)
    %bind_ok)%bind_ok)%bind_ok)%bind_ok.
  assert (exists f1, s1 = set_fs f1 s0) as [f1 ->].
  { rewrite Sfc_ensureDirs_run in H1.
    destruct (ensureDir (fs s0) _) as [[e|] f1]; [discriminate|].
    destruct (ensureDir f1 _) as [[e|] f2]; [discriminate|].
    inversion H1. eauto. }
  assert (exists d, s2 = set_data d (set_fs f1 s0)) as [d ->].
  { destruct (Sfc_extractIfPresent_run (set_fs f1 s0)) as (r & d & Hr).
    rewrite Hr in H2. inversion H2. eauto. }
  assert (exists f3, s3 = set_fs f3 (set_data d s0)) as [f3 ->].
  { rewrite Sfc_copyIndex_run in H3.
    destruct (fs _ !! (srcIndex h)) as [[c|l]|]; [|discriminate|].
    - destruct (Fs.writeFileSync _ _ _ c) as [f|e]; [|discriminate].
      inversion H3. eauto.
    - inversion H3. exists f1. reflexivity. }
  exists f1, d, f3. repeat split; try assumption.
  by rewrite H4.
Qed.

End Blocks.

(** ** The development server, as a whole *)

Section ServerMore.

Variable h : Host.

Lemma ensureDirs_result_lookup (f f1 : gmap path node) (q : path) :
  (forall k, q <> take k (Part001.publicDir h)) ->
  (forall k, q <> take k (Part001.devAssetsDir h)) ->
  match ensureDir f (Part001.publicDir h) with
  | (Some e, _) => None
  | (None, f1') =>
      match ensureDir f1' (Part001.devAssetsDir h) with
      | (Some e, _) => None
      | (None, f2) => Some f2
      end
  end = Some f1 ->
  f1 !! q = f !! q.
Proof.
  intros Hp Ha H.
  destruct (ensureDir f (Part001.publicDir h)) as [[e|] f1'] eqn:H1;
    [discriminate|].
  destruct (ensureDir f1' (Part001.devAssetsDir h)) as [[e|] f2] eqn:H2;
    [discriminate|].
  inversion H; subst f2.
  by destruct (ensured_dirs_other h f q Hp Ha _ _ _ _ H1 H2).
Qed.

Lemma Part001_ensureDirs_lookup (s : State Data) f1 (q : path) :
  (forall k, q <> take k (Part001.publicDir h)) ->
  (forall k, q <> take k (Part001.devAssetsDir h)) ->
  Part001.ensureDirs h s = (Ok tt, set_fs f1 s) -> f1 !! q = fs s !! q.
Proof.
  intros Hp Ha. rewrite Part001_ensureDirs_run. intros H.
  apply (ensureDirs_result_lookup (fs s) f1 q Hp Ha).
  destruct (ensureDir (fs s) (Part001.publicDir h)) as [[e|] f1'];
    [discriminate|].
  destruct (ensureDir f1' (Part001.devAssetsDir h)) as [[e|] f2];
    [discriminate|].
  by inversion H.
Qed.

Lemma Sfc_ensureDirs_lookup (s : State Sfc.Plugin) f1 (q : path) :
  (forall k, q <> take k (Part001.publicDir h)) ->
  (forall k, q <> take k (Part001.devAssetsDir h)) ->
  Sfc.ensureDirs h s = (Ok tt, set_fs f1 s) -> f1 !! q = fs s !! q.
Proof.
  intros Hp Ha. rewrite Sfc_ensureDirs_run. intros H.
  apply (ensureDirs_result_lookup (fs s) f1 q Hp Ha).
  change (Sfc.publicDir h) with (Part001.publicDir h) in H.
  change (Sfc.devAssetsDir h) with (Part001.devAssetsDir h) in H.
  destruct (ensureDir (fs s) (Part001.publicDir h)) as [[e|] f1'];
    [discriminate|].
  destruct (ensureDir f1' (Part001.devAssetsDir h)) as [[e|] f2];
    [discriminate|].
  by inversion H.
Qed.

(** The copy on the file system alone. *)
Lemma copied_index (f1 f3 : gmap path node) :
  match f1 !! srcIndex h with
  | None => Some f1
  | Some (Dir _) => None
  | Some (File content) =>
      match Fs.writeFileSync f1 (Part001.publicDir h) (lit "index.html")
              content with
      | Ok f => Some f
      | Throw _ => None
      end
  end = Some f3 ->
  (forall content, f1 !! srcIndex h = Some (File content) ->
     f3 !! publicIndex h = Some (File content))
  /\ (f1 !! srcIndex h = None -> f3 = f1)
  /\ (forall q, q <> Part001.publicDir h -> q <> publicIndex h ->
        f3 !! q = f1 !! q).
Proof.
  intros H.
  destruct (f1 !! srcIndex h) as [[c|l]|]; [|discriminate|].
  - destruct (Fs.writeFileSync f1 _ _ c) as [f|e] eqn:Hw; [|discriminate].
    inversion H; subst f. split; [|split].
    + intros content [= <-]. eauto using writeFileSync_file.
    + discriminate.
    + intros q Hq1 Hq2. eauto using writeFileSync_other.
  - inversion H; subst f3. split; [discriminate|]. split; reflexivity.
Qed.

Lemma Part001_copyIndex_shape (s : State Data) f3 d0 :
  Part001.copyIndex h s = (Ok tt, set_fs f3 (set_plugin d0 s)) ->
  match fs s !! srcIndex h with
  | None => Some (fs s)
  | Some (Dir _) => None
  | Some (File content) =>
      match Fs.writeFileSync (fs s) (Part001.publicDir h) (lit "index.html")
              content with
      | Ok f => Some f
      | Throw _ => None
      end
  end = Some f3.
Proof.
  rewrite Part001_copyIndex_run.
  destruct (fs s !! srcIndex h) as [[c|l]|]; [|discriminate|].
  - destruct (Fs.writeFileSync _ _ _ c) as [f|e]; [|discriminate].
    intros H. by inversion H.
  - intros H. by inversion H.
Qed.

Lemma Sfc_copyIndex_shape (s : State Sfc.Plugin) f3 p0 :
  Sfc.copyIndex h s = (Ok tt, set_fs f3 (set_plugin p0 s)) ->
  match fs s !! srcIndex h with
  | None => Some (fs s)
  | Some (Dir _) => None
  | Some (File content) =>
      match Fs.writeFileSync (fs s) (Part001.publicDir h) (lit "index.html")
              content with
      | Ok f => Some f
      | Throw _ => None
      end
  end = Some f3.
Proof.
  rewrite Sfc_copyIndex_run.
  destruct (fs s !! srcIndex h) as [[c|l]|]; [|discriminate|].
  - destruct (Fs.writeFileSync _ _ _ c) as [f|e]; [|discriminate].
    intros H. by inversion H.
  - intros H. by inversion H.
Qed.

End ServerMore.

(** X17: when [configureServer] returns, the entry file
    [src/index.html], if it is there, has been copied as it is to
    [public/index.html]; if it is not there, [public/index.html] is as
    it was.  Both variants. *)
Theorem entry_file_is_copied (h : Host)
    (sB sB' : State Data) (sA sA' : State Sfc.Plugin) :
  Part001.configureServer h sB = (Ok tt, sB') ->
  Sfc.configureServer h sA = (Ok tt, sA') ->
  ((forall content, fs sB !! srcIndex h = Some (File content) ->
      fs sB' !! publicIndex h = Some (File content))
   /\ (fs sB !! srcIndex h = None ->
       fs sB' !! publicIndex h = fs sB !! publicIndex h))
  /\ ((forall content, fs sA !! srcIndex h = Some (File content) ->
         fs sA' !! publicIndex h = Some (File content))
      /\ (fs sA !! srcIndex h = None ->
          fs sA' !! publicIndex h = fs sA !! publicIndex h)).
Proof.
  destruct (index_paths_apart h) as (P1 & P2 & P3 & P4 & P5 & P6 & P7 & P8).
  assert (Hcore : forall f f1 f3 f4 : gmap path node,
    f1 !! srcIndex h = f !! srcIndex h ->
    f1 !! publicIndex h = f !! publicIndex h ->
    match f1 !! srcIndex h with
    | None => Some f1
    | Some (Dir _) => None
    | Some (File content) =>
        match Fs.writeFileSync f1 (Part001.publicDir h) (lit "index.html")
                content with
        | Ok f => Some f
        | Throw _ => None
        end
    end = Some f3 ->
    f4 !! publicIndex h = f3 !! publicIndex h ->
    (forall content, f !! srcIndex h = Some (File content) ->
       f4 !! publicIndex h = Some (File content))
    /\ (f !! srcIndex h = None -> f4 !! publicIndex h = f !! publicIndex h)).
  { intros f f1 f3 f4 Hs Hp Hc H4.
    destruct (copied_index h f1 f3 Hc) as (C1 & C2 & _).
    rewrite H4, <- Hs, <- Hp. split; [exact C1|].
    intros Hn. by rewrite (C2 Hn). }
  intros HB HA. split.
  - destruct (Part001_configureServer_ok h sB sB' HB)
      as (f1 & d & f3 & E & _ & C & W).
    apply (Hcore (fs sB) f1 f3 (fs sB')).
    + by apply (Part001_ensureDirs_lookup h sB).
    + by apply (Part001_ensureDirs_lookup h sB).
    + exact (Part001_copyIndex_shape h (set_plugin d (set_fs f1 sB)) f3 d C).
    + rewrite Part001_writeOnStart_run in W. cbv zeta in W. cbn [snd] in W.
      unfold Part001.watchIfPresent in W. rewrite watchIfPresent_run in W.
      inversion W as [Hs']. cbn [fs plugin set_fs set_plugin].
      rewrite <- (writeOutput_other (cleancss h) (minify h)
        (Part001.devAssetsDir h) d f3 (publicIndex h)) by auto.
      by destruct (Fs.existsSync _ _).
  - destruct (Sfc_configureServer_ok h sA sA' HA)
      as (f1 & d & f3 & E & _ & C & W).
    apply (Hcore (fs sA) f1 f3 (fs sA')).
    + by apply (Sfc_ensureDirs_lookup h _ _ _ P1 P2 E).
    + by apply (Sfc_ensureDirs_lookup h _ _ _ P3 P4 E).
    + exact (Sfc_copyIndex_shape h _ f3 (Sfc.mkPlugin d true) C).
    + rewrite Sfc_writeOnStart_run in W. cbv zeta in W. cbn [snd] in W.
      unfold Sfc.watchIfPresent in W.
      change (Sfc.componentsDir h) with (Part001.componentsDir h) in W.
      rewrite watchIfPresent_run in W.
      inversion W as [Hs']. cbn [fs plugin set_fs set_plugin set_data Sfc.data Sfc.isDev].
      rewrite <- (writeOutput_other (cleancss h) (jsOf h true)
        (Part001.devAssetsDir h) d f3 (publicIndex h)) by auto.
      by destruct (Fs.existsSync _ _).
Qed.

Lemma entry_file_is_copied_witness :
  exists sB', Part001.configureServer Demo.host (fresh Demo2.withIndex)
              = (Ok tt, sB')
    /\ fs sB' !! [lit "app"; lit "public"; lit "index.html"]
       = Some (File (lit "<card></card>")).
Proof.
  destruct (Part001.configureServer Demo.host (fresh Demo2.withIndex))
    as [r sB'] eqn:HB.
  destruct (Sfc.configureServer Demo.host (freshSfc Demo2.withIndex))
    as [r' sA'] eqn:HA.
  assert (r = Ok tt) as ->
    by (apply (f_equal fst) in HB; vm_compute in HB; congruence).
  assert (r' = Ok tt) as ->
    by (apply (f_equal fst) in HA; vm_compute in HA; congruence).
  exists sB'. split; [reflexivity|].
  destruct (entry_file_is_copied Demo.host _ _ _ _ HB HA) as [[H _] _].
  exact (H (lit "<card></card>") eq_refl).
Defined.

(** X18: when [configureServer] returns, it has added the component
    directory to the watcher and registered one change listener exactly
    if the directory exists, and has sent nothing to the client;
    [src/unnamed/part_001]. *)
Theorem watcher_registered_iff_directory (h : Host) (s s' : State Data) :
  Part001.configureServer h s = (Ok tt, s') ->
  let present := Fs.existsSync (fs s) (Part001.componentsDir h) in
  listeners s' = (if present then S (listeners s) else listeners s)
  /\ watched s'
     = (if present then watched s ++ [Part001.componentsDir h] else watched s)
  /\ sent s' = sent s.
Proof.
  intros H present. subst present.
  destruct (Part001_configureServer_ok h s s' H)
    as (f1 & d & f3 & E & _ & C & W).
  rewrite Part001_writeOnStart_run in W. cbv zeta in W. cbn [snd] in W.
  unfold Part001.watchIfPresent in W. rewrite watchIfPresent_run in W.
  cbn [fs plugin console watched listeners sent set_fs set_plugin] in W.
  assert (Hsame : Fs.existsSync
      (writeOutput (cleancss h) (minify h) (Part001.devAssetsDir h) d f3).2
      (Part001.componentsDir h)
    = Fs.existsSync (fs s) (Part001.componentsDir h)).
  { unfold Fs.existsSync.
    rewrite writeOutput_other
      by auto using components_ne_assets, components_ne_artifact.
    pose proof (Part001_copyIndex_shape h (set_plugin d (set_fs f1 s)) f3 d C)
      as C'.
    apply copied_index in C' as (_ & _ & C3).
    rewrite (C3 _ (components_ne_public h)
      (components_ne_public_file h (lit "index.html"))).
    cbn [fs set_fs set_plugin].
    by rewrite (Part001_ensureDirs_lookup h s f1 _
      (components_not_under_public h) (components_not_under_assets h) E). }
  rewrite Hsame in W. inversion W as [Hs'].
  destruct (Fs.existsSync (fs s) (Part001.componentsDir h));
    repeat split; reflexivity.
Qed.

Lemma watcher_registered_iff_directory_witness :
  exists s', Part001.configureServer Demo.host (fresh Demo2.withIndex)
             = (Ok tt, s')
    /\ listeners s' = 1 /\ watched s' = [Demo.components].
Proof.
  destruct (Part001.configureServer Demo.host (fresh Demo2.withIndex))
    as [r s'] eqn:H.
  assert (r = Ok tt) as ->
    by (apply (f_equal fst) in H; vm_compute in H; congruence).
  exists s'. split; [reflexivity|].
  destruct (watcher_registered_iff_directory Demo.host _ _ H) as (H1 & H2 & _).
  split; [exact H1|exact H2].
Defined.

(** ** [isDev] in [src/vite-plugin-sfc.js] *)

Section IsDev.

Variable h : Host.

Lemma keeps_isDev_bind {A B} (m : M Sfc.Plugin A) (k : A -> M Sfc.Plugin B) :
  keeps_isDev m -> (forall a, keeps_isDev (k a)) -> keeps_isDev (bind m k).
Proof.
  intros Hm Hk s. unfold bind. specialize (Hm s).
  destruct (m s) as [[a|e] s1]; cbn [snd] in *; [|exact Hm].
  by rewrite (Hk a s1).
Qed.

Lemma preserves_keeps_isDev {A} (q : path) (m : M Sfc.Plugin A) :
  preserves q m -> keeps_isDev m.
Proof. intros Hp s. destruct (Hp s) as (-> & _). reflexivity. Qed.

Lemma Sfc_extractIfPresent_keeps : keeps_isDev (Sfc.extractIfPresent h).
Proof.
  intros s. destruct (Sfc_extractIfPresent_run h s) as (r & d & ->).
  reflexivity.
Qed.

Lemma Sfc_watchIfPresent_keeps : keeps_isDev (Sfc.watchIfPresent h).
Proof.
  intros s. unfold Sfc.watchIfPresent.
  change (Sfc.componentsDir h) with (Part001.componentsDir h).
  rewrite watchIfPresent_run. cbn [snd].
  by destruct (Fs.existsSync (fs s) (Part001.componentsDir h)).
Qed.

Lemma Sfc_server_blocks_keep :
  keeps_isDev (Sfc.ensureDirs h ;;; Sfc.extractIfPresent h ;;;
               Sfc.copyIndex h ;;; Sfc.writeOnStart h ;;;
               Sfc.watchIfPresent h).
Proof.
  apply keeps_isDev_bind;
    [exact (preserves_keeps_isDev _ _ (Sfc_ensureDirs_preserves h))|].
  intros _. apply keeps_isDev_bind; [exact Sfc_extractIfPresent_keeps|].
  intros _. apply keeps_isDev_bind;
    [exact (preserves_keeps_isDev _ _ (Sfc_copyIndex_preserves h))|].
  intros _. apply keeps_isDev_bind;
    [exact (preserves_keeps_isDev _ _ (Sfc_writeOnStart_preserves h))|].
  intros _. exact Sfc_watchIfPresent_keeps.
Qed.

End IsDev.

(** X19: in [src/vite-plugin-sfc.js], [isDev] is false after
    [buildStart] and true after [configureServer], however they end,
    and the change listener leaves it as it is; so a rebuild on change
    writes the script as it is after [configureServer] and minified
    after [buildStart], whichever start hook ran last. *)
Theorem isDev_follows_last_start_hook (h : Host) (file : jsstring)
    (s : State Sfc.Plugin) :
  Sfc.isDev (plugin (Sfc.buildStart h s).2) = false
  /\ Sfc.isDev (plugin (Sfc.configureServer h s).2) = true
  /\ Sfc.isDev (plugin (Sfc.onChange h file s).2) = Sfc.isDev (plugin s)
  /\ (matches file = true ->
      let scanned :=
        scanDir Sfc.extracted h (fs s) (Sfc.componentsDir h) emptyData in
      scanned.1 = Ok tt ->
      fs (Sfc.onChange h file s).2
      = (writeOutput (cleancss h)
           (if Sfc.isDev (plugin s) then Some else minify h)
           (Sfc.devAssetsDir h) scanned.2 (fs s)).2).
Proof.
  split; [|split; [|split]].
  - rewrite Sfc_buildStart_run. cbv zeta.
    by destruct (Fs.existsSync (fs s) (Sfc.componentsDir h)).
  - unfold Sfc.configureServer, bind at 1, Sfc.set_isDev at 1, modify.
    by rewrite (Sfc_server_blocks_keep h).
  - destruct (matches file) eqn:Hm.
    + rewrite (Sfc_onChange_run h file s Hm). cbv zeta.
      by destruct (scanDir Sfc.extracted h (fs s) (Sfc.componentsDir h)
        emptyData) as [[[]|e] d].
    + by rewrite (Sfc_onChange_skip h file s Hm).
  - intros Hm scanned Hok. subst scanned.
    rewrite (Sfc_onChange_run h file s Hm). cbv zeta. rewrite Hok.
    cbn [snd fs]. unfold jsOf.
    by destruct (Sfc.isDev (plugin s)).
Qed.

Lemma isDev_follows_last_start_hook_witness :
  let f := Demo.tree [(lit "card.html", Demo.cardSource)] in
  let file := lit "/app/src/components/card.html" in
  let afterServer := (Sfc.configureServer Demo.host (freshSfc f)).2 in
  let afterBuild := (Sfc.buildStart Demo.host afterServer).2 in
  fs (Sfc.onChange Demo.host file afterServer).2
    !! Fs.join Demo.assets (lit "app.min.js")
  <> fs (Sfc.onChange Demo.host file afterBuild).2
       !! Fs.join Demo.assets (lit "app.min.js").
Proof.
  cbv zeta.
  rewrite (proj2 (proj2 (proj2 (isDev_follows_last_start_hook Demo.host
    (lit "/app/src/components/card.html")
    (Sfc.configureServer Demo.host
       (freshSfc (Demo.tree [(lit "card.html", Demo.cardSource)]))).2)))
    eq_refl ltac:(vm_compute; reflexivity)).
  vm_compute. discriminate.
Defined.

(** ** [writeBundle] makes its directory *)

Section BundleDir.

Variables (css : jsstring -> jsstring) (js : jsstring -> option jsstring).
Implicit Types (d : Data) (dir : path).

Lemma writeOutput_ok_dir dir d (f f' : gmap path node) :
  writeOutput css js dir d f = (Ok tt, f') ->
  exists l, f' !! dir = Some (Dir l).
Proof.
  unfold writeOutput. intros H.
  destruct (if truthy (style d) then _ else _) as [f1|e]; [|discriminate].
  destruct (js (combined d)) as [code|]; [|discriminate].
  destruct (Fs.writeFileSync f1 dir _ code) as [f2|e] eqn:H2; [|discriminate].
  inversion H; subst.
  destruct (writeFileSync_dir _ _ _ _ _ H2) as (l & Hl & _). eauto.
Qed.

Lemma ensureDir_makes (f : gmap path node) (dir : path) :
  dir <> [] ->
  (exists l, f !! [] = Some (Dir l)) ->
  (forall k, not_file f (take k dir)) ->
  exists f1 l, ensureDir f dir = (None, f1) /\ f1 !! dir = Some (Dir l).
Proof.
  intros Hne Hroot Hnf. unfold ensureDir, Fs.existsSync.
  destruct (f !! dir) as [[c|l]|] eqn:Hd.
  - destruct (Hnf (length dir) c). by rewrite firstn_all.
  - eauto.
  - unfold Fs.mkdirSync.
    pose proof (mkdirs_succeeds [] dir f Hroot Hnf) as Hok.
    destruct (mkdirs_ok_dir [] dir f Hok Hne) as [l Hl].
    destruct (Fs.mkdirs [] dir f) as [r f1]. cbn [fst snd] in *. subst r.
    eauto.
Qed.

Lemma ensured_output_succeeds dir d (f : gmap path node) code :
  dir <> [] ->
  (exists l, f !! [] = Some (Dir l)) ->
  (forall k, not_file f (take k dir)) ->
  not_dir f (Fs.join dir (lit "app.min.css")) ->
  not_dir f (Fs.join dir (lit "app.min.js")) ->
  js (combined d) = Some code ->
  exists f1 f' l,
    ensureDir f dir = (None, f1)
    /\ writeOutput css js dir d f1 = (Ok tt, f')
    /\ f' !! Fs.join dir (lit "app.min.js") = Some (File code)
    /\ f' !! dir = Some (Dir l)
    /\ (style d <> [] ->
        f' !! Fs.join dir (lit "app.min.css") = Some (File (css (style d)))).
Proof.
  intros Hne Hroot Hnf Hc Hj Hjs.
  destruct (ensureDir_makes f dir Hne Hroot Hnf) as (f1 & l1 & He & Hd).
  pose proof (ensureDir_child f dir (lit "app.min.css")) as Ec.
  pose proof (ensureDir_child f dir (lit "app.min.js")) as Ej.
  rewrite He in Ec, Ej. cbn [snd] in Ec, Ej.
  destruct (writeOutput_js css js dir d f1 l1 code Hd) as (f' & Hw & Hf');
    [intros l; rewrite Ec; apply Hc|intros l; rewrite Ej; apply Hj|exact Hjs|].
  destruct (writeOutput_ok_dir _ _ _ _ Hw) as [l Hl].
  exists f1, f', l. repeat split; try assumption.
  intros Hs. destruct (writeOutput_style_rule css js dir d f1) as (_ & _ & R).
  rewrite Hw in R. cbn [snd] in R. apply (R Hs l1 Hd).
  intros l'. rewrite Ec. apply Hc.
Qed.

End BundleDir.

(** X20: [writeBundle] makes its asset directory with the directories
    above it: whenever no regular file is in the way, the artifacts are
    not directories and the minifier accepts the script, it returns,
    the directory is there, the script artifact holds the minified
    script and, for a non-empty style, the style artifact the minified
    style.  Both variants. *)
Theorem writeBundle_makes_its_directory (h : Host) (dir : option path)
    (code : jsstring) (sB : State Data) (sA : State Sfc.Plugin) :
  let assetsDir := bundleAssetsDir h dir in
  fs sA = fs sB -> Sfc.data (plugin sA) = plugin sB ->
  (exists l, fs sB !! [] = Some (Dir l)) ->
  (forall k, not_file (fs sB) (take k assetsDir)) ->
  not_dir (fs sB) (Fs.join assetsDir (lit "app.min.css")) ->
  not_dir (fs sB) (Fs.join assetsDir (lit "app.min.js")) ->
  minify h (template (plugin sB) ++ lit " " ++ script (plugin sB)) = Some code ->
  exists f' l,
    Part001.writeBundle h dir sB = (Ok tt, set_fs f' sB)
    /\ Sfc.writeBundle h dir sA = (Ok tt, set_fs f' sA)
    /\ f' !! assetsDir = Some (Dir l)
    /\ f' !! Fs.join assetsDir (lit "app.min.js") = Some (File code)
    /\ (style (plugin sB) <> [] ->
        f' !! Fs.join assetsDir (lit "app.min.css")
        = Some (File (cleancss h (style (plugin sB))))).
Proof.
  intros assetsDir Hfs Hd Hroot Hnf Hc Hj Hmin. subst assetsDir.
  assert (Hne : bundleAssetsDir h dir <> []).
  { unfold bundleAssetsDir, Fs.join. by destruct (default _ dir). }
  destruct (ensured_output_succeeds (cleancss h) (minify h)
    (bundleAssetsDir h dir) (plugin sB) (fs sB) code Hne Hroot Hnf Hc Hj Hmin)
    as (f1 & f' & l & He & Hw & Hjs & Hdir & Hcss).
  exists f', l.
  rewrite Part001_writeBundle_run, Sfc_writeBundle_run, Hfs, Hd, He, Hw.
  repeat split; assumption.
Qed.

Lemma writeBundle_makes_its_directory_witness :
  let s := (Part001.buildStart Demo.host (fresh Demo2.sourcesOnly)).2 in
  exists f' l,
    Part001.writeBundle Demo.host None s = (Ok tt, set_fs f' s)
    /\ f' !! Demo.distAssets = Some (Dir l)
    /\ f' !! Fs.join Demo.distAssets (lit "app.min.css")
       = Some (File (lit "p{color:red}")).
Proof.
  destruct (writeBundle_makes_its_directory Demo.host None
    (trim (combined (plugin (Part001.buildStart Demo.host
                               (fresh Demo2.sourcesOnly)).2)))
    (Part001.buildStart Demo.host (fresh Demo2.sourcesOnly)).2
    (set_data (plugin (Part001.buildStart Demo.host
                         (fresh Demo2.sourcesOnly)).2)
       (freshSfc Demo2.sourcesOnly)))
    as (f' & l & HB & _ & Hdir & _ & Hcss).
  - reflexivity.
  - vm_compute. reflexivity.
  - eexists. vm_compute. reflexivity.
  - intros k content.
    destruct k as [|[|[|[|k]]]]; vm_compute; discriminate.
  - intros entries. vm_compute. discriminate.
  - intros entries. vm_compute. discriminate.
  - reflexivity.
  - exists f', l. split; [exact HB|]. split; [exact Hdir|].
    apply Hcss. vm_compute. discriminate.
Defined.

(** ** The files that the change listener reacts to *)

Lemma startsWith_iff (pre s : jsstring) :
  startsWith pre s = true <-> exists rest, s = pre ++ rest.
Proof.
  revert s. induction pre as [|c pre IH]; intros s.
  - simpl. split; [eauto|reflexivity].
  - destruct s as [|c' s]; simpl.
    + split; [discriminate|intros [rest H]; discriminate H].
    + rewrite andb_true_iff, N.eqb_eq, IH. split.
      * intros [-> [rest ->]]. eauto.
      * intros [rest [= -> ->]]. eauto.
Qed.

Lemma includes_iff (s sub : jsstring) :
  includes s sub = true <-> exists a b, s = a ++ sub ++ b.
Proof.
  induction s as [|c s IH].
  - simpl. rewrite orb_false_r, startsWith_iff. split.
    + intros [rest H]. exists [], rest. exact H.
    + intros (a & b & H). destruct a; [eauto|discriminate H].
  - cbn [includes]. rewrite orb_true_iff, startsWith_iff, IH. split.
    + intros [[rest H]|(a & b & ->)].
      * exists [], rest. exact H.
      * exists (c :: a), b. reflexivity.
    + intros (a & b & H). destruct a as [|c' a].
      * left. eauto.
      * right. injection H as -> ->. eauto.
Qed.

Lemma endsWith_iff (s suffix : jsstring) :
  endsWith s suffix = true <-> exists a, s = a ++ suffix.
Proof.
  unfold endsWith. rewrite startsWith_iff. split.
  - intros [rest H]. exists (rev rest).
    apply (f_equal (@rev _)) in H.
    by rewrite rev_involutive, rev_app_distr, rev_involutive in H.
  - intros [a ->]. exists (rev a). by rewrite rev_app_distr.
Qed.

(** X21: the change listener reacts to a changed file exactly when its
    path holds [/components/] somewhere and ends in [.html] (nothing in
    the test ties the path to the project's own component directory);
    on any other file it does nothing at all.  Both variants. *)
Theorem change_listener_trigger (h : Host) (file : jsstring)
    (sB : State Data) (sA : State Sfc.Plugin) :
  (matches file = true
   <-> (exists a b, file = a ++ lit "/components/" ++ b)
       /\ (exists a, file = a ++ lit ".html"))
  /\ (matches file = false ->
      Part001.onChange h file sB = (Ok tt, sB)
      /\ Sfc.onChange h file sA = (Ok tt, sA))
  /\ (matches file = true ->
      Part001.onChange h file sB <> (Ok tt, sB)
      /\ Sfc.onChange h file sA <> (Ok tt, sA)).
Proof.
  split; [|split].
  - unfold matches. by rewrite andb_true_iff, includes_iff, endsWith_iff.
  - intros Hm. split;
      [by apply Part001_onChange_skip|by apply Sfc_onChange_skip].
  - intros Hm.
    rewrite (Part001_onChange_run h file sB Hm),
      (Sfc_onChange_run h file sA Hm). cbv zeta.
    split.
    + destruct (scanDir Part001.extracted h (fs sB) _ emptyData)
        as [[[]|e] d]; cbn [fst snd]; [|discriminate].
      intros H. apply (f_equal (fun r => sent r.2)) in H. simpl in H. lia.
    + destruct (scanDir Sfc.extracted h (fs sA) _ emptyData)
        as [[[]|e] d]; cbn [fst snd]; [|discriminate].
      intros H. apply (f_equal (fun r => sent r.2)) in H. simpl in H. lia.
Qed.
